(** * Authorization broker for a calendar tool: a shallow embedding

    The development embeds the authorization and token-lifecycle code of
    the repository ([wellaios/authenticate.py], [wellaios/disk.py],
    [wellaios/google.py] and the routes of [main.py]) and proves the
    properties stated about it.

    Conventions of the embedding.
    - A Python [str] obtained by decoding bytes as latin-1 is a Rocq
      [string]: one 8-bit character per code point.
    - JSON documents are values of [jval]; Python's [None] and JSON's
      [null] are the same value [JNull].  JSON numbers are integers
      (what the token endpoint sends for [expires_in]); floating-point
      numbers are outside the model.
    - The interpreter state that the code reads and writes (token files,
      the two module-level dictionaries, standard output, the calls made
      to the provider) is a record [World]; what the outside world
      answers (clock, random bytes, provider responses, environment
      variables) is a record [Env].
    - A Python function is a computation in the monad [M]: it receives a
      world and gives back a returned value or a raised exception together
      with the world it leaves behind. *)

From Stdlib Require Import ZArith String Ascii List Lia.
From stdpp Require Import base option gmap strings list pretty.

Open Scope string_scope.
Open Scope list_scope.
Open Scope Z_scope.

(** ** Python strings *)

Module Py.

(** [str.isspace] on a single code point below 256. *)
Definition isspace (c : ascii) : bool :=
  let n := N_of_ascii c in
  ((9 <=? n) && (n <=? 13) || (28 <=? n) && (n <=? 32)
   || (n =? 133) || (n =? 160))%N.

(** [str.lower] on a single code point below 256. *)
Definition lower_char (c : ascii) : ascii :=
  let n := N_of_ascii c in
  if ((65 <=? n) && (n <=? 90)
      || (192 <=? n) && (n <=? 222) && negb (n =? 215))%N
  then ascii_of_N (n + 32) else c.

Fixpoint lower (s : string) : string :=
  match s with
  | EmptyString => EmptyString
  | String c r => String (lower_char c) (lower r)
  end.

(** [s.lstrip()] *)
Fixpoint lstrip (s : string) : string :=
  match s with
  | EmptyString => EmptyString
  | String c r => if isspace c then lstrip r else s
  end.

Fixpoint all_space (s : string) : bool :=
  match s with
  | EmptyString => true
  | String c r => isspace c && all_space r
  end.

(** [s.rstrip()] *)
Fixpoint rstrip (s : string) : string :=
  match s with
  | EmptyString => EmptyString
  | String c r => if all_space s then EmptyString else String c (rstrip r)
  end.

(** [s.strip()] *)
Definition strip (s : string) : string := rstrip (lstrip s).

(** The longest prefix without white space, and what follows it. *)
Fixpoint span_word (s : string) : string * string :=
  match s with
  | EmptyString => (EmptyString, EmptyString)
  | String c r =>
      if isspace c then (EmptyString, s)
      else let (w, rest) := span_word r in (String c w, rest)
  end.

(** [s.split(maxsplit=1)]: split on runs of white space, at most once. *)
Definition split_maxsplit1 (s : string) : list string :=
  match lstrip s with
  | EmptyString => []
  | s1 =>
      let (w, rest) := span_word s1 in
      match lstrip rest with
      | EmptyString => [w]
      | tail => [w; tail]
      end
  end.

(** [sep in s] for a one-character [sep]. *)
Fixpoint contains_char (sep : ascii) (s : string) : bool :=
  match s with
  | EmptyString => false
  | String c r => Ascii.eqb c sep || contains_char sep r
  end.

(** The part of [s] before the first [sep] and the part after it (the
    whole of [s] and the empty string when [sep] does not occur). *)
Fixpoint cut (sep : ascii) (s : string) : string * string :=
  match s with
  | EmptyString => (EmptyString, EmptyString)
  | String c r =>
      if Ascii.eqb c sep then (EmptyString, r)
      else let (a, b) := cut sep r in (String c a, b)
  end.

(** [s.split(sep)] for a one-character [sep]. *)
Fixpoint split (sep : ascii) (s : string) : list string :=
  match s with
  | EmptyString => [EmptyString]
  | String c r =>
      if Ascii.eqb c sep then EmptyString :: split sep r
      else match split sep r with
           | [] => [String c EmptyString]
           | w :: ws => String c w :: ws
           end
  end.

(** [sub in s] *)
Definition contains (sub s : string) : bool :=
  match String.index 0 sub s with Some _ => true | None => false end.

(** The truth value of a [str] or [None]. *)
Definition truthy_str (x : option string) : bool :=
  match x with Some s => negb (String.eqb s "") | None => false end.

(** [s.startswith(p)] *)
Definition startswith (s p : string) : bool := String.prefix p s.

(** [str(x)] inside an f-string, for a value that is a [str] or [None]. *)
Definition str_of (x : option string) : string :=
  match x with Some s => s | None => "None" end.

(** [os.path.join(a, b)] on a POSIX system, for a non-empty [b]. *)
Definition path_join (a b : string) : string :=
  if startswith b "/" then b
  else if (String.eqb a "" || String.eqb (substring (String.length a - 1) 1 a) "/")%bool
       then a +:+ b
       else a +:+ "/" +:+ b.

Definition hex_digit (n : N) : ascii :=
  if (n <? 10)%N then ascii_of_N (48 + n) else ascii_of_N (87 + n).

(** [bytes.hex()] *)
Fixpoint hex (bs : list ascii) : string :=
  match bs with
  | [] => EmptyString
  | b :: r =>
      let n := N_of_ascii b in
      String (hex_digit (n / 16)) (String (hex_digit (n mod 16)) (hex r))
  end.

End Py.

(** ** JSON values *)

#[warnings="-register-all"]
Inductive jval : Type :=
  | JNull
  | JBool (b : bool)
  | JInt (n : Z)
  | JStr (s : string)
  | JArr (l : list jval)
  | JObj (o : gmap string jval).

(** The text of a file or of an HTTP body: the serialisation of a JSON
    value ([json.dump], read back unchanged by [json.load]), or a text that
    is not JSON. *)
Inductive text : Type :=
  | JsonText (j : jval)
  | NotJson.

(** Python's truth value of a JSON value ([not x] is its negation). *)
Definition truthy (j : jval) : bool :=
  match j with
  | JNull => false
  | JBool b => b
  | JInt n => negb (n =? 0)
  | JStr s => negb (String.eqb s "")
  | JArr l => match l with [] => false | _ => true end
  | JObj o => match map_to_list o with [] => false | _ => true end
  end.

(** The integer a value stands for in arithmetic ([bool] is a subclass of
    [int]); [None] when arithmetic on it raises [TypeError]. *)
Definition as_int (j : jval) : option Z :=
  match j with
  | JInt n => Some n
  | JBool b => Some (if b then 1 else 0)
  | _ => None
  end.

Definition opt_str (x : option string) : jval :=
  match x with Some s => JStr s | None => JNull end.

(** ** Exceptions, responses and the provider *)

Inductive exn : Type :=
  | FileNotFoundError
  | OSError
  | JSONDecodeError
  | TypeError
  | AttributeError
  | KeyError (key : string)
  | ConnectionError
  | HTTPError (status : Z).

(** The text printed for an exception by [print(f"... {e}")]. *)
Definition exn_text (e : exn) : string :=
  match e with
  | FileNotFoundError => "FileNotFoundError"
  | OSError => "OSError"
  | JSONDecodeError => "JSONDecodeError"
  | TypeError => "TypeError"
  | AttributeError => "AttributeError"
  | KeyError k => "'" +:+ k +:+ "'"
  | ConnectionError => "ConnectionError"
  | HTTPError _ => "HTTPError"
  end.

(** A call [requests.post(url, data=...)]. *)
Record http_request : Type := HttpRequest {
  req_url : string;
  req_data : list (string * jval)
}.

(** What [requests.post] gives: a transport failure (an exception) or a
    response with its status code and body. *)
Inductive http_outcome : Type :=
  | TransportFailure
  | HttpResponse (status_code : Z) (body : text).

(** A URL with its query parameters before [urlencode]. *)
Record url : Type := Url {
  url_base : string;
  url_params : list (string * string)
}.

(** Starlette responses built by the code. *)
Inductive response : Type :=
  | PlainTextResponse (content : string) (status_code : Z)
  | RedirectResponse (location : url).

(** An ASGI connection scope, with the keys the middleware reads; [None]
    is a key that is absent. *)
Record scope : Type := Scope {
  scope_type : string;
  scope_path : option string;
  scope_headers : option (list (string * string));
  scope_query_string : option string
}.

(** The parsed request a route handler receives: its query parameters. *)
Record Request : Type := MkRequest {
  query_params : gmap string string
}.

(** ** The environment and the world *)

Record Env : Type := MkEnv {
  (** [os.environ] once [load_dotenv()] has run *)
  environ : gmap string string;
  (** the value of [int(time.time())] at its n-th reading *)
  clock : nat → Z;
  (** the stream of bytes [os.urandom] draws from *)
  random_byte : nat → ascii;
  (** the provider's answer to the n-th [requests.post] *)
  provider : nat → http_request → http_outcome;
  (** whether [os.makedirs(dir, exist_ok=True)] succeeds *)
  can_makedirs : string → bool;
  (** whether [open(path, "w")] succeeds *)
  writable : string → bool
}.

Record World : Type := MkWorld {
  (** the files, by the text of their path: two paths are the same file
      when they are the same text.  This is how the file system behaves
      for the token files of user ids without a path separator, each an
      entry of the token folder; path texts that the file system resolves
      to one file (as [tokens/./u1.json] and [tokens/u1.json]) are kept
      apart here, and nothing is stated about them *)
  files : gmap string text;
  (** [authenticate.temp_user_oauth_token] *)
  temp_user_oauth_token : gmap string string;
  (** [google.temp_google_oauth_states] *)
  temp_google_oauth_states : gmap string string;
  (** lines printed so far, oldest first *)
  stdout : list string;
  (** calls made to the provider so far, oldest first *)
  posts : list http_request;
  (** responses sent by the middleware itself, oldest first *)
  sent : list response;
  (** how many times the clock was read *)
  clock_reads : nat;
  (** how many random bytes were drawn *)
  random_drawn : nat
}.

Definition set_files (f : gmap string text) (w : World) : World :=
  MkWorld f (temp_user_oauth_token w) (temp_google_oauth_states w)
    (stdout w) (posts w) (sent w) (clock_reads w) (random_drawn w).

Definition set_temp_user_oauth_token (t : gmap string string) (w : World) : World :=
  MkWorld (files w) t (temp_google_oauth_states w)
    (stdout w) (posts w) (sent w) (clock_reads w) (random_drawn w).

Definition set_temp_google_oauth_states (t : gmap string string) (w : World) : World :=
  MkWorld (files w) (temp_user_oauth_token w) t
    (stdout w) (posts w) (sent w) (clock_reads w) (random_drawn w).

Definition set_stdout (o : list string) (w : World) : World :=
  MkWorld (files w) (temp_user_oauth_token w) (temp_google_oauth_states w)
    o (posts w) (sent w) (clock_reads w) (random_drawn w).

Definition set_posts (p : list http_request) (w : World) : World :=
  MkWorld (files w) (temp_user_oauth_token w) (temp_google_oauth_states w)
    (stdout w) p (sent w) (clock_reads w) (random_drawn w).

Definition set_sent (s : list response) (w : World) : World :=
  MkWorld (files w) (temp_user_oauth_token w) (temp_google_oauth_states w)
    (stdout w) (posts w) s (clock_reads w) (random_drawn w).

Definition set_clock_reads (n : nat) (w : World) : World :=
  MkWorld (files w) (temp_user_oauth_token w) (temp_google_oauth_states w)
    (stdout w) (posts w) (sent w) n (random_drawn w).

Definition set_random_drawn (n : nat) (w : World) : World :=
  MkWorld (files w) (temp_user_oauth_token w) (temp_google_oauth_states w)
    (stdout w) (posts w) (sent w) (clock_reads w) n.

(** The world of a process that has just started, on the files [fs]. *)
Definition fresh_world (fs : gmap string text) : World :=
  MkWorld fs ∅ ∅ [] [] [] 0 0.

(** ** The monad of Python computations *)

Inductive outcome (A : Type) : Type :=
  | Ret (a : A)
  | Raise (e : exn).
Arguments Ret {A} a.
Arguments Raise {A} e.

Definition M (A : Type) : Type := World → outcome A * World.

#[global] Instance M_ret : MRet M := λ A a w, (Ret a, w).

#[global] Instance M_bind : MBind M := λ A B f m w,
  match m w with
  | (Ret a, w') => f a w'
  | (Raise e, w') => (Raise e, w')
  end.

Definition raise {A} (e : exn) : M A := λ w, (Raise e, w).

(** [try: m  except Exception as e: h e] *)
Definition try_except {A} (m : M A) (h : exn → M A) : M A := λ w,
  match m w with
  | (Ret a, w') => (Ret a, w')
  | (Raise e, w') => h e w'
  end.

Definition gets {A} (f : World → A) : M A := λ w, (Ret (f w), w).
Definition modify (f : World → World) : M unit := λ w, (Ret tt, f w).

Section Primitives.
Variable env : Env.

(** [print(line)] *)
Definition print (line : string) : M unit :=
  modify (λ w, set_stdout (stdout w ++ [line]) w).

(** [int(time.time())] *)
Definition time_now : M Z := λ w,
  (Ret (clock env (clock_reads w)), set_clock_reads (S (clock_reads w)) w).

(** [os.urandom(n)] *)
Definition os_urandom (n : nat) : M (list ascii) := λ w,
  (Ret (map (random_byte env) (seq (random_drawn w) n)),
   set_random_drawn (random_drawn w + n)%nat w).

(** [requests.post(url, data=data)] *)
Definition requests_post (u : string) (data : list (string * jval))
  : M (Z * text) := λ w,
  let rq := HttpRequest u data in
  let w' := set_posts (posts w ++ [rq]) w in
  match provider env (length (posts w)) rq with
  | TransportFailure => (Raise ConnectionError, w')
  | HttpResponse st b => (Ret (st, b), w')
  end.

(** [response.raise_for_status()] *)
Definition raise_for_status (r : Z * text) : M unit :=
  if (400 <=? r.1) && (r.1 <? 600) then raise (HTTPError r.1) else mret tt.

(** [response.json()] and [json.load(f)] *)
Definition json_of (t : text) : M jval :=
  match t with
  | JsonText j => mret j
  | NotJson => raise JSONDecodeError
  end.

(** [with open(path, "r") as f: json.load(f)] *)
Definition read_json (path : string) : M jval :=
  fs ← gets files;
  match fs !! path with
  | None => raise FileNotFoundError
  | Some t => json_of t
  end.

(** [os.makedirs(dir, exist_ok=True)]; the directory itself is not part
    of the model of the files. *)
Definition os_makedirs (dir : string) : M unit :=
  if can_makedirs env dir then mret tt else raise OSError.

(** [with open(path, "w") as f: json.dump(j, f, indent=4)] *)
Definition write_json (path : string) (j : jval) : M unit :=
  if writable env path
  then modify (λ w, set_files (<[path := JsonText j]> (files w)) w)
  else raise OSError.

(** [os.environ.get(name)] *)
Definition os_environ_get (name : string) : option string :=
  environ env !! name.

(** [d.get(key)] *)
Definition dict_get (d : jval) (key : string) : M jval :=
  match d with
  | JObj o => mret (default JNull (o !! key))
  | _ => raise AttributeError
  end.

(** [key in d] *)
Definition py_in (key : string) (d : jval) : M bool :=
  match d with
  | JObj o => mret (bool_decide (is_Some (o !! key)))
  | JArr l =>
      mret (existsb (λ x, match x with
                          | JStr s => String.eqb s key
                          | _ => false
                          end) l)
  | JStr s => mret (Py.contains key s)
  | _ => raise TypeError
  end.

(** [d[key]] *)
Definition getitem (d : jval) (key : string) : M jval :=
  match d with
  | JObj o =>
      match o !! key with
      | Some v => mret v
      | None => raise (KeyError key)
      end
  | _ => raise TypeError
  end.

(** [d[key] = v]; the result is the dictionary after the assignment. *)
Definition setitem (d : jval) (key : string) (v : jval) : M jval :=
  match d with
  | JObj o => mret (JObj (<[key := v]> o))
  | _ => raise TypeError
  end.

(** [a + b] and [a - b] for an integer [a] or [b] and a JSON value. *)
Definition int_add (a : Z) (b : jval) : M Z :=
  match as_int b with
  | Some n => mret (a + n)
  | None => raise TypeError
  end.

Definition sub_int (a : jval) (b : Z) : M Z :=
  match as_int a with
  | Some n => mret (n - b)
  | None => raise TypeError
  end.

End Primitives.

(** ** The program *)

Record Settings : Type := MkSettings {
  s_bearer_token : option string;
  s_server_domain : option string;
  s_google_client_id : option string;
  s_google_client_secret : option string;
  s_google_redirect_uri : string
}.

Section Program.
Variable env : Env.

(** *** Module-level constants *)

(** [authenticate.py] *)
Definition BEARER_TOKEN : option string := os_environ_get env "AUTH_TOKEN".

(** [google.py] *)
Definition SERVER_DOMAIN : option string := os_environ_get env "SERVER_DOMAIN".
Definition GOOGLE_CLIENT_ID : option string :=
  os_environ_get env "GOOGLE_CLIENT_ID".
Definition GOOGLE_CLIENT_SECRET : option string :=
  os_environ_get env "GOOGLE_CLIENT_SECRET".
Definition GOOGLE_REDIRECT_URI : string :=
  Py.str_of SERVER_DOMAIN +:+ "/auth/google/callback".
Definition GOOGLE_SCOPES : list string :=
  [ "https://www.googleapis.com/auth/calendar.readonly";
    "https://www.googleapis.com/auth/calendar.events" ].

(** [disk.py] *)
Definition FOLDER : string := "tokens".

(** *** disk.py *)

Definition token_filepath (user_id : string) : string :=
  Py.path_join FOLDER (user_id +:+ ".json").

(** The result is the dictionary [token_data] as the call leaves it: the
    function mutates its argument in place. *)
Definition save_user_google_tokens (user_id : string) (token_data : jval)
  : M jval :=
  os_makedirs env FOLDER;;
  let filepath := token_filepath user_id in
  has_expires_in ← py_in "expires_in" token_data;
  token_data ←
    (if has_expires_in : bool then
       now ← time_now env;
       expires_in ← getitem token_data "expires_in";
       expires_at ← int_add now expires_in;
       setitem token_data "expires_at" (JInt expires_at)
     else
       token_data ← setitem token_data "expires_at" (JInt 0);
       print ("Warning: No 'expires_in' info for user " +:+ user_id
              +:+ ". 'expires_at' set to 0.");;
       mret token_data);
  write_json env filepath token_data;;
  mret token_data.

Definition get_user_google_credentials (user_id : string)
  : M (option (bool * jval)) :=
  let filepath := token_filepath user_id in
  current_time ← time_now env;
  loaded ← try_except
    (token_data ← read_json filepath; mret (Some token_data))
    (λ e, match e with
          | FileNotFoundError => mret None
          | _ =>
              print ("An unexpected error occurred for user " +:+ user_id
                     +:+ ": " +:+ exn_text e);;
              mret None
          end);
  match loaded with
  | None => mret None
  | Some token_data =>
      access_token ← dict_get token_data "access_token";
      refresh_token ← dict_get token_data "refresh_token";
      expires_at ← dict_get token_data "expires_at";
      if negb (truthy access_token)
         || match expires_at with JNull => true | _ => false end
      then
        print ("Missing essential token data for user " +:+ user_id);;
        mret None
      else
        limit ← sub_int expires_at 60;
        if current_time >=? limit
        then mret (Some (false, refresh_token))
        else mret (Some (true, access_token))
  end.

(** *** google.py *)

Definition token_url : string := "https://oauth2.googleapis.com/token".

Definition refresh_google_access_token (userid : string) (refresh_token : jval)
  : M jval :=
  let payload :=
    [ ("client_id", opt_str GOOGLE_CLIENT_ID);
      ("client_secret", opt_str GOOGLE_CLIENT_SECRET);
      ("refresh_token", refresh_token);
      ("grant_type", JStr "refresh_token") ] in
  try_except
    (response ← requests_post env token_url payload;
     raise_for_status response;;
     new_token_data ← json_of response.2;
     new_token_data ← setitem new_token_data "refresh_token" refresh_token;
     new_token_data ← save_user_google_tokens userid new_token_data;
     getitem new_token_data "access_token")
    (λ e,
      print ("An unexpected error occurred during token refresh for user "
             +:+ userid +:+ ": " +:+ exn_text e);;
      mret JNull).

Definition generate_google_auth_url (state : string) : url :=
  let params :=
    [ ("client_id", Py.str_of GOOGLE_CLIENT_ID);
      ("redirect_uri", GOOGLE_REDIRECT_URI);
      ("response_type", "code");
      ("scope", String.concat " " GOOGLE_SCOPES);
      ("access_type", "offline");
      ("prompt", "consent");
      ("state", state) ] in
  Url "https://accounts.google.com/o/oauth2/v2/auth" params.

Definition exchange_code_for_tokens (code : string) : M jval :=
  response ← requests_post env token_url
    [ ("code", JStr code);
      ("client_id", opt_str GOOGLE_CLIENT_ID);
      ("client_secret", opt_str GOOGLE_CLIENT_SECRET);
      ("redirect_uri", JStr GOOGLE_REDIRECT_URI);
      ("grant_type", JStr "authorization_code") ];
  raise_for_status response;;
  json_of response.2.

Definition start_google_auth (user_id : string) : M response :=
  random ← os_urandom env 16;
  let state := Py.hex random in
  modify (λ w, set_temp_google_oauth_states
                 (<[state := user_id]> (temp_google_oauth_states w)) w);;
  let auth_url := generate_google_auth_url state in
  mret (RedirectResponse auth_url).

(** [temp_google_oauth_states.pop(state, None)] *)
Definition pop_state (state : string) : M (option string) := λ w,
  (Ret (temp_google_oauth_states w !! state),
   set_temp_google_oauth_states (delete state (temp_google_oauth_states w)) w).

Definition handle_google_callback (request : Request) : M response :=
  let code := query_params request !! "code" in
  let state := query_params request !! "state" in
  let error := query_params request !! "error" in
  if Py.truthy_str error then
    print ("Google OAuth error: " +:+ Py.str_of error);;
    mret (PlainTextResponse ("Google OAuth Error: " +:+ Py.str_of error) 400)
  else if negb (Py.truthy_str code) || negb (Py.truthy_str state) then
    mret (PlainTextResponse "Invalid OAuth callback parameters" 400)
  else
    user_id ← pop_state (default "" state);
    match user_id with
    | None =>
        print ("Invalid or missing state parameter: " +:+ Py.str_of state);;
        mret (PlainTextResponse "Invalid or expired state parameter" 400)
    | Some user_id =>
        try_except
          (token_data ← exchange_code_for_tokens (default "" code);
           save_user_google_tokens user_id token_data;;
           mret (PlainTextResponse "You can close the tab." 200))
          (λ e,
            print ("An unexpected error occurred during token exchange: "
                   +:+ exn_text e);;
            mret (PlainTextResponse "An internal error occurred." 500))
    end.

Definition get_user_token (user_id : string) : M jval :=
  result ← get_user_google_credentials user_id;
  match result with
  | None => mret JNull
  | Some (is_valid, token_or_refresh_token) =>
      if negb is_valid then
        access_token ← refresh_google_access_token user_id token_or_refresh_token;
        mret access_token
      else mret token_or_refresh_token
  end.

(** *** authenticate.py *)

(** [await response(scope, receive, send)] *)
Definition send_response (r : response) : M unit :=
  modify (λ w, set_sent (sent w ++ [r]) w).

(** The dictionary built from the header list: names lower-cased, a later
    header replacing an earlier one of the same name. *)
Definition header_dict_of (headers : list (string * string))
  : gmap string string :=
  fold_left (λ d h, <[Py.lower h.1 := h.2]> d) headers ∅.

(** The loop over [query_string.split("&")]. *)
Definition parse_query (query_string : string) : gmap string string :=
  if negb (String.eqb query_string "") then
    fold_left
      (λ d item,
        if Py.contains_char "=" item then
          let (key, value) := Py.cut "=" item in <[key := value]> d
        else if negb (String.eqb item "") then <[item := ""]> d
        else d)
      (Py.split "&" query_string) ∅
  else ∅.

(** The bearer token carried by an [Authorization] header value. *)
Definition bearer_of (authorization_header : string) : option string :=
  match Py.split_maxsplit1 (Py.strip authorization_header) with
  | [p0; p1] => if String.eqb (Py.lower p0) "bearer" then Some p1 else None
  | _ => None
  end.

(** [AuthenticationMiddleware.__call__]; [app] is [self.app]. *)
Definition AuthenticationMiddleware_call (app : scope → M unit) (sc : scope)
  : M unit :=
  let final_check (target_token bearer : option string) : M unit :=
    if match target_token with
       | None => true
       | Some t => negb (bool_decide (bearer = Some t))
       end
    then send_response (PlainTextResponse "Unauthorized" 401)
    else app sc in
  if String.eqb (scope_type sc) "http" then
    let path := default "/" (scope_path sc) in
    if Py.startswith path "/auth/google/callback" then app sc
    else
      let headers := default [] (scope_headers sc) in
      let header_dict := header_dict_of headers in
      if Py.startswith path "/auth" then
        let query_string := default "" (scope_query_string sc) in
        let query_params := parse_query query_string in
        let user_id := default "" (query_params !! "userid") in
        target_token ← gets (λ w, temp_user_oauth_token w !! user_id);
        let bearer := query_params !! "token" in
        final_check target_token bearer
      else
        let authorization_header := header_dict !! "authorization" in
        if negb (Py.truthy_str authorization_header) then
          send_response (PlainTextResponse "Missing Authorization Header" 401)
        else
          let bearer := bearer_of (default "" authorization_header) in
          final_check BEARER_TOKEN bearer
  else app sc.

Definition gen_user_auth_token (user_id : string) : M string :=
  random ← os_urandom env 32;
  let random_token := Py.hex random in
  modify (λ w, set_temp_user_oauth_token
                 (<[user_id := random_token]> (temp_user_oauth_token w)) w);;
  mret random_token.

Definition match_user_auth_token (user_id token : string) : M bool :=
  tickets ← gets temp_user_oauth_token;
  match tickets !! user_id with
  | Some stored => mret (String.eqb stored token)
  | None => mret false
  end.

(** *** main.py *)

Definition REQUEST_AUTH_TOKEN : string := "[AUTH]".

(** The tools [view_calendar] ([sep] is a space) and
    [add_event_to_calendar] ([sep] is a line feed) up to their call of
    the calendar API: the result is the text asking the host to start the
    authorization, or the access token the calendar call goes on with.
    [x_user_id] is the header [X-User-ID]. *)
Definition tool_token_or_prompt (sep : string) (x_user_id : option string)
  : M (string + jval) :=
  let user_id := default "single_user" x_user_id in
  token ← get_user_token user_id;
  match token with
  | JNull =>
      ticket ← gen_user_auth_token user_id;
      mret (inl (REQUEST_AUTH_TOKEN +:+ sep +:+ ticket))
  | _ => mret (inr token)
  end.

(** The route [/auth]. *)
Definition auth (request : Request) : M response :=
  let user_id := query_params request !! "userid" in
  let token := query_params request !! "token" in
  match user_id, token with
  | Some user_id, Some token =>
      ok ← match_user_auth_token user_id token;
      if negb ok then mret (PlainTextResponse "Unauthorized" 401)
      else start_google_auth user_id
  | _, _ => mret (PlainTextResponse "Unauthorized" 401)
  end.

(** The route [/auth/google/callback]. *)
Definition auth_google_callback (request : Request) : M response :=
  handle_google_callback request.

(** Start of the process: importing the modules evaluates the constants
    above, then [__main__] wraps the application in the middleware and
    serves.  The result is the constants the process serves with. *)
Definition startup : M Settings :=
  mret (MkSettings BEARER_TOKEN SERVER_DOMAIN GOOGLE_CLIENT_ID
          GOOGLE_CLIENT_SECRET GOOGLE_REDIRECT_URI).

End Program.

(** ** google_calendar.py *)

(** The calendar functions call the calendar API with [requests.get] and
    [requests.post(.., json=..)] and read the wall clock as a formatted
    text.  Their world is the world of the rest of the program together
    with the log of these requests; what the API answers and what the wall
    clock shows come from a [CalendarEnv]. *)

Record cal_request : Type := CalRequest {
  cal_method : string;
  cal_url : string;
  cal_headers : list (string * string);
  cal_params : list (string * jval);
  cal_json : jval
}.

Record CalendarEnv : Type := MkCalendarEnv {
  (** the API's answer to the n-th request *)
  calendar_api : nat → cal_request → http_outcome;
  (** [datetime.now(timezone.utc).strftime("%Y-%m-%dT%H:%M:%SZ")] at its
      n-th reading *)
  utc_now : nat → string
}.

Record CalWorld : Type := MkCalWorld {
  cal_world : World;
  (** requests made to the calendar API so far, oldest first *)
  cal_requests : list cal_request;
  (** how many times the wall clock was read *)
  utc_reads : nat
}.

Definition CM (A : Type) : Type := CalWorld → outcome A * CalWorld.

#[global] Instance CM_ret : MRet CM := λ A a s, (Ret a, s).

#[global] Instance CM_bind : MBind CM := λ A B f m s,
  match m s with
  | (Ret a, s') => f a s'
  | (Raise e, s') => (Raise e, s')
  end.

(** [try: m  except Exception as e: h e] *)
Definition cal_try_except {A} (m : CM A) (h : exn → CM A) : CM A := λ s,
  match m s with
  | (Ret a, s') => (Ret a, s')
  | (Raise e, s') => h e s'
  end.

(** A computation of the rest of the program, run on its part of the
    world. *)
Definition lift {A} (m : M A) : CM A := λ s,
  let (r, w') := m (cal_world s) in
  (r, MkCalWorld w' (cal_requests s) (utc_reads s)).

(** [len(x)] *)
Definition py_len (x : jval) : M nat :=
  match x with
  | JArr l => mret (length l)
  | JObj o => mret (size o)
  | JStr s => mret (String.length s)
  | _ => raise TypeError
  end.

(** The values [for event in x] runs through: the elements of a list, the
    keys of a dictionary, the characters of a text. *)
Definition py_iter (x : jval) : M (list jval) :=
  match x with
  | JArr l => mret l
  | JObj o => mret ((λ kv, JStr kv.1) <$> map_to_list o)
  | JStr s => mret ((λ c, JStr (String c EmptyString)) <$> list_ascii_of_string s)
  | _ => raise TypeError
  end.

(** [d.get(key, dflt)] *)
Definition dict_get_default (d : jval) (key : string) (dflt : jval) : M jval :=
  match d with
  | JObj o => mret (default dflt (o !! key))
  | _ => raise AttributeError
  end.

(** [for x in l: body x] *)
Fixpoint for_each {A} (body : A → CM unit) (l : list A) : CM unit :=
  match l with
  | [] => mret tt
  | x :: r => body x;; for_each body r
  end.

Definition GOOGLE_CALENDAR_API_BASE_URL : string :=
  "https://www.googleapis.com/calendar/v3".

Definition get_auth_headers (access_token : string) : list (string * string) :=
  [ ("Authorization", "Bearer " +:+ access_token);
    ("Content-Type", "application/json") ].

Section Calendar.
Variable cenv : CalendarEnv.

Definition cal_send (rq : cal_request) : CM (Z * text) := λ s,
  let s' := MkCalWorld (cal_world s) (cal_requests s ++ [rq]) (utc_reads s) in
  match calendar_api cenv (length (cal_requests s)) rq with
  | TransportFailure => (Raise ConnectionError, s')
  | HttpResponse st b => (Ret (st, b), s')
  end.

(** [requests.get(url, headers=headers, params=params)] *)
Definition requests_get (u : string) (headers : list (string * string))
    (params : list (string * jval)) : CM (Z * text) :=
  cal_send (CalRequest "GET" u headers params JNull).

(** [requests.post(url, headers=headers, json=body)] *)
Definition requests_post_json (u : string) (headers : list (string * string))
    (body : jval) : CM (Z * text) :=
  cal_send (CalRequest "POST" u headers [] body).

(** [datetime.now(timezone.utc).strftime("%Y-%m-%dT%H:%M:%SZ")] *)
Definition datetime_now_utc : CM string := λ s,
  (Ret (utc_now cenv (utc_reads s)),
   MkCalWorld (cal_world s) (cal_requests s) (S (utc_reads s))).

Definition get_user_timezone (access_token : string) : CM jval :=
  let headers := get_auth_headers access_token in
  let url := GOOGLE_CALENDAR_API_BASE_URL +:+ "/users/me/settings/timezone" in
  cal_try_except
    (response ← requests_get url headers [];
     lift (raise_for_status response);;
     timezone_data ← lift (json_of response.2);
     lift (dict_get timezone_data "value"))
    (λ e,
      lift (print ("An unexpected error occurred while getting timezone: "
                   +:+ exn_text e));;
      mret JNull).

Definition list_calendar_events (access_token calendar_id : string)
    (max_results : Z) : CM jval :=
  let headers := get_auth_headers access_token in
  now ← datetime_now_utc;
  let url := GOOGLE_CALENDAR_API_BASE_URL +:+ "/calendars/" +:+ calendar_id
             +:+ "/events" in
  let params := [("timeMin", JStr now); ("maxResults", JInt max_results)] in
  cal_try_except
    (response ← requests_get url headers params;
     lift (raise_for_status response);;
     events_data ← lift (json_of response.2);
     events ← lift (dict_get_default events_data "items" (JArr []));
     if negb (truthy events) then
       lift (print "No upcoming events found.");;
       mret (JArr [])
     else
       n ← lift (py_len events);
       lift (print ("Found " +:+ pretty n +:+ " events:"));;
       items ← lift (py_iter events);
       for_each
         (λ event,
           start_obj ← lift (getitem event "start");
           lift (dict_get start_obj "dateTime");;
           start_obj' ← lift (getitem event "start");
           date ← lift (dict_get start_obj' "date");
           lift (dict_get_default start_obj "dateTime" date);;
           mret tt)
         items;;
       mret events)
    (λ e,
      lift (print ("An unexpected error occurred while listing events: "
                   +:+ exn_text e));;
      mret (JArr [])).

Definition add_calendar_event
    (access_token event_summary start_time_str end_time_str
       calendar_id description : string) : CM jval :=
  let headers := get_auth_headers access_token in
  tz ← get_user_timezone access_token;
  match tz with
  | JNull =>
      lift (print "Could not retrieve user timezone, cannot add event.");;
      mret JNull
  | _ =>
      let event_body :=
        JObj (list_to_map
          [ ("summary", JStr event_summary);
            ("description", JStr description);
            ("start", JObj (list_to_map [("dateTime", JStr start_time_str);
                                         ("timeZone", tz)]));
            ("end", JObj (list_to_map [("dateTime", JStr end_time_str);
                                       ("timeZone", tz)])) ]) in
      let url := GOOGLE_CALENDAR_API_BASE_URL +:+ "/calendars/" +:+ calendar_id
                 +:+ "/events" in
      cal_try_except
        (response ← requests_post_json url headers event_body;
         lift (raise_for_status response);;
         created_event ← lift (json_of response.2);
         mret created_event)
        (λ e,
          lift (print ("An unexpected error occurred while adding event: "
                       +:+ exn_text e));;
          mret JNull)
  end.

End Calendar.

(** ** main.py: the tools *)

(** The two tools take the header [X-User-ID] of the request; their result
    is the text handed back to the host.  [json.dumps] and the formatting
    of a value inside an f-string are library functions on JSON values,
    total there; the tools are given for any such pair. *)

Section Tools.
Variable env : Env.
Variable cenv : CalendarEnv.
(** [json.dumps(x)] *)
Variable json_dumps : jval → string.
(** [f"{x}"]; the access token reaches [get_auth_headers] as it was
    stored and is formatted there. *)
Variable format_value : jval → string.

Definition line_feed : string := String "010"%char "".

Definition view_calendar (x_user_id : option string) : CM string :=
  r ← lift (tool_token_or_prompt env " " x_user_id);
  match r with
  | inl prompt => mret prompt
  | inr token =>
      events ← list_calendar_events cenv (format_value token) "primary" 10;
      mret (json_dumps events)
  end.

Definition add_event_to_calendar (details start_time end_time : string)
    (x_user_id : option string) : CM string :=
  r ← lift (tool_token_or_prompt env line_feed x_user_id);
  match r with
  | inl prompt => mret prompt
  | inr token =>
      created ← add_calendar_event cenv (format_value token) details
                  start_time end_time "primary" "";
      mret (json_dumps created)
  end.

End Tools.

(** ** main.py: the application behind the gate *)

(** [__main__] serves [mcp.http_app(middleware=[Middleware(
    AuthenticationMiddleware)])]: the middleware, and behind it the two
    custom routes, registered for GET on the paths [/auth] and
    [/auth/google/callback], beside what FastMCP serves itself.  For a
    route the framework builds the [Request] from the scope, calls the
    handler and sends the response it returns.  The framework's reading
    of the raw query string into [request.query_params], which decodes
    percent escapes and [+], and what is served on the other paths are
    given from outside.  A scope has no method here: the requests are
    GET requests. *)

Section Service.
Variable env : Env.
(** [request.query_params], from the raw query string *)
Variable query_params_of : string → gmap string string.
(** the application on the paths that are not custom routes *)
Variable other_routes : scope → M unit.




End Service.

(** ** Vocabulary of the properties *)

(** A credential record as the design describes it. *)
Record CredentialRecord : Type := MkCredentialRecord {
  access_token : string;
  refresh_token : string;
  expires_at : Z
}.

(** The Credential Store holds record [r] for [user_id]: the user's token
    file is a JSON object with the three fields of [r].  A file without a
    usable access token is a malformed record, which the store treats as no
    record at all; so the access token of a stored record is not empty. *)
Definition stored_record (w : World) (user_id : string) (r : CredentialRecord)
  : Prop :=
  access_token r ≠ "" ∧
  ∃ o : gmap string jval,
    files w !! token_filepath user_id = Some (JsonText (JObj o)) ∧
    o !! "access_token" = Some (JStr (access_token r)) ∧
    o !! "refresh_token" = Some (JStr (refresh_token r)) ∧
    o !! "expires_at" = Some (JInt (expires_at r)).

(** No record is stored for [user_id]: the token file does not exist. *)
Definition no_record (w : World) (user_id : string) : Prop :=
  files w !! token_filepath user_id = None.

(** The record is judged valid: the store's load reports a usable access
    token. *)
Definition judged_valid (env : Env) (w : World) (user_id : string) : Prop :=
  ∃ tok w',
    get_user_google_credentials env user_id w = (Ret (Some (true, tok)), w').

(** The call to the provider that refreshes with [refresh_token]. *)
Definition refresh_request (env : Env) (refresh_token : jval) : http_request :=
  HttpRequest token_url
    [ ("client_id", opt_str (GOOGLE_CLIENT_ID env));
      ("client_secret", opt_str (GOOGLE_CLIENT_SECRET env));
      ("refresh_token", refresh_token);
      ("grant_type", JStr "refresh_token") ].

(** The call to the provider that exchanges the authorization [code]. *)
Definition exchange_request (env : Env) (code : string) : http_request :=
  HttpRequest token_url
    [ ("code", JStr code);
      ("client_id", opt_str (GOOGLE_CLIENT_ID env));
      ("client_secret", opt_str (GOOGLE_CLIENT_SECRET env));
      ("redirect_uri", JStr (GOOGLE_REDIRECT_URI env));
      ("grant_type", JStr "authorization_code") ].

(** The provider answered with a success status and a JSON object [o]. *)
Definition answered_with (answer : http_outcome) (o : gmap string jval) : Prop :=
  ∃ st, answer = HttpResponse st (JsonText (JObj o)) ∧ ¬ (400 ≤ st < 600).

(** The token data [o] can be saved for [user_id]: the token folder and the
    user's file can be written, and [expires_in], when supplied, is a
    number. *)
Definition savable (env : Env) (user_id : string) (o : gmap string jval) : Prop :=
  can_makedirs env FOLDER = true ∧
  writable env (token_filepath user_id) = true ∧
  ∀ v, o !! "expires_in" = Some v → is_Some (as_int v).

(** The refresh for [user_id] succeeds with the new access token [tok]: the
    provider answers with an object that carries [access_token], and the
    object can be saved. *)
Definition refresh_succeeds (env : Env) (user_id : string)
    (answer : http_outcome) (o : gmap string jval) (tok : jval) : Prop :=
  answered_with answer o ∧ savable env user_id o ∧ o !! "access_token" = Some tok.

(** The expiry computed at time [now] for token data [o]. *)
Definition expiry (now : Z) (o : gmap string jval) : Z :=
  match o !! "expires_in" ≫= as_int with
  | Some n => now + n
  | None => 0
  end.

Definition expires_in_warning (user_id : string) : string :=
  "Warning: No 'expires_in' info for user " +:+ user_id
  +:+ ". 'expires_at' set to 0.".

(** *** Runs of the service *)

(** The calls the service makes on its state: the start of a tool, the two
    routes, and the middleware in front of a handler that leaves the state
    alone. *)
Inductive call : Type :=
  | CallGetUserToken (user_id : string)
  | CallGenUserAuthToken (user_id : string)
  | CallAuth (request : Request)
  | CallAuthGoogleCallback (request : Request)
  | CallMiddleware (sc : scope).

(** The world a call leaves behind, whatever it returns or raises. *)
Definition run_call (env : Env) (c : call) (w : World) : World :=
  match c with
  | CallGetUserToken u => (get_user_token env u w).2
  | CallGenUserAuthToken u => (gen_user_auth_token env u w).2
  | CallAuth rq => (auth env rq w).2
  | CallAuthGoogleCallback rq => (auth_google_callback env rq w).2
  | CallMiddleware sc => (AuthenticationMiddleware_call env (λ _, mret tt) sc w).2
  end.

(** The state nonce [start_google_auth] draws in world [w]. *)
Definition next_nonce (env : Env) (w : World) : string :=
  Py.hex (map (random_byte env) (seq (random_drawn w) 16)).

(** [later env st w w']: the service gets from [w] to [w'] by calls none of
    which starts an authorization whose freshly drawn nonce is [st]
    again. *)
Inductive later (env : Env) (st : string) : World → World → Prop :=
  | later_now w : later env st w w
  | later_call w w1 c :
      later env st w w1 →
      (∀ rq, c = CallAuth rq → next_nonce env w1 ≠ st) →
      later env st w (run_call env c w1).

(** [ticket_log env w log]: the process got to [w] from its start, and
    [log] lists the tickets it issued, oldest first, each with its user. *)
Inductive ticket_log (env : Env) : World → list (string * string) → Prop :=
  | ticket_log_start w :
      temp_user_oauth_token w = ∅ → ticket_log env w []
  | ticket_log_issue w log user_id secret w' :
      ticket_log env w log →
      gen_user_auth_token env user_id w = (Ret secret, w') →
      ticket_log env w' (log ++ [(user_id, secret)])
  | ticket_log_other w log c :
      ticket_log env w log →
      (∀ u, c ≠ CallGenUserAuthToken u) →
      ticket_log env (run_call env c w) log.

(** The secret most recently issued to [user_id] according to [log]. *)
Definition last_issued (log : list (string * string)) (user_id : string)
  : option string :=
  fold_left (λ acc p, if String.eqb p.1 user_id then Some p.2 else acc) log None.

(** *** Computations that keep a relation between worlds *)

Definition keeps {A} (R : World → World → Prop) (m : M A) : Prop :=
  ∀ w, R w (m w).2.

(** The part [f] of the world is the same before and after. *)
Definition same {X} (f : World → X) : World → World → Prop :=
  λ w w', f w' = f w.

(** A state nonce that is not in the dictionary before is not in it
    after. *)
Definition absent_stays (st : string) : World → World → Prop :=
  λ w w', temp_google_oauth_states w !! st = None →
          temp_google_oauth_states w' !! st = None.

(** The ticket [gen_user_auth_token] issues in world [w]. *)
Definition next_ticket (env : Env) (w : World) : string :=
  Py.hex (map (random_byte env) (seq (random_drawn w) 32)).

(** The request [/auth?userid=..&token=..] as the route receives it. *)
Definition auth_request (user_id token : string) : Request :=
  MkRequest (list_to_map [("userid", user_id); ("token", token)]).

(** The characters [bytes.hex] writes. *)
Definition is_hex_digit (c : ascii) : bool :=
  let n := N_of_ascii c in
  ((48 <=? n) && (n <=? 57) || (97 <=? n) && (n <=? 102))%N.

(** No character of [s] is white space. *)
Fixpoint no_white_space (s : string) : bool :=
  match s with
  | EmptyString => true
  | String c r => negb (Py.isspace c) && no_white_space r
  end.

(** One step of the loop of [parse_query]: what an item of the query
    string adds to the parameters read so far. *)
Definition query_item (d : gmap string string) (item : string)
  : gmap string string :=
  if Py.contains_char "=" item then
    let (key, value) := Py.cut "=" item in <[key := value]> d
  else if negb (String.eqb item "") then <[item := ""]> d
  else d.

(** *** The calendar functions *)

(** The request [get_user_timezone] sends. *)
Definition timezone_request (access_token : string) : cal_request :=
  CalRequest "GET"
    (GOOGLE_CALENDAR_API_BASE_URL +:+ "/users/me/settings/timezone")
    (get_auth_headers access_token) [] JNull.

(** The request [list_calendar_events] sends when the wall clock shows
    [now]. *)
Definition events_request (access_token calendar_id : string)
    (max_results : Z) (now : string) : cal_request :=
  CalRequest "GET"
    (GOOGLE_CALENDAR_API_BASE_URL +:+ "/calendars/" +:+ calendar_id +:+ "/events")
    (get_auth_headers access_token)
    [("timeMin", JStr now); ("maxResults", JInt max_results)] JNull.

(** An event the loop of [list_calendar_events] gets through: an object
    whose [start] is an object. *)
Definition event_has_start (event : jval) : bool :=
  match event with
  | JObj o => match o !! "start" with Some (JObj _) => true | _ => false end
  | _ => false
  end.

(** The program state the calendar functions do not touch. *)
Definition same_program_state (w w' : World) : Prop :=
  files w' = files w ∧ posts w' = posts w ∧
  temp_user_oauth_token w' = temp_user_oauth_token w ∧
  temp_google_oauth_states w' = temp_google_oauth_states w ∧
  sent w' = sent w.

(** A calendar API that answers every request with the object [o]. *)
Definition constant_api (o : gmap string jval) : CalendarEnv :=
  MkCalendarEnv (λ _ _, HttpResponse 200 (JsonText (JObj o)))
                (λ _, "2025-05-26T07:00:00Z").

(** A calendar API that is down. *)
Definition failing_api : CalendarEnv :=
  MkCalendarEnv (λ _ _, TransportFailure) (λ _, "2025-05-26T07:00:00Z").

Definition fresh_cal_world : CalWorld := MkCalWorld (fresh_world ∅) [] 0.

(** What [list_calendar_events] returns for an answer of the API: the
    [items] of the answer when they are a non-empty list of events that
    all have a [start] object, and the empty list in every other case. *)
Definition listed_events (answer : http_outcome) : jval :=
  match answer with
  | HttpResponse st (JsonText (JObj o)) =>
      if (400 <=? st) && (st <? 600) then JArr []
      else match o !! "items" with
           | Some (JArr (e :: l)) =>
               if forallb event_has_start (e :: l) then JArr (e :: l)
               else JArr []
           | _ => JArr []
           end
  | _ => JArr []
  end.

(** The timezone [get_user_timezone] reads off an answer of the API:
    the [value] of a successful JSON object, [None] otherwise. *)
Definition timezone_of (answer : http_outcome) : jval :=
  match answer with
  | HttpResponse st (JsonText (JObj o)) =>
      if (400 <=? st) && (st <? 600) then JNull
      else default JNull (o !! "value")
  | _ => JNull
  end.

(** The request [add_calendar_event] sends to insert an event in the
    timezone [tz]. *)
Definition insert_request
    (access_token event_summary start_time_str end_time_str
       calendar_id description : string) (tz : jval) : cal_request :=
  CalRequest "POST"
    (GOOGLE_CALENDAR_API_BASE_URL +:+ "/calendars/" +:+ calendar_id +:+ "/events")
    (get_auth_headers access_token) []
    (JObj (list_to_map
      [ ("summary", JStr event_summary);
        ("description", JStr description);
        ("start", JObj (list_to_map [("dateTime", JStr start_time_str);
                                     ("timeZone", tz)]));
        ("end", JObj (list_to_map [("dateTime", JStr end_time_str);
                                   ("timeZone", tz)])) ])).

(** The JSON value of a successful answer, [None] for any other answer. *)
Definition json_or_none (answer : http_outcome) : jval :=
  match answer with
  | HttpResponse st (JsonText j) =>
      if (400 <=? st) && (st <? 600) then JNull else j
  | _ => JNull
  end.

(** *** User ids and token files *)

(** A user id without a path separator.  Its token file is the entry of
    the token folder named after it, and the text of the path identifies
    the file. *)
Definition plain_user_id (user_id : string) : bool :=
  negb (Py.contains_char "/" user_id).

(** *** Query strings *)



(** *** The Bearer header *)







(** *** Concrete instances *)

(** A provider that answers every call with a new access token. *)
Definition demo_answer : gmap string jval :=
  list_to_map [("access_token", JStr "fresh"); ("expires_in", JInt 3600)].

Definition demo_env : Env :=
  {| environ := list_to_map [("AUTH_TOKEN", "s3cret");
                             ("SERVER_DOMAIN", "https://tool.example");
                             ("GOOGLE_CLIENT_ID", "cid");
                             ("GOOGLE_CLIENT_SECRET", "csec")];
     clock := λ n, 1000 + Z.of_nat n;
     random_byte := λ n, ascii_of_nat n;
     provider := λ _ _, HttpResponse 200 (JsonText (JObj demo_answer));
     can_makedirs := λ _, true;
     writable := λ _, true |}.

(** The same, with a provider that refuses every call. *)
Definition refusing_env : Env :=
  {| environ := environ demo_env;
     clock := clock demo_env;
     random_byte := random_byte demo_env;
     provider := λ _ _, HttpResponse 400 NotJson;
     can_makedirs := λ _, true;
     writable := λ _, true |}.

Definition record_file (r : CredentialRecord) : text :=
  JsonText (JObj (list_to_map [("access_token", JStr (access_token r));
                               ("refresh_token", JStr (refresh_token r));
                               ("expires_at", JInt (expires_at r))])).

(** A process that has just started, with the record [r] stored for user
    ["u1"]. *)
Definition world_with (r : CredentialRecord) : World :=
  fresh_world {[ "tokens/u1.json" := record_file r ]}.

Definition fresh_record : CredentialRecord := MkCredentialRecord "at1" "rt1" 4600.
Definition stale_record : CredentialRecord := MkCredentialRecord "at1" "rt1" 0.

(** A callback with a code and a state, and one that reports an error. *)
Definition callback_request (code state : string) : Request :=
  MkRequest (list_to_map [("code", code); ("state", state)]).

Definition error_request (error state : string) : Request :=
  MkRequest (list_to_map [("error", error); ("state", state)]).

(** A process in which user ["u1"] was sent to the consent screen with the
    state ["n1"]. *)
Definition world_awaiting_callback : World :=
  set_temp_google_oauth_states {[ "n1" := "u1" ]} (fresh_world ∅).

(** A downstream handler that can be told from the middleware: it answers
    200 itself. *)
Definition handler_ok : scope → M unit :=
  λ _, send_response (PlainTextResponse "handled" 200).

(** The answers by which the middleware rejects a request. *)
Definition unauthorized : M unit :=
  send_response (PlainTextResponse "Unauthorized" 401).

Definition missing_header : M unit :=
  send_response (PlainTextResponse "Missing Authorization Header" 401).

(** An HTTP request as the middleware sees it. *)
Definition http_scope (path query : string) (headers : list (string * string))
  : scope :=
  Scope "http" (Some path) (Some headers) (Some query).

(** An environment in which no configuration variable is set. *)
Definition unconfigured_env : Env :=
  {| environ := ∅;
     clock := clock demo_env;
     random_byte := random_byte demo_env;
     provider := provider demo_env;
     can_makedirs := λ _, true;
     writable := λ _, true |}.

(** A process in which a tool was called with an empty [X-User-ID] header
    and no credentials stored: it issued a ticket for the empty user id. *)
Definition empty_user_world : World :=
  (tool_token_or_prompt demo_env " " (Some "") (fresh_world ∅)).2.

Definition empty_user_ticket : string :=
  "000102030405060708090a0b0c0d0e0f101112131415161718191a1b1c1d1e1f".

(** The request [GET /auth?token=<ticket>], without [userid]. *)
Definition request_without_userid : scope :=
  http_scope "/auth" ("token=" +:+ empty_user_ticket) [].

(** A provider whose answers are objects without [access_token]. *)
Definition tokenless_env : Env :=
  {| environ := environ demo_env;
     clock := clock demo_env;
     random_byte := random_byte demo_env;
     provider := λ _ _, HttpResponse 200
                          (JsonText (JObj {[ "expires_in" := JInt 3600 ]}));
     can_makedirs := λ _, true;
     writable := λ _, true |}.

(** A provider that answers every call as after a first consent: with an
    access token, a refresh token and a lifetime. *)
Definition consent_answer : gmap string jval :=
  list_to_map [("access_token", JStr "at9"); ("refresh_token", JStr "rt9");
               ("expires_in", JInt 3600)].

Definition consent_env : Env :=
  {| environ := environ demo_env;
     clock := clock demo_env;
     random_byte := random_byte demo_env;
     provider := λ _ _, HttpResponse 200 (JsonText (JObj consent_answer));
     can_makedirs := λ _, true;
     writable := λ _, true |}.

(** Stand-ins for the two library functions, enough to run the tools on
    an example: texts are formatted as themselves, and the serialiser only
    tells [None] from the other values. *)
Definition demo_format (j : jval) : string :=
  match j with JStr t => t | _ => "" end.

Definition demo_dumps (j : jval) : string :=
  match j with JNull => "null" | _ => "value" end.

Definition demo_event : jval :=
  JObj {[ "start" := JObj {[ "date" := JStr "2025-05-27" ]} ]}.

(** A process that has just started, with the record [r] stored for user
    ["u1"], and no request made to the calendar API yet. *)
Definition cal_world_with (r : CredentialRecord) : CalWorld :=
  MkCalWorld (world_with r) [] 0.




(** ** Running computations *)

Ltac unfold_monad :=
  unfold mbind, M_bind, mret, M_ret, raise, try_except, gets, modify in *.

Lemma bind_run {A B} (m : M A) (f : A → M B) (w : World) :
  (m ≫= f) w = match m w with
               | (Ret a, w') => f a w'
               | (Raise e, w') => (Raise e, w')
               end.
Proof. reflexivity. Qed.

Lemma ret_run {A} (a : A) (w : World) : (mret a : M A) w = (Ret a, w).
Proof. reflexivity. Qed.

Lemma truthy_JStr (s : string) : s ≠ "" → truthy (JStr s) = true.
Proof.
  intros Hs. simpl. destruct (String.eqb_spec s ""); [contradiction | reflexivity].
Qed.

(** What [get_user_google_credentials] answers for a stored record. *)
Lemma get_user_google_credentials_stored env w user_id r :
  stored_record w user_id r →
  get_user_google_credentials env user_id w =
    (Ret (Some (if clock env (clock_reads w) >=? expires_at r - 60
                then (false, JStr (refresh_token r))
                else (true, JStr (access_token r)))),
     set_clock_reads (S (clock_reads w)) w).
Proof.
  intros (Hne & o & Hfile & Ha & Hr & He).
  unfold get_user_google_credentials, read_json, time_now, json_of, dict_get,
    sub_int.
  unfold_monad. simpl. rewrite Hfile. simpl.
  rewrite Ha, Hr, He. simpl.
  destruct (String.eqb_spec (access_token r) ""); [contradiction |]. simpl.
  destruct (clock env (clock_reads w) >=? expires_at r - 60); reflexivity.
Qed.

(** What [save_user_google_tokens] does with a dictionary. *)
Lemma save_user_google_tokens_dict env w user_id (o : gmap string jval) :
  save_user_google_tokens env user_id (JObj o) w =
  if can_makedirs env FOLDER then
    match o !! "expires_in" with
    | Some v =>
        let w1 := set_clock_reads (S (clock_reads w)) w in
        match as_int v with
        | Some n =>
            let o' := <["expires_at" := JInt (clock env (clock_reads w) + n)]> o in
            if writable env (token_filepath user_id)
            then (Ret (JObj o'),
                  set_files (<[token_filepath user_id := JsonText (JObj o')]>
                               (files w1)) w1)
            else (Raise OSError, w1)
        | None => (Raise TypeError, w1)
        end
    | None =>
        let w1 := set_stdout (stdout w ++ [expires_in_warning user_id]) w in
        let o' := <["expires_at" := JInt 0]> o in
        if writable env (token_filepath user_id)
        then (Ret (JObj o'),
              set_files (<[token_filepath user_id := JsonText (JObj o')]>
                           (files w1)) w1)
        else (Raise OSError, w1)
    end
  else (Raise OSError, w).
Proof.
  unfold save_user_google_tokens, os_makedirs, py_in, getitem, int_add,
    setitem, write_json, time_now, print, expires_in_warning.
  unfold_monad.
  destruct (can_makedirs env FOLDER); [| reflexivity].
  destruct (o !! "expires_in") as [v |] eqn:Hin; simpl.
  - destruct (as_int v); simpl; [| reflexivity].
    destruct (writable env (token_filepath user_id)); reflexivity.
  - destruct (writable env (token_filepath user_id)); reflexivity.
Qed.

(** [refresh_google_access_token] always returns, after exactly one call to
    the provider; a result other than [None] comes from a successful
    refresh, which wrote the new record. *)
(** A branch in which the refresh gives up: the result is [None], and the
    hypothesis of a successful refresh has to be refuted. *)
Ltac fail_case :=
  eexists _, _; split; [reflexivity |]; simpl;
  do 3 (split; [reflexivity |]); split; [| reflexivity].

Lemma refresh_google_access_token_run env w userid rt :
  let rq := refresh_request env rt in
  let answer := provider env (length (posts w)) rq in
  ∃ v w',
    refresh_google_access_token env userid rt w = (Ret v, w') ∧
    posts w' = posts w ++ [rq] ∧
    temp_user_oauth_token w' = temp_user_oauth_token w ∧
    temp_google_oauth_states w' = temp_google_oauth_states w ∧
    (∀ o tok, refresh_succeeds env userid answer o tok →
       v = tok ∧
       files w' =
         <[token_filepath userid :=
             JsonText (JObj (<["expires_at" :=
                                 JInt (expiry (clock env (clock_reads w)) o)]>
                               (<["refresh_token" := rt]> o)))]> (files w)) ∧
    ((∀ o tok, ¬ refresh_succeeds env userid answer o tok) → v = JNull).
Proof.
  intros rq answer.
  assert (Hexp : ∀ (o : gmap string jval) k, k ≠ "refresh_token" →
            (<["refresh_token" := rt]> o : gmap string jval) !! k = o !! k).
  { intros o k Hk. by rewrite lookup_insert_ne. }
  unfold refresh_google_access_token, try_except.
  rewrite bind_run. unfold requests_post at 1.
  change (HttpRequest token_url _) with rq.
  change (provider env (length (posts w)) rq) with answer.
  clearbody answer.
  destruct answer as [| st b].
  { fail_case.
    intros o tok ((st & Hst & _) & _). discriminate. }
  rewrite bind_run. unfold raise_for_status at 1. cbn [fst snd].
  destruct ((400 <=? st) && (st <? 600)) eqn:Hst.
  { fail_case.
    intros o tok ((st' & Heq & Hok) & _). inversion Heq; subst st'.
    apply andb_true_iff in Hst as [Hlo Hhi]. lia. }
  assert (Hst' : ¬ (400 ≤ st < 600)).
  { intros [Hlo Hhi]. apply andb_false_iff in Hst as [Hst | Hst]; lia. }
  rewrite ret_run, bind_run. unfold json_of at 1.
  destruct b as [j |].
  2:{ fail_case.
      intros o tok ((st' & Heq & _) & _). discriminate. }
  rewrite ret_run, bind_run.
  destruct j as [| bb | n | s | l | o];
    try (fail_case; intros o' tok ((st' & Heq & _) & _); discriminate).
  unfold setitem at 1. rewrite ret_run, bind_run.
  rewrite save_user_google_tokens_dict.
  rewrite (Hexp o "expires_in") by discriminate.
  destruct (can_makedirs env FOLDER) eqn:Hmk.
  2:{ fail_case.
      intros o' tok ((st' & Heq & _) & (Hd & _) & _). congruence. }
  destruct (o !! "expires_in") as [ei |] eqn:Hei.
  - destruct (as_int ei) as [n |] eqn:Hn.
    2:{ fail_case.
        intros o' tok ((st' & Heq & _) & (_ & _ & Hnum) & _).
        inversion Heq; subst o'. destruct (Hnum _ Hei) as [n Hn'].
        congruence. }
    cbv zeta.
    destruct (writable env (token_filepath userid)) eqn:Hwr.
    2:{ fail_case.
        intros o' tok ((st' & Heq & _) & (_ & Hw & _) & _). congruence. }
    unfold getitem.
    rewrite lookup_insert_ne by discriminate.
    rewrite (Hexp o "access_token") by discriminate.
    destruct (o !! "access_token") as [tok |] eqn:Htok.
    + eexists _, _. split; [reflexivity |]. simpl.
      do 3 (split; [reflexivity |]). split.
      * intros o' tok' ((st' & Heq & _) & _ & Ht).
        inversion Heq; subst o'. split; [congruence |].
        unfold expiry. rewrite Hei. simpl. rewrite Hn. reflexivity.
      * intros Hno. exfalso. apply (Hno o tok).
        split; [| split]; [| | exact Htok].
        -- exists st. split; [reflexivity | exact Hst'].
        -- split; [exact Hmk | split; [exact Hwr |]].
           intros v Hv. assert (v = ei) by congruence. subst v.
           exists n. exact Hn.
    + fail_case.
      intros o' tok' ((st' & Heq & _) & _ & Ht).
      inversion Heq; subst o'. congruence.
  - cbv zeta.
    destruct (writable env (token_filepath userid)) eqn:Hwr.
    2:{ fail_case.
        intros o' tok ((st' & Heq & _) & (_ & Hw & _) & _). congruence. }
    unfold getitem.
    rewrite lookup_insert_ne by discriminate.
    rewrite (Hexp o "access_token") by discriminate.
    destruct (o !! "access_token") as [tok |] eqn:Htok.
    + eexists _, _. split; [reflexivity |]. simpl.
      do 3 (split; [reflexivity |]). split.
      * intros o' tok' ((st' & Heq & _) & _ & Ht).
        inversion Heq; subst o'. split; [congruence |].
        unfold expiry. rewrite Hei. reflexivity.
      * intros Hno. exfalso. apply (Hno o tok).
        split; [| split]; [| | exact Htok].
        -- exists st. split; [reflexivity | exact Hst'].
        -- split; [exact Hmk | split; [exact Hwr |]].
           intros v Hv. congruence.
    + fail_case.
      intros o' tok' ((st' & Heq & _) & _ & Ht).
      inversion Heq; subst o'. congruence.
Qed.

Lemma stored_record_world_with (r : CredentialRecord) :
  access_token r ≠ "" → stored_record (world_with r) "u1" r.
Proof.
  intros Hne. split; [exact Hne |].
  eexists. split; [reflexivity |]. repeat split; reflexivity.
Qed.

(** ** The token lifecycle *)

(** C1. For a user whose stored record satisfies [now < expires_at - 60],
    [get_user_token] returns the stored access token, calls the provider
    not at all and leaves the token files as they are; and the record is
    judged valid exactly when [now < expires_at - 60]. *)
Theorem get_user_token_valid_record env w user_id r :
  stored_record w user_id r →
  let now := clock env (clock_reads w) in
  (now < expires_at r - 60 →
     ∃ w', get_user_token env user_id w = (Ret (JStr (access_token r)), w') ∧
           posts w' = posts w ∧ files w' = files w) ∧
  (judged_valid env w user_id ↔ now < expires_at r - 60).
Proof.
  intros Hst now.
  pose proof (get_user_google_credentials_stored env w user_id r Hst) as Hg.
  fold now in Hg. split.
  - intros Hlt. unfold get_user_token. rewrite bind_run, Hg.
    destruct (now >=? expires_at r - 60) eqn:Hc; [lia |].
    eexists. split; [reflexivity |]. split; reflexivity.
  - unfold judged_valid. rewrite Hg. split.
    + intros (tok & w' & Heq).
      destruct (now >=? expires_at r - 60) eqn:Hc; [discriminate | lia].
    + intros Hlt. destruct (now >=? expires_at r - 60) eqn:Hc; [lia |].
      eauto.
Qed.

Lemma get_user_token_valid_record_witness :
  ∃ w', get_user_token demo_env "u1" (world_with fresh_record)
          = (Ret (JStr "at1"), w') ∧
        posts w' = posts (world_with fresh_record) ∧
        files w' = files (world_with fresh_record).
Proof.
  apply (get_user_token_valid_record demo_env (world_with fresh_record) "u1"
           fresh_record).
  - apply stored_record_world_with. discriminate.
  - vm_compute. reflexivity.
Defined.

(** C2. Without a record [get_user_token] returns [None] and does not call
    the provider.  With a stored record that is not valid
    ([now >= expires_at - 60], which covers [expires_at = 0]) it calls the
    provider's refresh exactly once; when the refresh succeeds the new
    record is written and the new access token returned, and when it fails
    the result is [None] and there is no second call. *)
Theorem get_user_token_absent_or_stale env w user_id :
  (no_record w user_id →
     ∃ w', get_user_token env user_id w = (Ret JNull, w') ∧
           posts w' = posts w ∧ files w' = files w) ∧
  (∀ r, stored_record w user_id r →
     clock env (clock_reads w) >= expires_at r - 60 →
     let rq := refresh_request env (JStr (refresh_token r)) in
     let answer := provider env (length (posts w)) rq in
     ∃ v w',
       get_user_token env user_id w = (Ret v, w') ∧
       posts w' = posts w ++ [rq] ∧
       (∀ o tok, refresh_succeeds env user_id answer o tok →
          v = tok ∧
          files w' =
            <[token_filepath user_id :=
                JsonText (JObj (<["expires_at" :=
                                    JInt (expiry (clock env (S (clock_reads w))) o)]>
                                  (<["refresh_token" := JStr (refresh_token r)]> o)))]>
              (files w)) ∧
       ((∀ o tok, ¬ refresh_succeeds env user_id answer o tok) → v = JNull)).
Proof.
  split.
  - intros Hno. unfold no_record in Hno.
    unfold get_user_token, get_user_google_credentials, read_json, time_now.
    unfold_monad. simpl. rewrite Hno.
    eexists. split; [reflexivity |]. split; reflexivity.
  - intros r Hst Hge rq answer.
    pose proof (get_user_google_credentials_stored env w user_id r Hst) as Hg.
    destruct (clock env (clock_reads w) >=? expires_at r - 60) eqn:Hc; [| lia].
    set (w1 := set_clock_reads (S (clock_reads w)) w) in *.
    destruct (refresh_google_access_token_run env w1 user_id
                (JStr (refresh_token r)))
      as (v & w' & Hrun & Hposts & _ & _ & Hok & Hfail).
    exists v, w'. split.
    { unfold get_user_token. rewrite bind_run, Hg. cbn [negb].
      rewrite bind_run, Hrun. reflexivity. }
    split; [exact Hposts |]. split; [exact Hok | exact Hfail].
Qed.

Lemma demo_refresh_succeeds (w : World) (rt : jval) :
  refresh_succeeds demo_env "u1"
    (provider demo_env (length (posts w)) (refresh_request demo_env rt))
    demo_answer (JStr "fresh").
Proof.
  split; [| split].
  - exists 200. split; [reflexivity | lia].
  - split; [reflexivity | split; [reflexivity |]].
    intros v Hv. vm_compute in Hv. inversion Hv. eexists. reflexivity.
  - reflexivity.
Qed.

Lemma refusing_refresh_fails (w : World) (rt : jval) o tok :
  ¬ refresh_succeeds refusing_env "u1"
      (provider refusing_env (length (posts w)) (refresh_request refusing_env rt))
      o tok.
Proof. intros ((st & Heq & _) & _). discriminate. Qed.

Lemma get_user_token_absent_or_stale_witness :
  (∃ w', get_user_token demo_env "nobody" (world_with stale_record)
           = (Ret JNull, w') ∧
         posts w' = [] ∧ files w' = files (world_with stale_record)) ∧
  (∃ w', get_user_token demo_env "u1" (world_with stale_record)
           = (Ret (JStr "fresh"), w') ∧
         posts w' = [refresh_request demo_env (JStr "rt1")] ∧
         files w' !! "tokens/u1.json" =
           Some (JsonText (JObj (<["expires_at" := JInt 4601]>
                                   (<["refresh_token" := JStr "rt1"]> demo_answer))))) ∧
  (∃ w', get_user_token refusing_env "u1" (world_with stale_record)
           = (Ret JNull, w') ∧
         posts w' = [refresh_request refusing_env (JStr "rt1")]).
Proof.
  split; [| split].
  - apply (get_user_token_absent_or_stale demo_env (world_with stale_record)
             "nobody").
    reflexivity.
  - destruct (proj2 (get_user_token_absent_or_stale demo_env
                       (world_with stale_record) "u1") stale_record)
      as (v & w' & Hrun & Hposts & Hok & _).
    + apply stored_record_world_with. discriminate.
    + vm_compute. discriminate.
    + destruct (Hok demo_answer (JStr "fresh") (demo_refresh_succeeds _ _))
        as [Hv Hfiles].
      subst v. exists w'. split; [exact Hrun |]. split; [exact Hposts |].
      rewrite Hfiles. rewrite lookup_insert_eq. reflexivity.
  - destruct (proj2 (get_user_token_absent_or_stale refusing_env
                       (world_with stale_record) "u1") stale_record)
      as (v & w' & Hrun & Hposts & _ & Hfail).
    + apply stored_record_world_with. discriminate.
    + vm_compute. discriminate.
    + rewrite (Hfail (refusing_refresh_fails _ _)) in Hrun.
      exists w'. split; [exact Hrun | exact Hposts].
Defined.

(** ** The credential store *)

(** C7. Saving token data and loading it back for the same user gives the
    access token and the refresh token that were saved (every field but
    [expires_at] is read back as saved), with [expires_at] equal to the
    time of the save plus [expires_in] when the provider supplied
    [expires_in], and equal to 0, with a warning printed, when it did not.
    The load function then reports the saved access token while
    [now < expires_at - 60] and the saved refresh token afterwards. *)
Theorem save_then_load env w user_id (o : gmap string jval) :
  savable env user_id o →
  ∃ saved w1 (o' : gmap string jval) e,
    save_user_google_tokens env user_id (JObj o) w = (Ret saved, w1) ∧
    read_json (token_filepath user_id) w1 = (Ret (JObj o'), w1) ∧
    o' !! "access_token" = o !! "access_token" ∧
    o' !! "refresh_token" = o !! "refresh_token" ∧
    (∀ k, k ≠ "expires_at" → o' !! k = o !! k) ∧
    o' !! "expires_at" = Some (JInt e) ∧
    (∀ v, o !! "expires_in" = Some v →
       ∃ n, as_int v = Some n ∧ e = clock env (clock_reads w) + n ∧
            stdout w1 = stdout w) ∧
    (o !! "expires_in" = None →
       e = 0 ∧ stdout w1 = stdout w ++ [expires_in_warning user_id]) ∧
    (∀ a rt, o !! "access_token" = Some (JStr a) → a ≠ "" →
       o !! "refresh_token" = Some (JStr rt) →
       stored_record w1 user_id (MkCredentialRecord a rt e) ∧
       get_user_google_credentials env user_id w1 =
         (Ret (Some (if clock env (clock_reads w1) >=? e - 60
                     then (false, JStr rt) else (true, JStr a))),
          set_clock_reads (S (clock_reads w1)) w1)).
Proof.
  intros (Hmk & Hwr & Hnum).
  rewrite save_user_google_tokens_dict, Hmk.
  assert (Hrec : ∀ w1 (o' : gmap string jval) e a rt,
            files w1 !! token_filepath user_id = Some (JsonText (JObj o')) →
            o' !! "expires_at" = Some (JInt e) →
            (∀ k, k ≠ "expires_at" → o' !! k = o !! k) →
            o !! "access_token" = Some (JStr a) → a ≠ "" →
            o !! "refresh_token" = Some (JStr rt) →
            stored_record w1 user_id (MkCredentialRecord a rt e) ∧
            get_user_google_credentials env user_id w1 =
              (Ret (Some (if clock env (clock_reads w1) >=? e - 60
                          then (false, JStr rt) else (true, JStr a))),
               set_clock_reads (S (clock_reads w1)) w1)).
  { intros w1 o' e a rt Hf He Hk Ha Hne Hr.
    assert (Hs : stored_record w1 user_id (MkCredentialRecord a rt e)).
    { split; [exact Hne |]. exists o'. split; [exact Hf |]. simpl.
      rewrite !Hk by discriminate. auto. }
    split; [exact Hs |].
    apply (get_user_google_credentials_stored env w1 user_id _ Hs). }
  destruct (o !! "expires_in") as [v |] eqn:Hei.
  - destruct (Hnum v eq_refl) as [n Hn]. rewrite Hn. cbv zeta. rewrite Hwr.
    eexists _, _, _, (clock env (clock_reads w) + n).
    split; [reflexivity |].
    assert (Hk : ∀ k, k ≠ "expires_at" →
              (<["expires_at" := JInt (clock env (clock_reads w) + n)]> o
                 : gmap string jval) !! k = o !! k).
    { intros k Hk. by rewrite lookup_insert_ne. }
    split.
    { unfold read_json. unfold_monad. simpl. rewrite lookup_insert_eq.
      reflexivity. }
    split; [apply Hk; discriminate |]. split; [apply Hk; discriminate |].
    split; [exact Hk |]. split; [apply lookup_insert_eq |].
    split; [| split; [discriminate |]].
    + intros v' Hv'. inversion Hv'; subst v'. exists n. auto.
    + intros a rt Ha Hne Hr.
      eapply Hrec;
        [ simpl; apply lookup_insert_eq | apply lookup_insert_eq
        | exact Hk | exact Ha | exact Hne | exact Hr ].
  - cbv zeta. rewrite Hwr.
    eexists _, _, _, 0.
    split; [reflexivity |].
    assert (Hk : ∀ k, k ≠ "expires_at" →
              (<["expires_at" := JInt 0]> o : gmap string jval) !! k = o !! k).
    { intros k Hk. by rewrite lookup_insert_ne. }
    split.
    { unfold read_json. unfold_monad. simpl. rewrite lookup_insert_eq.
      reflexivity. }
    split; [apply Hk; discriminate |]. split; [apply Hk; discriminate |].
    split; [exact Hk |]. split; [apply lookup_insert_eq |].
    split; [discriminate | split; [auto |]].
    intros a rt Ha Hne Hr.
    eapply Hrec;
      [ simpl; apply lookup_insert_eq | apply lookup_insert_eq
      | exact Hk | exact Ha | exact Hne | exact Hr ].
Qed.

Lemma demo_savable : savable demo_env "u1" demo_answer.
Proof.
  split; [reflexivity | split; [reflexivity |]].
  intros v Hv. vm_compute in Hv. inversion Hv. eexists. reflexivity.
Qed.

Lemma save_then_load_witness :
  ∃ saved w1 (o' : gmap string jval),
    save_user_google_tokens demo_env "u1" (JObj demo_answer) (fresh_world ∅)
      = (Ret saved, w1) ∧
    read_json "tokens/u1.json" w1 = (Ret (JObj o'), w1) ∧
    o' !! "access_token" = Some (JStr "fresh") ∧
    o' !! "refresh_token" = None ∧
    o' !! "expires_at" = Some (JInt 4600).
Proof.
  destruct (save_then_load demo_env (fresh_world ∅) "u1" demo_answer
              demo_savable)
    as (saved & w1 & o' & e & Hsave & Hload & Ha & Hr & _ & He & Hin & _).
  destruct (Hin (JInt 3600) eq_refl) as (n & Hn & Hen & _).
  inversion Hn; subst n. simpl in Hen. subst e.
  exists saved, w1, o'. repeat split; assumption.
Defined.

(** C8. After a successful refresh the record written for the user carries
    the refresh token that was presented to the refresh call, whether or
    not the provider's response has one; every other field but
    [expires_at] is the one of the provider's response, and [expires_at]
    is computed from the response's [expires_in].  In [get_user_token] the
    presented refresh token is the one of the stored record. *)
Theorem refresh_keeps_refresh_token env w user_id rt o tok :
  refresh_succeeds env user_id
    (provider env (length (posts w)) (refresh_request env rt)) o tok →
  (∃ w' (o' : gmap string jval),
     refresh_google_access_token env user_id rt w = (Ret tok, w') ∧
     read_json (token_filepath user_id) w' = (Ret (JObj o'), w') ∧
     o' !! "refresh_token" = Some rt ∧
     (∀ k, k ≠ "refresh_token" → k ≠ "expires_at" → o' !! k = o !! k) ∧
     o' !! "expires_at" = Some (JInt (expiry (clock env (clock_reads w)) o))) ∧
  (∀ r, stored_record w user_id r →
        clock env (clock_reads w) >= expires_at r - 60 →
        rt = JStr (refresh_token r) →
        ∃ w' (o' : gmap string jval),
          get_user_token env user_id w = (Ret tok, w') ∧
          read_json (token_filepath user_id) w' = (Ret (JObj o'), w') ∧
          o' !! "refresh_token" = Some (JStr (refresh_token r))).
Proof.
  intros Hok.
  assert (Hread : ∀ w' (o' : gmap string jval),
            files w' = <[token_filepath user_id := JsonText (JObj o')]> (files w) →
            read_json (token_filepath user_id) w' = (Ret (JObj o'), w')).
  { intros w' o' Hf. unfold read_json. unfold_monad. rewrite Hf.
    rewrite lookup_insert_eq. reflexivity. }
  split.
  - destruct (refresh_google_access_token_run env w user_id rt)
      as (v & w' & Hrun & _ & _ & _ & Hsucc & _).
    destruct (Hsucc o tok Hok) as [Hv Hfiles]. subst v.
    eexists w', _. split; [exact Hrun |].
    split; [apply Hread; exact Hfiles |].
    split; [| split].
    + rewrite lookup_insert_ne by discriminate. apply lookup_insert_eq.
    + intros k Hk1 Hk2. by rewrite !lookup_insert_ne.
    + apply lookup_insert_eq.
  - intros r Hst Hge ->.
    pose proof (get_user_google_credentials_stored env w user_id r Hst) as Hg.
    destruct (clock env (clock_reads w) >=? expires_at r - 60) eqn:Hc; [| lia].
    set (w1 := set_clock_reads (S (clock_reads w)) w) in *.
    destruct (refresh_google_access_token_run env w1 user_id
                (JStr (refresh_token r)))
      as (v & w' & Hrun & _ & _ & _ & Hsucc & _).
    destruct (Hsucc o tok Hok) as [Hv Hfiles]. subst v.
    eexists w', _. split.
    { unfold get_user_token. rewrite bind_run, Hg. cbn [negb].
      rewrite bind_run, Hrun. reflexivity. }
    split; [apply Hread; exact Hfiles |].
    rewrite lookup_insert_ne by discriminate. apply lookup_insert_eq.
Qed.

Lemma refresh_keeps_refresh_token_witness :
  ∃ w' (o' : gmap string jval),
    refresh_google_access_token demo_env "u1" (JStr "rt1")
      (world_with stale_record) = (Ret (JStr "fresh"), w') ∧
    read_json "tokens/u1.json" w' = (Ret (JObj o'), w') ∧
    o' !! "refresh_token" = Some (JStr "rt1") ∧
    o' !! "access_token" = Some (JStr "fresh") ∧
    o' !! "expires_at" = Some (JInt 4600).
Proof.
  destruct (proj1 (refresh_keeps_refresh_token demo_env
                     (world_with stale_record) "u1" (JStr "rt1") demo_answer
                     (JStr "fresh") (demo_refresh_succeeds _ _)))
    as (w' & o' & Hrun & Hread & Hrt & Hother & He).
  exists w', o'. split; [exact Hrun |]. split; [exact Hread |].
  split; [exact Hrt |]. split; [| exact He].
  rewrite Hother by discriminate. reflexivity.
Defined.

(** ** A frame logic for computations *)

Section Keeps.
Context (R : World → World → Prop) `{!PreOrder R}.

Lemma keeps_ret {A} (a : A) : keeps R (mret a).
Proof. intros w. simpl. reflexivity. Qed.

Lemma keeps_raise {A} (e : exn) : keeps R (raise e : M A).
Proof. intros w. simpl. reflexivity. Qed.

Lemma keeps_gets {A} (f : World → A) : keeps R (gets f).
Proof. intros w. simpl. reflexivity. Qed.

Lemma keeps_modify (f : World → World) :
  (∀ w, R w (f w)) → keeps R (modify f).
Proof. intros Hf w. simpl. apply Hf. Qed.

Lemma keeps_bind {A B} (m : M A) (f : A → M B) :
  keeps R m → (∀ a, keeps R (f a)) → keeps R (m ≫= f).
Proof.
  intros Hm Hf w. rewrite bind_run. specialize (Hm w).
  destruct (m w) as [[a | e] w1]; simpl in *.
  - etransitivity; [exact Hm | apply Hf].
  - exact Hm.
Qed.

Lemma keeps_try_except {A} (m : M A) (h : exn → M A) :
  keeps R m → (∀ e, keeps R (h e)) → keeps R (try_except m h).
Proof.
  intros Hm Hh w. unfold try_except. specialize (Hm w).
  destruct (m w) as [[a | e] w1]; simpl in *.
  - exact Hm.
  - etransitivity; [exact Hm | apply Hh].
Qed.
End Keeps.

#[global] Instance same_preorder {X} (f : World → X) : PreOrder (same f).
Proof.
  split.
  - intros w. reflexivity.
  - intros w1 w2 w3 H12 H23. unfold same in *. congruence.
Qed.

(** A primitive whose world update leaves the part at hand alone. *)
Ltac keeps_prim :=
  let w := fresh "w" in
  intros w; unfold same;
  cbv [time_now os_urandom requests_post print modify write_json os_makedirs
       raise_for_status json_of read_json dict_get py_in getitem setitem
       int_add sub_int send_response pop_state gets raise
       mbind M_bind mret M_ret];
  repeat match goal with
         | |- context [match ?x with _ => _ end] => destruct x
         end;
  reflexivity.

Ltac keeps_step :=
  first
    [ apply keeps_ret; apply _
    | apply keeps_raise; apply _
    | apply keeps_gets; apply _
    | apply keeps_bind; [apply _ | | intros ?]
    | apply keeps_try_except; [apply _ | | intros ?]
    | match goal with
      | |- keeps _ (match ?x with _ => _ end) => destruct x
      | |- keeps _ (let (_, _) := ?x in _) => destruct x
      end
    | solve [keeps_prim] ].

Ltac keeps_auto := repeat keeps_step.

Section Frames.
Variable env : Env.
Context {X : Type} (f : World → X).
Hypothesis f_clock : ∀ n w, f (set_clock_reads n w) = f w.
Hypothesis f_stdout : ∀ o w, f (set_stdout o w) = f w.
Hypothesis f_random : ∀ n w, f (set_random_drawn n w) = f w.
Hypothesis f_posts : ∀ p w, f (set_posts p w) = f w.
Hypothesis f_files : ∀ fs w, f (set_files fs w) = f w.
Hypothesis f_sent : ∀ rs w, f (set_sent rs w) = f w.
Hypothesis f_tickets : ∀ t w, f (set_temp_user_oauth_token t w) = f w.
Hypothesis f_states : ∀ t w, f (set_temp_google_oauth_states t w) = f w.

Lemma keeps_time_now : keeps (same f) (time_now env).
Proof. intros w. apply f_clock. Qed.

Lemma keeps_print line : keeps (same f) (print line).
Proof. intros w. apply f_stdout. Qed.

Lemma keeps_os_urandom n : keeps (same f) (os_urandom env n).
Proof. intros w. apply f_random. Qed.

Lemma keeps_requests_post u data : keeps (same f) (requests_post env u data).
Proof.
  intros w. unfold requests_post.
  destruct (provider env _ _); apply f_posts.
Qed.

Lemma keeps_write_json path j : keeps (same f) (write_json env path j).
Proof.
  intros w. unfold write_json.
  destruct (writable env path); [apply f_files | reflexivity].
Qed.

Lemma keeps_send_response r : keeps (same f) (send_response r).
Proof. intros w. apply f_sent. Qed.

Ltac keeps_go1 :=
  first
    [ apply keeps_time_now | apply keeps_print | apply keeps_os_urandom
    | apply keeps_requests_post | apply keeps_write_json
    | apply keeps_send_response | keeps_step ].

Ltac keeps_go := repeat keeps_go1.

Lemma keeps_get_user_google_credentials user_id :
  keeps (same f) (get_user_google_credentials env user_id).
Proof.
  unfold get_user_google_credentials, read_json, json_of, dict_get, sub_int.
  keeps_go.
Qed.

Lemma keeps_save_user_google_tokens user_id token_data :
  keeps (same f) (save_user_google_tokens env user_id token_data).
Proof.
  unfold save_user_google_tokens, os_makedirs, py_in, getitem, int_add,
    setitem.
  keeps_go.
Qed.

Lemma keeps_refresh_google_access_token userid rt :
  keeps (same f) (refresh_google_access_token env userid rt).
Proof.
  unfold refresh_google_access_token, raise_for_status, json_of, setitem,
    getitem.
  repeat first [ apply keeps_save_user_google_tokens | keeps_go1 ].
Qed.

Lemma keeps_get_user_token user_id :
  keeps (same f) (get_user_token env user_id).
Proof.
  unfold get_user_token.
  repeat first [ apply keeps_get_user_google_credentials
               | apply keeps_refresh_google_access_token | keeps_go1 ].
Qed.

Lemma keeps_exchange_code_for_tokens code :
  keeps (same f) (exchange_code_for_tokens env code).
Proof.
  unfold exchange_code_for_tokens, raise_for_status, json_of. keeps_go.
Qed.

Lemma keeps_match_user_auth_token user_id token :
  keeps (same f) (match_user_auth_token user_id token).
Proof. unfold match_user_auth_token. keeps_go. Qed.

Lemma keeps_gen_user_auth_token user_id :
  keeps (same f) (gen_user_auth_token env user_id).
Proof.
  unfold gen_user_auth_token. keeps_go.
  apply keeps_modify. intros w. apply f_tickets.
Qed.

Lemma keeps_start_google_auth user_id :
  keeps (same f) (start_google_auth env user_id).
Proof.
  unfold start_google_auth. keeps_go.
  apply keeps_modify. intros w. apply f_states.
Qed.

Lemma keeps_auth request : keeps (same f) (auth env request).
Proof.
  unfold auth.
  repeat first [ apply keeps_match_user_auth_token
               | apply keeps_start_google_auth | keeps_go1 ].
Qed.

Lemma keeps_handle_google_callback request :
  keeps (same f) (handle_google_callback env request).
Proof.
  unfold handle_google_callback.
  repeat first [ apply keeps_exchange_code_for_tokens
               | apply keeps_save_user_google_tokens | keeps_go1 ].
  intros w. apply f_states.
Qed.

Lemma keeps_AuthenticationMiddleware_call app sc :
  (∀ sc', keeps (same f) (app sc')) →
  keeps (same f) (AuthenticationMiddleware_call env app sc).
Proof.
  intros Happ. unfold AuthenticationMiddleware_call.
  repeat first [ apply Happ | keeps_go1 ].
Qed.
End Frames.

(** ** The ticket manager *)

Lemma gen_user_auth_token_run env user_id w :
  let secret := Py.hex (map (random_byte env) (seq (random_drawn w) 32)) in
  gen_user_auth_token env user_id w =
    (Ret secret,
     set_temp_user_oauth_token (<[user_id := secret]> (temp_user_oauth_token w))
       (set_random_drawn (random_drawn w + 32) w)).
Proof. reflexivity. Qed.

Lemma match_user_auth_token_run user_id token w :
  match_user_auth_token user_id token w =
    (Ret (bool_decide (temp_user_oauth_token w !! user_id = Some token)), w).
Proof.
  unfold match_user_auth_token. unfold_monad.
  destruct (temp_user_oauth_token w !! user_id) as [stored |] eqn:Hl.
  - destruct (String.eqb_spec stored token) as [-> | Hne].
    + by rewrite bool_decide_eq_true_2.
    + rewrite bool_decide_eq_false_2; [reflexivity | congruence].
  - by rewrite bool_decide_eq_false_2.
Qed.

(** Only [gen_user_auth_token] writes the ticket dictionary. *)
Lemma run_call_tickets env c w :
  (∀ u, c ≠ CallGenUserAuthToken u) →
  temp_user_oauth_token (run_call env c w) = temp_user_oauth_token w.
Proof.
  intros Hc. destruct c as [u | u | rq | rq | sc]; simpl.
  - by apply (keeps_get_user_token env temp_user_oauth_token).
  - by destruct (Hc u).
  - by apply (keeps_auth env temp_user_oauth_token).
  - by apply (keeps_handle_google_callback env temp_user_oauth_token).
  - apply (keeps_AuthenticationMiddleware_call env temp_user_oauth_token);
      [done |]. intros sc' w'. reflexivity.
Qed.

Lemma last_issued_snoc log user_id secret u :
  last_issued (log ++ [(user_id, secret)]) u =
    if String.eqb user_id u then Some secret else last_issued log u.
Proof. unfold last_issued. rewrite fold_left_app. reflexivity. Qed.

(** The ticket dictionary holds, for each user, the secret issued last. *)
Lemma ticket_log_lookup env w log :
  ticket_log env w log → ∀ u, temp_user_oauth_token w !! u = last_issued log u.
Proof.
  induction 1 as [w Hw | w log u0 s w' Hlog IH Hgen | w log c Hlog IH Hc];
    intros u.
  - rewrite Hw. apply lookup_empty.
  - rewrite gen_user_auth_token_run in Hgen. inversion Hgen; subst. simpl.
    rewrite last_issued_snoc.
    destruct (String.eqb_spec u0 u) as [-> | Hne].
    + apply lookup_insert_eq.
    + rewrite lookup_insert_ne by exact Hne. apply IH.
  - rewrite run_call_tickets by exact Hc. apply IH.
Qed.

(** C5. In every state the process reaches, [match_user_auth_token] answers
    true exactly when a ticket was issued for the user and the presented
    secret is the one issued last for that user.  In particular a secret
    just issued validates for its user; any other secret does not; the
    secret does not validate for another user, unless that user's own last
    ticket is by coincidence the same string; and once a different secret
    is issued to the user the earlier one is refused. *)
Theorem ticket_validation env w log :
  ticket_log env w log →
  (∀ u s, match_user_auth_token u s w
          = (Ret (bool_decide (last_issued log u = Some s)), w)) ∧
  (∀ u, ∃ s w1,
     gen_user_auth_token env u w = (Ret s, w1) ∧
     ticket_log env w1 (log ++ [(u, s)]) ∧
     match_user_auth_token u s w1 = (Ret true, w1) ∧
     (∀ s', s' ≠ s → match_user_auth_token u s' w1 = (Ret false, w1)) ∧
     (∀ u', u' ≠ u → last_issued log u' ≠ Some s →
        match_user_auth_token u' s w1 = (Ret false, w1)) ∧
     (∀ s2 w2, gen_user_auth_token env u w1 = (Ret s2, w2) → s2 ≠ s →
        match_user_auth_token u s w2 = (Ret false, w2))).
Proof.
  intros Hlog.
  assert (Hm : ∀ w log, ticket_log env w log → ∀ u s,
            match_user_auth_token u s w
            = (Ret (bool_decide (last_issued log u = Some s)), w)).
  { intros w0 log0 H0 u s. rewrite match_user_auth_token_run.
    by rewrite (ticket_log_lookup env w0 log0 H0). }
  split; [exact (Hm w log Hlog) |].
  intros u.
  destruct (gen_user_auth_token env u w) as [[s | e] w1] eqn:Hgen;
    [| rewrite gen_user_auth_token_run in Hgen; discriminate].
  assert (Hlog1 : ticket_log env w1 (log ++ [(u, s)])).
  { eapply ticket_log_issue; eassumption. }
  exists s, w1. split; [reflexivity |]. split; [exact Hlog1 |].
  split; [| split; [| split]].
  - rewrite (Hm _ _ Hlog1), last_issued_snoc, String.eqb_refl.
    by rewrite bool_decide_eq_true_2.
  - intros s' Hs'. rewrite (Hm _ _ Hlog1), last_issued_snoc, String.eqb_refl.
    rewrite bool_decide_eq_false_2; [reflexivity | congruence].
  - intros u' Hu' Hcol. rewrite (Hm _ _ Hlog1), last_issued_snoc.
    destruct (String.eqb_spec u u'); [congruence |].
    by rewrite bool_decide_eq_false_2.
  - intros s2 w2 Hgen2 Hs2.
    assert (Hlog2 : ticket_log env w2 ((log ++ [(u, s)]) ++ [(u, s2)])).
    { eapply ticket_log_issue; eassumption. }
    rewrite (Hm _ _ Hlog2), last_issued_snoc, String.eqb_refl.
    rewrite bool_decide_eq_false_2; [reflexivity | congruence].
Qed.

Lemma ticket_validation_witness :
  ∃ s1 w1 s2 w2,
    gen_user_auth_token demo_env "u1" (fresh_world ∅) = (Ret s1, w1) ∧
    gen_user_auth_token demo_env "u1" w1 = (Ret s2, w2) ∧
    match_user_auth_token "u1" s1 w1 = (Ret true, w1) ∧
    match_user_auth_token "u2" s1 w1 = (Ret false, w1) ∧
    match_user_auth_token "u1" s1 w2 = (Ret false, w2).
Proof.
  destruct (proj2 (ticket_validation demo_env (fresh_world ∅) []
                     (ticket_log_start demo_env (fresh_world ∅) eq_refl)) "u1")
    as (s1 & w1 & Hgen1 & Hlog1 & Htrue & _ & Huser & Hre).
  destruct (gen_user_auth_token demo_env "u1" w1) as [[s2 | e] w2] eqn:Hgen2;
    [| rewrite gen_user_auth_token_run in Hgen2; discriminate].
  exists s1, w1, s2, w2.
  split; [exact Hgen1 |]. split; [exact Hgen2 |]. split; [exact Htrue |].
  split.
  - apply Huser; [discriminate |]. vm_compute. discriminate.
  - apply (Hre s2 w2 eq_refl).
    rewrite gen_user_auth_token_run in Hgen1, Hgen2.
    inversion Hgen1; subst s1 w1. inversion Hgen2; subst s2.
    vm_compute. discriminate.
Defined.

(** ** The OAuth callback and its state nonce *)

Lemma truthy_str_Some (s : string) : s ≠ "" → Py.truthy_str (Some s) = true.
Proof.
  intros Hs. simpl. destruct (String.eqb_spec s ""); [contradiction | reflexivity].
Qed.

(** A callback that reports an error answers 400 and only prints. *)
Lemma handle_google_callback_error env request e w :
  query_params request !! "error" = Some e → e ≠ "" →
  handle_google_callback env request w =
    (Ret (PlainTextResponse ("Google OAuth Error: " +:+ e) 400),
     set_stdout (stdout w ++ ["Google OAuth error: " +:+ e]) w).
Proof.
  intros He Hne. unfold handle_google_callback.
  rewrite He, (truthy_str_Some e Hne). reflexivity.
Qed.

(** A callback whose state is not in the dictionary is answered 400,
    without a call to the provider and without a write to the files. *)
Lemma handle_google_callback_unknown_state env request st w :
  query_params request !! "state" = Some st →
  temp_google_oauth_states w !! st = None →
  ∃ msg w',
    handle_google_callback env request w = (Ret (PlainTextResponse msg 400), w') ∧
    posts w' = posts w ∧ files w' = files w.
Proof.
  intros Hst Habs. unfold handle_google_callback. rewrite Hst.
  destruct (Py.truthy_str (query_params request !! "error")).
  { eexists _, _. split; [reflexivity |]. split; reflexivity. }
  destruct (negb (Py.truthy_str (query_params request !! "code"))
            || negb (Py.truthy_str (Some st))).
  { eexists _, _. split; [reflexivity |]. split; reflexivity. }
  change (default "" (Some st)) with st.
  rewrite bind_run. unfold pop_state. rewrite Habs.
  eexists _, _. split; [reflexivity |]. split; reflexivity.
Qed.

Lemma exchange_code_for_tokens_posts env code w :
  posts (exchange_code_for_tokens env code w).2
  = posts w ++ [exchange_request env code].
Proof.
  unfold exchange_code_for_tokens. rewrite bind_run.
  unfold requests_post at 1.
  change (HttpRequest token_url _) with (exchange_request env code).
  destruct (provider env (length (posts w)) (exchange_request env code))
    as [| st b]; [reflexivity |].
  rewrite bind_run. unfold raise_for_status, json_of. cbn [fst snd].
  destruct ((400 <=? st) && (st <? 600)); [reflexivity |].
  destruct b; reflexivity.
Qed.

(** A callback with a code and a state that is in the dictionary removes
    the state, makes the one call that exchanges the code, and answers 200
    or, when the exchange or the save fails, 500. *)
Lemma handle_google_callback_known_state env request code st user_id w :
  Py.truthy_str (query_params request !! "error") = false →
  query_params request !! "code" = Some code → code ≠ "" →
  query_params request !! "state" = Some st → st ≠ "" →
  temp_google_oauth_states w !! st = Some user_id →
  ∃ resp w',
    handle_google_callback env request w = (Ret resp, w') ∧
    (resp = PlainTextResponse "You can close the tab." 200 ∨
     resp = PlainTextResponse "An internal error occurred." 500) ∧
    temp_google_oauth_states w' = delete st (temp_google_oauth_states w) ∧
    posts w' = posts w ++ [exchange_request env code].
Proof.
  intros Herr Hcode Hc Hstate Hs Hu. unfold handle_google_callback.
  rewrite Herr, Hcode, Hstate, (truthy_str_Some _ Hc), (truthy_str_Some _ Hs).
  cbn [negb orb].
  change (default "" (Some st)) with st.
  change (default "" (Some code)) with code.
  rewrite bind_run. unfold pop_state. rewrite Hu.
  set (w1 := set_temp_google_oauth_states _ w).
  unfold try_except. rewrite bind_run.
  pose proof (exchange_code_for_tokens_posts env code w1) as Hxp.
  pose proof (keeps_exchange_code_for_tokens env temp_google_oauth_states
                (λ _ _, eq_refl) code w1) as Hxs.
  unfold same in Hxs.
  destruct (exchange_code_for_tokens env code w1) as [[td | e] wa];
    simpl in Hxp, Hxs.
  - rewrite bind_run.
    pose proof (keeps_save_user_google_tokens env posts
                  (λ _ _, eq_refl) (λ _ _, eq_refl) (λ _ _, eq_refl)
                  user_id td wa) as Hsp.
    pose proof (keeps_save_user_google_tokens env temp_google_oauth_states
                  (λ _ _, eq_refl) (λ _ _, eq_refl) (λ _ _, eq_refl)
                  user_id td wa) as Hss.
    unfold same in Hsp, Hss.
    destruct (save_user_google_tokens env user_id td wa) as [[x | e] wb];
      simpl in Hsp, Hss.
    + eexists _, _. split; [reflexivity |]. split; [left; reflexivity |].
      split; congruence.
    + eexists _, _. split; [reflexivity |]. split; [right; reflexivity |].
      simpl. split; congruence.
  - eexists _, _. split; [reflexivity |]. split; [right; reflexivity |].
    simpl. split; congruence.
Qed.

#[global] Instance absent_stays_preorder st : PreOrder (absent_stays st).
Proof.
  split.
  - intros w H. exact H.
  - intros w1 w2 w3 H12 H23 H. apply H23, H12, H.
Qed.

Lemma keeps_absent_stays {A} st (m : M A) :
  keeps (same temp_google_oauth_states) m → keeps (absent_stays st) m.
Proof. intros Hm w Habs. rewrite (Hm w). exact Habs. Qed.

(** The callback only ever removes a state from the dictionary. *)
Lemma keeps_absent_handle_google_callback env request st :
  keeps (absent_stays st) (handle_google_callback env request).
Proof.
  unfold handle_google_callback.
  repeat first
    [ apply keeps_absent_stays;
      first [ apply keeps_print | apply keeps_exchange_code_for_tokens
            | apply keeps_save_user_google_tokens ];
      intros; reflexivity
    | keeps_step ].
  intros w Habs. simpl. rewrite lookup_delete_None. right. exact Habs.
Qed.

(** The route [/auth] adds at most the nonce drawn next. *)
Lemma auth_absent_stays env request st w :
  next_nonce env w ≠ st → absent_stays st w (auth env request w).2.
Proof.
  intros Hn Habs. unfold auth.
  destruct (query_params request !! "userid") as [u |]; [| exact Habs].
  destruct (query_params request !! "token") as [t |]; [| exact Habs].
  rewrite bind_run, match_user_auth_token_run.
  destruct (bool_decide _); [| exact Habs].
  simpl. rewrite lookup_insert_ne; [exact Habs | exact Hn].
Qed.

(** Once absent, a state stays absent for as long as it is not drawn
    again. *)
Lemma later_absent env st w w' :
  later env st w w' →
  temp_google_oauth_states w !! st = None →
  temp_google_oauth_states w' !! st = None.
Proof.
  induction 1 as [w | w w1 c Hl IH Hc]; intros Habs; [exact Habs |].
  specialize (IH Habs).
  destruct c as [u | u | rq | rq | sc]; cbn [run_call].
  - rewrite (keeps_get_user_token env temp_google_oauth_states); done.
  - rewrite (keeps_gen_user_auth_token env temp_google_oauth_states); done.
  - apply auth_absent_stays; [by apply (Hc rq) | exact IH].
  - by apply keeps_absent_handle_google_callback.
  - rewrite (keeps_AuthenticationMiddleware_call env temp_google_oauth_states);
      [done | done |]. intros sc' w0. reflexivity.
Qed.

(** C6. A state nonce is used once: the callback that validates a state
    removes it from the state dictionary, and every later callback that
    presents the same state, whatever code it carries, is answered 400,
    with no call to the provider and no write to the token files.  (Later:
    after any calls of the service that do not draw the same nonce
    afresh.) *)
Theorem state_nonce_single_use env w request code st user_id :
  Py.truthy_str (query_params request !! "error") = false →
  query_params request !! "code" = Some code → code ≠ "" →
  query_params request !! "state" = Some st → st ≠ "" →
  temp_google_oauth_states w !! st = Some user_id →
  ∃ resp w1,
    handle_google_callback env request w = (Ret resp, w1) ∧
    temp_google_oauth_states w1 = delete st (temp_google_oauth_states w) ∧
    ∀ w2 replay,
      later env st w1 w2 →
      query_params replay !! "state" = Some st →
      ∃ msg w3,
        handle_google_callback env replay w2
          = (Ret (PlainTextResponse msg 400), w3) ∧
        posts w3 = posts w2 ∧ files w3 = files w2.
Proof.
  intros Herr Hcode Hc Hstate Hs Hu.
  destruct (handle_google_callback_known_state env request code st user_id w
              Herr Hcode Hc Hstate Hs Hu)
    as (resp & w1 & Hrun & _ & Hstates & _).
  exists resp, w1. split; [exact Hrun |]. split; [exact Hstates |].
  intros w2 replay Hlater Hreplay.
  apply (handle_google_callback_unknown_state env replay st w2 Hreplay).
  apply (later_absent env st w1 w2 Hlater).
  rewrite Hstates. apply lookup_delete_eq.
Qed.

Lemma state_nonce_single_use_witness :
  ∃ resp w1,
    handle_google_callback demo_env (callback_request "code1" "n1")
      world_awaiting_callback = (Ret resp, w1) ∧
    temp_google_oauth_states w1 = ∅ ∧
    ∃ msg w3,
      handle_google_callback demo_env (callback_request "code2" "n1") w1
        = (Ret (PlainTextResponse msg 400), w3) ∧
      posts w3 = posts w1 ∧ files w3 = files w1.
Proof.
  destruct (state_nonce_single_use demo_env world_awaiting_callback
              (callback_request "code1" "n1") "code1" "n1" "u1")
    as (resp & w1 & Hrun & Hstates & Hreplay);
    [reflexivity | reflexivity | discriminate | reflexivity | discriminate
    | reflexivity |].
  exists resp, w1. split; [exact Hrun |]. split.
  - rewrite Hstates. apply map_eq. intros k. vm_compute.
    destruct k; reflexivity.
  - apply Hreplay; [apply later_now | reflexivity].
Defined.

(** C10. A callback with a non-empty [error] parameter is answered 400 at
    once and leaves the state dictionary as it was (it only prints): a
    state stored before it is still there, so a callback that then presents
    that state with a code and without an error validates the state and
    goes on to exchange the code. *)
Theorem error_callback_keeps_state env w request e :
  query_params request !! "error" = Some e → e ≠ "" →
  ∃ w',
    handle_google_callback env request w
      = (Ret (PlainTextResponse ("Google OAuth Error: " +:+ e) 400), w') ∧
    temp_google_oauth_states w' = temp_google_oauth_states w ∧
    posts w' = posts w ∧ files w' = files w ∧
    ∀ next code st user_id,
      Py.truthy_str (query_params next !! "error") = false →
      query_params next !! "code" = Some code → code ≠ "" →
      query_params next !! "state" = Some st → st ≠ "" →
      temp_google_oauth_states w !! st = Some user_id →
      ∃ resp w'',
        handle_google_callback env next w' = (Ret resp, w'') ∧
        (resp = PlainTextResponse "You can close the tab." 200 ∨
         resp = PlainTextResponse "An internal error occurred." 500) ∧
        temp_google_oauth_states w'' = delete st (temp_google_oauth_states w) ∧
        posts w'' = posts w ++ [exchange_request env code].
Proof.
  intros He Hne. eexists. split.
  { apply handle_google_callback_error; [exact He | exact Hne]. }
  split; [reflexivity |]. split; [reflexivity |]. split; [reflexivity |].
  intros next code st user_id Herr Hcode Hc Hstate Hs Hu.
  destruct (handle_google_callback_known_state env next code st user_id
              (set_stdout (stdout w ++ ["Google OAuth error: " +:+ e]) w)
              Herr Hcode Hc Hstate Hs Hu)
    as (resp & w'' & Hrun & Hresp & Hstates & Hposts).
  exists resp, w''. split; [exact Hrun |]. split; [exact Hresp |].
  split; [exact Hstates | exact Hposts].
Qed.

Lemma error_callback_keeps_state_witness :
  ∃ w',
    handle_google_callback demo_env (error_request "access_denied" "n1")
      world_awaiting_callback
      = (Ret (PlainTextResponse "Google OAuth Error: access_denied" 400), w') ∧
    temp_google_oauth_states w' !! "n1" = Some "u1" ∧
    ∃ resp w'',
      handle_google_callback demo_env (callback_request "code1" "n1") w'
        = (Ret resp, w'') ∧
      temp_google_oauth_states w'' !! "n1" = None ∧
      posts w'' = [exchange_request demo_env "code1"].
Proof.
  destruct (error_callback_keeps_state demo_env world_awaiting_callback
              (error_request "access_denied" "n1") "access_denied")
    as (w' & Hrun & Hstates & Hposts & _ & Hnext);
    [reflexivity | discriminate |].
  exists w'. split; [exact Hrun |]. split.
  - rewrite Hstates. reflexivity.
  - destruct (Hnext (callback_request "code1" "n1") "code1" "n1" "u1")
      as (resp & w'' & Hrun2 & _ & Hst2 & Hp2);
      [reflexivity | reflexivity | discriminate | reflexivity | discriminate
      | reflexivity |].
    exists resp, w''. split; [exact Hrun2 |]. split.
    + rewrite Hst2. apply lookup_delete_eq.
    + exact Hp2.
Defined.

(** ** The request gate *)

Lemma prefix_app_l (a b s : string) :
  String.prefix (a +:+ b) s = true → String.prefix a s = true.
Proof.
  revert s. induction a as [| c a IH]; intros s H.
  - destruct s; reflexivity.
  - destruct s as [| c' s]; simpl in *; [discriminate |].
    destruct (ascii_dec c c'); [apply IH; exact H | discriminate].
Qed.

(** A path under the callback endpoint is a path under [/auth]. *)
Lemma callback_path_is_auth_path (path : string) :
  Py.startswith path "/auth/google/callback" = true →
  Py.startswith path "/auth" = true.
Proof. apply (prefix_app_l "/auth" "/google/callback"). Qed.

Lemma all_space_app (s t : string) :
  Py.all_space (s +:+ t) = Py.all_space s && Py.all_space t.
Proof.
  induction s as [| c s IH]; simpl; [reflexivity |].
  rewrite IH. by rewrite andb_assoc.
Qed.

Lemma rstrip_app (s t : string) :
  Py.all_space t = false → Py.rstrip (s +:+ t) = s +:+ Py.rstrip t.
Proof.
  intros Ht. induction s as [| c s IH]; [reflexivity |].
  change (String c s +:+ t) with (String c (s +:+ t)).
  cbn [Py.rstrip Py.all_space]. rewrite all_space_app, Ht, andb_false_r, andb_false_r.
  rewrite IH. reflexivity.
Qed.

Lemma rstrip_fixed_not_all_space (t : string) :
  t ≠ "" → Py.rstrip t = t → Py.all_space t = false.
Proof.
  intros Hne Hr. destruct t as [| c t]; [contradiction |].
  destruct (Py.all_space (String c t)) eqn:Ha; [| reflexivity].
  cbn [Py.rstrip] in Hr. rewrite Ha in Hr. discriminate.
Qed.

(** A header [Bearer t] carries [t], for a token that is not empty and
    neither starts nor ends with white space. *)
Lemma bearer_of_Bearer (t : string) :
  t ≠ "" → Py.lstrip t = t → Py.rstrip t = t →
  bearer_of ("Bearer " +:+ t) = Some t.
Proof.
  intros Hne Hl Hr. unfold bearer_of, Py.strip.
  change (Py.lstrip ("Bearer " +:+ t)) with ("Bearer " +:+ t).
  rewrite rstrip_app by (apply rstrip_fixed_not_all_space; assumption).
  rewrite Hr. unfold Py.split_maxsplit1.
  change (Py.lstrip ("Bearer " +:+ t)) with ("Bearer " +:+ t).
  cbv [append].
  change (Py.span_word (String "B" _)) with ("Bearer", String " " t).
  cbv iota beta.
  change (Py.lstrip (String " " t)) with (Py.lstrip t). rewrite Hl.
  destruct t as [| c t]; [contradiction | reflexivity].
Qed.

(** What the middleware does on a path outside [/auth]. *)
Lemma middleware_bearer_path env app sc w :
  scope_type sc = "http" →
  Py.startswith (default "/" (scope_path sc)) "/auth" = false →
  AuthenticationMiddleware_call env app sc w =
    match header_dict_of (default [] (scope_headers sc)) !! "authorization" with
    | None => missing_header w
    | Some h =>
        if String.eqb h "" then missing_header w
        else match BEARER_TOKEN env with
             | None => unauthorized w
             | Some secret =>
                 if bool_decide (bearer_of h = Some secret) then app sc w
                 else unauthorized w
             end
    end.
Proof.
  intros Hhttp Hauth. unfold AuthenticationMiddleware_call.
  rewrite Hhttp. cbn [String.eqb Ascii.eqb Bool.eqb].
  destruct (Py.startswith (default "/" (scope_path sc)) "/auth/google/callback")
    eqn:Hcb.
  { apply callback_path_is_auth_path in Hcb. congruence. }
  rewrite Hauth.
  destruct (header_dict_of (default [] (scope_headers sc)) !! "authorization")
    as [h |]; [| reflexivity].
  change (default "" (Some h)) with h.
  cbn [Py.truthy_str negb].
  destruct (String.eqb h ""); [reflexivity |]. cbn [negb].
  destruct (BEARER_TOKEN env) as [secret |]; [| reflexivity].
  destruct (bool_decide (bearer_of h = Some secret)); reflexivity.
Qed.

(** What the middleware does on a path under [/auth] that is not the
    callback. *)
Lemma middleware_auth_path env app sc w :
  scope_type sc = "http" →
  Py.startswith (default "/" (scope_path sc)) "/auth/google/callback" = false →
  Py.startswith (default "/" (scope_path sc)) "/auth" = true →
  let query := parse_query (default "" (scope_query_string sc)) in
  let user_id := default "" (query !! "userid") in
  AuthenticationMiddleware_call env app sc w =
    match temp_user_oauth_token w !! user_id with
    | None => unauthorized w
    | Some ticket =>
        if bool_decide (query !! "token" = Some ticket) then app sc w
        else unauthorized w
    end.
Proof.
  intros Hhttp Hcb Hauth query user_id. unfold AuthenticationMiddleware_call.
  rewrite Hhttp. cbn [String.eqb Ascii.eqb Bool.eqb].
  rewrite Hcb, Hauth. rewrite bind_run. unfold gets.
  fold query. fold user_id.
  destruct (temp_user_oauth_token w !! user_id) as [ticket |]; [| reflexivity].
  destruct (bool_decide (query !! "token" = Some ticket)); reflexivity.
Qed.

(** The callback endpoint, and everything that is not HTTP, goes through. *)
Lemma middleware_pass_through env app sc w :
  scope_type sc ≠ "http" ∨
  Py.startswith (default "/" (scope_path sc)) "/auth/google/callback" = true →
  AuthenticationMiddleware_call env app sc w = app sc w.
Proof.
  intros H. unfold AuthenticationMiddleware_call.
  destruct (String.eqb_spec (scope_type sc) "http") as [Hh | Hh];
    [| reflexivity].
  destruct H as [H | H]; [contradiction |]. rewrite H. reflexivity.
Qed.

(** The rest of what the middleware does under [/auth]: with [userid]
    taken as the empty user id when the query has none, it answers 401
    when [token] is missing, when there is no ticket for the user id and
    when the token is not the ticket; it forwards the request when the
    token is the ticket; and the callback endpoint goes through. *)
Lemma ticket_gate env app sc w :
  scope_type sc = "http" →
  let path := default "/" (scope_path sc) in
  let call := AuthenticationMiddleware_call env app sc w in
  (Py.startswith path "/auth/google/callback" = true → call = app sc w) ∧
  (Py.startswith path "/auth/google/callback" = false →
   Py.startswith path "/auth" = true →
   let query := parse_query (default "" (scope_query_string sc)) in
   let user_id := default "" (query !! "userid") in
   let expected := temp_user_oauth_token w !! user_id in
   (query !! "token" = None ∨ expected = None ∨ query !! "token" ≠ expected →
    call = unauthorized w) ∧
   (∀ t, query !! "token" = Some t → expected = Some t → call = app sc w) ∧
   (∀ t, match_user_auth_token user_id t w
         = (Ret (bool_decide (expected = Some t)), w))).
Proof.
  intros Hhttp path call. split.
  - intros Hcb. apply middleware_pass_through. right. exact Hcb.
  - intros Hcb Hauth query user_id expected.
    assert (Hcall := middleware_auth_path env app sc w Hhttp Hcb Hauth).
    cbv zeta in Hcall. fold query user_id expected call in Hcall.
    split; [| split].
    + intros Hrej. destruct expected as [ticket |]; [| exact Hcall].
      rewrite bool_decide_eq_false_2 in Hcall; [exact Hcall |].
      destruct Hrej as [H | [H | H]]; congruence.
    + intros t Ht He. rewrite He in Hcall.
      rewrite bool_decide_eq_true_2 in Hcall; [exact Hcall | exact Ht].
    + intros t. apply match_user_auth_token_run.
Qed.

(** C3, at a request without [userid].  After a tool call with an empty
    [X-User-ID] header the ticket dictionary has a ticket for the empty
    user id; the request [/auth?token=<that ticket>] has no [userid], and
    the middleware does not answer 401: it hands the request to the
    downstream handler (the route [/auth], which then answers 401). *)
Theorem middleware_forwards_missing_userid :
  tool_token_or_prompt demo_env " " (Some "") (fresh_world ∅)
    = (Ret (inl ("[AUTH] " +:+ empty_user_ticket)), empty_user_world) ∧
  parse_query ("token=" +:+ empty_user_ticket) !! "userid" = None ∧
  AuthenticationMiddleware_call demo_env handler_ok request_without_userid
    empty_user_world
    = handler_ok request_without_userid empty_user_world ∧
  AuthenticationMiddleware_call demo_env handler_ok request_without_userid
    empty_user_world
    ≠ unauthorized empty_user_world ∧
  (auth demo_env (MkRequest (parse_query ("token=" +:+ empty_user_ticket)))
     empty_user_world).1
    = Ret (PlainTextResponse "Unauthorized" 401).
Proof.
  split; [vm_compute; reflexivity |].
  split; [vm_compute; reflexivity |].
  assert (Hfwd : AuthenticationMiddleware_call demo_env handler_ok
                   request_without_userid empty_user_world
                 = handler_ok request_without_userid empty_user_world).
  { destruct (ticket_gate demo_env handler_ok request_without_userid
                empty_user_world eq_refl) as [_ Hauth].
    destruct (Hauth eq_refl eq_refl) as (_ & Hpass & _).
    apply (Hpass empty_user_ticket); vm_compute; reflexivity. }
  split; [exact Hfwd |]. split; [| vm_compute; reflexivity].
  rewrite Hfwd. intros H.
  apply (f_equal (λ r, sent r.2)) in H. vm_compute in H. discriminate H.
Qed.

(** ** Configuration *)

(** C9, as the claim states it, fails: with no configuration variable set
    the process starts all the same; nothing is raised. *)
Lemma startup_without_configuration :
  environ unconfigured_env !! "AUTH_TOKEN" = None ∧
  environ unconfigured_env !! "SERVER_DOMAIN" = None ∧
  environ unconfigured_env !! "GOOGLE_CLIENT_ID" = None ∧
  environ unconfigured_env !! "GOOGLE_CLIENT_SECRET" = None ∧
  startup unconfigured_env (fresh_world ∅)
    = (Ret (MkSettings None None None None "None/auth/google/callback"),
       fresh_world ∅) ∧
  ¬ ∃ e w', startup unconfigured_env (fresh_world ∅) = (Raise e, w').
Proof.
  repeat (split; [reflexivity |]).
  intros (e & w' & H). discriminate H.
Qed.

(** C9, amended.  The process starts whatever the environment holds: a
    missing variable leaves its constant [None] and shows only when a
    request is served.  Without [AUTH_TOKEN] every request outside [/auth]
    is answered 401; without [SERVER_DOMAIN] the redirect URI is built from
    the text [None]; without the client id or secret the calls to the
    provider carry [None] in their place. *)
Theorem startup_never_fails env w :
  startup env w
    = (Ret (MkSettings (environ env !! "AUTH_TOKEN")
              (environ env !! "SERVER_DOMAIN")
              (environ env !! "GOOGLE_CLIENT_ID")
              (environ env !! "GOOGLE_CLIENT_SECRET")
              (Py.str_of (environ env !! "SERVER_DOMAIN")
               +:+ "/auth/google/callback")), w) ∧
  (environ env !! "AUTH_TOKEN" = None →
   ∀ app sc w',
     scope_type sc = "http" →
     Py.startswith (default "/" (scope_path sc)) "/auth" = false →
     AuthenticationMiddleware_call env app sc w' = missing_header w' ∨
     AuthenticationMiddleware_call env app sc w' = unauthorized w') ∧
  (environ env !! "SERVER_DOMAIN" = None →
   GOOGLE_REDIRECT_URI env = "None/auth/google/callback") ∧
  (environ env !! "GOOGLE_CLIENT_ID" = None →
   ∀ rt code,
     req_data (refresh_request env rt) !! 0%nat = Some ("client_id", JNull) ∧
     req_data (exchange_request env code) !! 1%nat = Some ("client_id", JNull)) ∧
  (environ env !! "GOOGLE_CLIENT_SECRET" = None →
   ∀ rt code,
     req_data (refresh_request env rt) !! 1%nat = Some ("client_secret", JNull) ∧
     req_data (exchange_request env code) !! 2%nat
       = Some ("client_secret", JNull)).
Proof.
  split; [reflexivity |]. split; [| split; [| split]].
  - intros Hnone app sc w' Hhttp Hauth.
    rewrite (middleware_bearer_path env app sc w' Hhttp Hauth).
    unfold BEARER_TOKEN, os_environ_get. rewrite Hnone.
    destruct (header_dict_of _ !! "authorization") as [h |]; [| by left].
    destruct (String.eqb h ""); [by left | by right].
  - intros Hnone. unfold GOOGLE_REDIRECT_URI, SERVER_DOMAIN, os_environ_get.
    rewrite Hnone. reflexivity.
  - intros Hnone rt code. unfold refresh_request, exchange_request,
      GOOGLE_CLIENT_ID, os_environ_get. rewrite Hnone. split; reflexivity.
  - intros Hnone rt code. unfold refresh_request, exchange_request,
      GOOGLE_CLIENT_SECRET, os_environ_get. rewrite Hnone. split; reflexivity.
Qed.

Lemma startup_never_fails_witness :
  startup unconfigured_env (fresh_world ∅)
    = (Ret (MkSettings None None None None "None/auth/google/callback"),
       fresh_world ∅) ∧
  (AuthenticationMiddleware_call unconfigured_env handler_ok
     (http_scope "/mcp" "" [("Authorization", "Bearer s3cret")]) (fresh_world ∅)
   = missing_header (fresh_world ∅) ∨
   AuthenticationMiddleware_call unconfigured_env handler_ok
     (http_scope "/mcp" "" [("Authorization", "Bearer s3cret")]) (fresh_world ∅)
   = unauthorized (fresh_world ∅)) ∧
  GOOGLE_REDIRECT_URI unconfigured_env = "None/auth/google/callback".
Proof.
  destruct (startup_never_fails unconfigured_env (fresh_world ∅))
    as (Hstart & Hgate & Huri & _).
  split; [exact Hstart |]. split.
  - apply Hgate; reflexivity.
  - apply Huri. reflexivity.
Defined.

(** ** Further properties of the credential store *)

Lemma length_append (s t : string) :
  String.length (s +:+ t) = (String.length s + String.length t)%nat.
Proof.
  induction s as [| c s IH]; [reflexivity |].
  change (String c s +:+ t) with (String c (s +:+ t)). simpl. by rewrite IH.
Qed.

Lemma append_inj_r (t s1 s2 : string) : s1 +:+ t = s2 +:+ t → s1 = s2.
Proof.
  revert s2. induction s1 as [| c s1 IH]; intros [| c2 s2] H.
  - reflexivity.
  - apply (f_equal String.length) in H.
    change ("" +:+ t) with t in H.
    change (String c2 s2 +:+ t) with (String c2 (s2 +:+ t)) in H.
    simpl in H. rewrite length_append in H. lia.
  - apply (f_equal String.length) in H.
    change ("" +:+ t) with t in H.
    change (String c s1 +:+ t) with (String c (s1 +:+ t)) in H.
    simpl in H. rewrite length_append in H. lia.
  - change (String c s1 +:+ t) with (String c (s1 +:+ t)) in H.
    change (String c2 s2 +:+ t) with (String c2 (s2 +:+ t)) in H.
    inversion H; subst. f_equal. by apply IH.
Qed.

Lemma append_inj_l (t s1 s2 : string) : t +:+ s1 = t +:+ s2 → s1 = s2.
Proof.
  induction t as [| c t IH]; intros H; [exact H |].
  change (String c t +:+ s1) with (String c (t +:+ s1)) in H.
  change (String c t +:+ s2) with (String c (t +:+ s2)) in H.
  inversion H. by apply IH.
Qed.

(** The path of a user's token file: the file name itself when the user id
    begins with a slash, and a file under the token folder otherwise. *)
Lemma token_filepath_cases (user_id : string) :
  (Py.startswith (user_id +:+ ".json") "/" = true ∧
   token_filepath user_id = user_id +:+ ".json") ∨
  (Py.startswith (user_id +:+ ".json") "/" = false ∧
   token_filepath user_id = "tokens/" +:+ user_id +:+ ".json").
Proof.
  unfold token_filepath, Py.path_join.
  destruct (Py.startswith (user_id +:+ ".json") "/"); [left | right];
    split; reflexivity.
Qed.

Lemma contains_char_app (c : ascii) (a b : string) :
  Py.contains_char c (a +:+ b) = Py.contains_char c a || Py.contains_char c b.
Proof.
  induction a as [| d a IH]; [reflexivity |].
  change (String d a +:+ b) with (String d (a +:+ b)).
  cbn [Py.contains_char]. by rewrite IH, orb_assoc.
Qed.

(** The token file of a user id without a path separator is the entry of
    the token folder named after it. *)
Lemma token_filepath_plain (user_id : string) :
  plain_user_id user_id = true →
  token_filepath user_id = "tokens/" +:+ user_id +:+ ".json" ∧
  Py.contains_char "/" (user_id +:+ ".json") = false.
Proof.
  unfold plain_user_id. intros H. apply negb_true_iff in H.
  split; [| by rewrite contains_char_app, H].
  destruct (token_filepath_cases user_id) as [[Hs _] | [_ Hp]]; [| exact Hp].
  destruct user_id as [| c u]; [discriminate Hs |].
  change (String c u +:+ ".json") with (String c (u +:+ ".json")) in Hs.
  cbn [Py.contains_char] in H. apply orb_false_iff in H as [Hc _].
  unfold Py.startswith in Hs. cbn [String.prefix] in Hs.
  destruct (ascii_dec "/" c) as [<- |]; [discriminate Hc | discriminate Hs].
Qed.

(** X1. The token file of a user id without a path separator is an entry
    of the token folder: its path is the folder, a separator and a name
    without separator; and two different such user ids give entries of
    different names.  (With a separator in the user id the path names a
    file elsewhere, or the file of another user id, and nothing is
    claimed.) *)
Theorem token_filepath_injective (u1 u2 : string) :
  plain_user_id u1 = true → plain_user_id u2 = true → u1 ≠ u2 →
  ∃ n1 n2,
    token_filepath u1 = "tokens/" +:+ n1 ∧
    token_filepath u2 = "tokens/" +:+ n2 ∧
    Py.contains_char "/" n1 = false ∧ Py.contains_char "/" n2 = false ∧
    n1 ≠ n2.
Proof.
  intros H1 H2 Hne.
  destruct (token_filepath_plain u1 H1) as [Hp1 Hc1].
  destruct (token_filepath_plain u2 H2) as [Hp2 Hc2].
  exists (u1 +:+ ".json"), (u2 +:+ ".json").
  split; [exact Hp1 |]. split; [exact Hp2 |].
  split; [exact Hc1 |]. split; [exact Hc2 |].
  intros Heq. apply Hne. by apply (append_inj_r ".json").
Qed.

Lemma token_filepath_injective_witness :
  ∃ n1 n2,
    token_filepath "alice" = "tokens/" +:+ n1 ∧
    token_filepath "bob" = "tokens/" +:+ n2 ∧
    Py.contains_char "/" n1 = false ∧ Py.contains_char "/" n2 = false ∧
    n1 ≠ n2.
Proof.
  apply token_filepath_injective; [reflexivity | reflexivity | discriminate].
Defined.

(** A primitive that leaves the part of the world at hand alone, the part
    being read off the goal. *)
Ltac frame_prim :=
  first [ apply keeps_time_now | apply keeps_print | apply keeps_os_urandom
        | apply keeps_requests_post | apply keeps_send_response ];
  intros; reflexivity.

Lemma keeps_write_json_other env path (p : string) j :
  p ≠ path → keeps (same (λ w, files w !! p)) (write_json env path j).
Proof.
  intros Hp w. unfold same, write_json.
  destruct (writable env path); [| reflexivity].
  simpl. by rewrite lookup_insert_ne.
Qed.

Lemma keeps_other_file_save env user_id token_data (p : string) :
  p ≠ token_filepath user_id →
  keeps (same (λ w, files w !! p)) (save_user_google_tokens env user_id token_data).
Proof.
  intros Hp.
  unfold save_user_google_tokens, os_makedirs, py_in, getitem, int_add, setitem.
  repeat first [ apply keeps_write_json_other; exact Hp | frame_prim | keeps_step ].
Qed.

Lemma keeps_other_file_refresh env user_id rt (p : string) :
  p ≠ token_filepath user_id →
  keeps (same (λ w, files w !! p)) (refresh_google_access_token env user_id rt).
Proof.
  intros Hp.
  unfold refresh_google_access_token, raise_for_status, json_of, setitem, getitem.
  repeat first [ apply keeps_other_file_save; exact Hp | frame_prim | keeps_step ].
Qed.

Lemma keeps_other_file_get_user_token env user_id (p : string) :
  p ≠ token_filepath user_id →
  keeps (same (λ w, files w !! p)) (get_user_token env user_id).
Proof.
  intros Hp. unfold get_user_token.
  repeat first
    [ apply keeps_other_file_refresh; exact Hp
    | apply keeps_get_user_google_credentials; intros; reflexivity
    | keeps_step ].
Qed.

Lemma stored_record_same_file w w' user_id r :
  files w' !! token_filepath user_id = files w !! token_filepath user_id →
  stored_record w user_id r → stored_record w' user_id r.
Proof.
  intros Hf (Hne & o & Hfile & Hrest). split; [exact Hne |].
  exists o. split; [by rewrite Hf | exact Hrest].
Qed.

(** X2. Among user ids without a path separator, saving tokens for one
    user, and getting a token for one user (which may refresh and save),
    never changes the token file of another user: a record stored for the
    other user is still stored afterwards. *)
Theorem other_users_untouched env w user_id other :
  plain_user_id user_id = true → plain_user_id other = true →
  other ≠ user_id →
  (∀ token_data,
     files (save_user_google_tokens env user_id token_data w).2
       !! token_filepath other = files w !! token_filepath other) ∧
  files (get_user_token env user_id w).2 !! token_filepath other
    = files w !! token_filepath other ∧
  (∀ r token_data,
     stored_record w other r →
     stored_record (save_user_google_tokens env user_id token_data w).2 other r ∧
     stored_record (get_user_token env user_id w).2 other r).
Proof.
  intros Hplain Hplain' Hne.
  assert (Hp : token_filepath other ≠ token_filepath user_id).
  { destruct (token_filepath_plain user_id Hplain) as [-> _].
    destruct (token_filepath_plain other Hplain') as [-> _].
    intros Heq. apply Hne.
    apply (append_inj_r ".json"). by apply (append_inj_l "tokens/"). }
  assert (Hsave : ∀ token_data,
            files (save_user_google_tokens env user_id token_data w).2
              !! token_filepath other = files w !! token_filepath other).
  { intros td. apply (keeps_other_file_save env user_id td _ Hp w). }
  assert (Hget : files (get_user_token env user_id w).2 !! token_filepath other
                 = files w !! token_filepath other).
  { apply (keeps_other_file_get_user_token env user_id _ Hp w). }
  split; [exact Hsave |]. split; [exact Hget |].
  intros r td Hst. split.
  - eapply stored_record_same_file; [apply Hsave | exact Hst].
  - eapply stored_record_same_file; [apply Hget | exact Hst].
Qed.

Lemma other_users_untouched_witness :
  stored_record
    (save_user_google_tokens demo_env "u2" (JObj demo_answer)
       (world_with fresh_record)).2 "u1" fresh_record ∧
  stored_record (get_user_token demo_env "u2" (world_with fresh_record)).2
    "u1" fresh_record.
Proof.
  apply (proj2 (proj2 (other_users_untouched demo_env (world_with fresh_record)
                         "u2" "u1" eq_refl eq_refl ltac:(discriminate)))).
  apply stored_record_world_with. discriminate.
Defined.

(** X3. Token data that is not a JSON object, or whose [expires_in] is not
    a number, is not saved: the call raises ([TypeError] once the folder
    exists) and no file is written. *)
Theorem save_rejects_bad_token_data env w user_id token_data :
  (∀ o, token_data ≠ JObj o) ∨
  (∃ o v, token_data = JObj o ∧ o !! "expires_in" = Some v ∧ as_int v = None) →
  ∃ e w',
    save_user_google_tokens env user_id token_data w = (Raise e, w') ∧
    files w' = files w ∧
    (can_makedirs env FOLDER = true → e = TypeError).
Proof.
  intros [Hno | (o & v & -> & Hv & Hn)].
  - unfold save_user_google_tokens, os_makedirs, py_in, getitem, int_add,
      setitem, time_now, print.
    unfold_monad.
    destruct (can_makedirs env FOLDER);
      [| eexists _, _; split; [reflexivity |]; split; [reflexivity | discriminate]].
    destruct token_data as [| b | n | s | l | o].
    + eexists _, _. split; [reflexivity |]. split; reflexivity.
    + eexists _, _. split; [reflexivity |]. split; reflexivity.
    + eexists _, _. split; [reflexivity |]. split; reflexivity.
    + destruct (Py.contains "expires_in" s);
        eexists _, _; (split; [reflexivity |]); split; reflexivity.
    + destruct (existsb _ l);
        eexists _, _; (split; [reflexivity |]); split; reflexivity.
    + destruct (Hno o eq_refl).
  - rewrite save_user_google_tokens_dict, Hv, Hn.
    destruct (can_makedirs env FOLDER);
      eexists _, _; (split; [reflexivity |]); split;
        first [reflexivity | discriminate].
Qed.

Lemma save_rejects_bad_token_data_witness :
  ∃ w',
    save_user_google_tokens demo_env "u1"
      (JObj {[ "access_token" := JStr "a"; "expires_in" := JStr "3600" ]})
      (fresh_world ∅) = (Raise TypeError, w') ∧
    files w' = ∅.
Proof.
  destruct (save_rejects_bad_token_data demo_env (fresh_world ∅) "u1"
              (JObj {[ "access_token" := JStr "a"; "expires_in" := JStr "3600" ]}))
    as (e & w' & Hrun & Hfiles & He).
  - right. eexists _, (JStr "3600"). split; [reflexivity |]. split; reflexivity.
  - rewrite (He eq_refl) in Hrun. exists w'. split; [exact Hrun | exact Hfiles].
Defined.

(** X4. A token file that is not JSON, or a JSON object without a usable
    [access_token] or with no [expires_at], counts as no credentials: the
    load returns [None] and prints one line, and [get_user_token] returns
    [None] without a call to the provider and without touching the
    files. *)
Theorem malformed_record_is_absent env w user_id :
  files w !! token_filepath user_id = Some NotJson ∨
  (∃ o : gmap string jval,
     files w !! token_filepath user_id = Some (JsonText (JObj o)) ∧
     (truthy (default JNull (o !! "access_token")) = false ∨
      default JNull (o !! "expires_at") = JNull)) →
  ∃ w' line,
    get_user_google_credentials env user_id w = (Ret None, w') ∧
    get_user_token env user_id w = (Ret JNull, w') ∧
    stdout w' = stdout w ++ [line] ∧
    posts w' = posts w ∧ files w' = files w.
Proof.
  intros [Hf | (o & Hf & Hbad)].
  - unfold get_user_token, get_user_google_credentials, read_json, time_now,
      json_of, print.
    unfold_monad. simpl. rewrite Hf.
    eexists _, _. repeat (split; [reflexivity |]). reflexivity.
  - unfold get_user_token, get_user_google_credentials, read_json, time_now,
      json_of, dict_get, print.
    unfold_monad. simpl. rewrite Hf. simpl.
    destruct Hbad as [Ha | He].
    + rewrite Ha. simpl.
      eexists _, _. repeat (split; [reflexivity |]). reflexivity.
    + rewrite He. rewrite orb_true_r.
      eexists _, _. repeat (split; [reflexivity |]). reflexivity.
Qed.

Lemma malformed_record_is_absent_witness :
  ∃ w' line,
    get_user_google_credentials demo_env "u1"
      (fresh_world {[ "tokens/u1.json" :=
                        JsonText (JObj {[ "refresh_token" := JStr "rt1" ]}) ]})
      = (Ret None, w') ∧
    get_user_token demo_env "u1"
      (fresh_world {[ "tokens/u1.json" :=
                        JsonText (JObj {[ "refresh_token" := JStr "rt1" ]}) ]})
      = (Ret JNull, w') ∧
    stdout w' = [line] ∧ posts w' = [].
Proof.
  destruct (malformed_record_is_absent demo_env
              (fresh_world {[ "tokens/u1.json" :=
                                JsonText (JObj {[ "refresh_token" := JStr "rt1" ]}) ]})
              "u1")
    as (w' & line & H1 & H2 & H3 & H4 & _).
  - right. eexists. split; [reflexivity |]. left. reflexivity.
  - exists w', line. repeat split; assumption.
Defined.

(** X5. A token file whose JSON is not an object, or whose [expires_at] is
    neither a number nor [null], is not treated as absent: the load raises
    ([AttributeError] and [TypeError]), and so does [get_user_token], with
    no call to the provider. *)
Theorem ill_typed_record_raises env w user_id :
  (∀ j, files w !! token_filepath user_id = Some (JsonText j) →
        (∀ o, j ≠ JObj o) →
        ∃ w', get_user_token env user_id w = (Raise AttributeError, w') ∧
              posts w' = posts w ∧ files w' = files w) ∧
  (∀ (o : gmap string jval) e,
     files w !! token_filepath user_id = Some (JsonText (JObj o)) →
     truthy (default JNull (o !! "access_token")) = true →
     o !! "expires_at" = Some e → e ≠ JNull → as_int e = None →
     ∃ w', get_user_token env user_id w = (Raise TypeError, w') ∧
           posts w' = posts w ∧ files w' = files w).
Proof.
  split.
  - intros j Hf Hno.
    unfold get_user_token, get_user_google_credentials, read_json, time_now,
      json_of, dict_get.
    unfold_monad. simpl. rewrite Hf.
    destruct j as [| b | n | s | l | o];
      try (eexists; split; [reflexivity |]; split; reflexivity).
    destruct (Hno o eq_refl).
  - intros o e Hf Ha He Hnn Hint.
    unfold get_user_token, get_user_google_credentials, read_json, time_now,
      json_of, dict_get, sub_int.
    unfold_monad. simpl. rewrite Hf. simpl. rewrite Ha, He. simpl.
    destruct e; try contradiction; try discriminate;
      eexists; (split; [reflexivity |]); split; reflexivity.
Qed.

Lemma ill_typed_record_raises_witness :
  (∃ w', get_user_token demo_env "u1"
           (fresh_world {[ "tokens/u1.json" := JsonText (JArr []) ]})
         = (Raise AttributeError, w') ∧ posts w' = []) ∧
  (∃ w', get_user_token demo_env "u1"
           (fresh_world {[ "tokens/u1.json" :=
              JsonText (JObj {[ "access_token" := JStr "a";
                                "expires_at" := JStr "soon" ]}) ]})
         = (Raise TypeError, w') ∧ posts w' = []).
Proof.
  split.
  - destruct (proj1 (ill_typed_record_raises demo_env
                (fresh_world {[ "tokens/u1.json" := JsonText (JArr []) ]}) "u1")
                (JArr []))
      as (w' & H1 & H2 & _); [reflexivity | discriminate |].
    exists w'. split; assumption.
  - destruct (proj2 (ill_typed_record_raises demo_env
                (fresh_world {[ "tokens/u1.json" :=
                   JsonText (JObj {[ "access_token" := JStr "a";
                                     "expires_at" := JStr "soon" ]}) ]}) "u1")
                {[ "access_token" := JStr "a"; "expires_at" := JStr "soon" ]}
                (JStr "soon"))
      as (w' & H1 & H2 & _);
      [reflexivity | reflexivity | reflexivity | discriminate | reflexivity |].
    exists w'. split; assumption.
Defined.

(** X6. The load only reads: whatever the token file holds, and whether it
    returns or raises, [get_user_google_credentials] leaves the files, the
    two dictionaries, the log of provider calls and the responses sent as
    they were. *)
Theorem get_user_google_credentials_reads_only env w user_id :
  let w' := (get_user_google_credentials env user_id w).2 in
  files w' = files w ∧
  temp_user_oauth_token w' = temp_user_oauth_token w ∧
  temp_google_oauth_states w' = temp_google_oauth_states w ∧
  posts w' = posts w ∧
  sent w' = sent w ∧
  clock_reads w' = S (clock_reads w).
Proof.
  intros w'.
  split; [by apply (keeps_get_user_google_credentials env files) |].
  split; [by apply (keeps_get_user_google_credentials env temp_user_oauth_token) |].
  split; [by apply (keeps_get_user_google_credentials env temp_google_oauth_states) |].
  split; [by apply (keeps_get_user_google_credentials env posts) |].
  split; [by apply (keeps_get_user_google_credentials env sent) |].
  subst w'. unfold get_user_google_credentials. rewrite bind_run.
  unfold time_now at 1.
  set (w1 := set_clock_reads (S (clock_reads w)) w).
  match goal with
  | |- clock_reads (?m w1).2 = _ =>
      assert (Hk : keeps (same clock_reads) m)
  end.
  { unfold read_json, json_of, dict_get, sub_int.
    repeat first [ apply keeps_print; intros; reflexivity | keeps_step ]. }
  rewrite (Hk w1). reflexivity.
Qed.

(** ** Further properties of the token lifecycle *)

(** X7. A refresh that the provider does not answer with a success status
    and a JSON object (transport failure, a 4xx or 5xx status, a body that
    is not JSON or not an object) returns [None], prints one line and
    leaves the token files as they were: the stored record is kept. *)
Theorem failed_refresh_keeps_record env w user_id rt :
  (∀ o, ¬ answered_with
            (provider env (length (posts w)) (refresh_request env rt)) o) →
  ∃ w' line,
    refresh_google_access_token env user_id rt w = (Ret JNull, w') ∧
    files w' = files w ∧
    posts w' = posts w ++ [refresh_request env rt] ∧
    stdout w' = stdout w ++ [line] ∧
    (∀ r, stored_record w user_id r → stored_record w' user_id r).
Proof.
  intros Hno.
  assert (Hkeep : ∀ w', files w' = files w →
            ∀ r, stored_record w user_id r → stored_record w' user_id r).
  { intros w' Hf r. apply stored_record_same_file. by rewrite Hf. }
  unfold refresh_google_access_token, try_except.
  rewrite bind_run. unfold requests_post at 1.
  change (HttpRequest token_url _) with (refresh_request env rt).
  destruct (provider env (length (posts w)) (refresh_request env rt))
    as [| st b].
  { eexists _, _. split; [reflexivity |]. simpl.
    do 3 (split; [reflexivity |]). by apply Hkeep. }
  rewrite bind_run. unfold raise_for_status at 1. cbn [fst snd].
  destruct ((400 <=? st) && (st <? 600)) eqn:Hst.
  { eexists _, _. split; [reflexivity |]. simpl.
    do 3 (split; [reflexivity |]). by apply Hkeep. }
  rewrite ret_run, bind_run. unfold json_of at 1.
  destruct b as [j |].
  2:{ eexists _, _. split; [reflexivity |]. simpl.
      do 3 (split; [reflexivity |]). by apply Hkeep. }
  rewrite ret_run, bind_run.
  destruct j as [| bb | n | s | l | o];
    try (eexists _, _; split; [reflexivity |]; simpl;
         do 3 (split; [reflexivity |]); by apply Hkeep).
  exfalso. apply (Hno o). exists st. split; [reflexivity |].
  intros [Hlo Hhi]. apply andb_false_iff in Hst as [Hst | Hst]; lia.
Qed.

Lemma failed_refresh_keeps_record_witness :
  ∃ w' line,
    refresh_google_access_token refusing_env "u1" (JStr "rt1")
      (world_with stale_record) = (Ret JNull, w') ∧
    files w' = files (world_with stale_record) ∧
    stdout w' = [line] ∧
    stored_record w' "u1" stale_record.
Proof.
  destruct (failed_refresh_keeps_record refusing_env (world_with stale_record)
              "u1" (JStr "rt1"))
    as (w' & line & Hrun & Hfiles & _ & Hout & Hkeep).
  - intros o (st & Heq & _). discriminate Heq.
  - exists w', line. split; [exact Hrun |]. split; [exact Hfiles |].
    split; [exact Hout |]. apply Hkeep. apply stored_record_world_with.
    discriminate.
Defined.

(** X8. When the provider answers a refresh with an object that has no
    [access_token], the object is saved all the same before the missing
    key is noticed: the refresh returns [None], the stored record is
    replaced by one without an access token, and from then on the load
    reports no credentials. *)
Theorem refresh_without_access_token_loses_record env w user_id rt o :
  answered_with (provider env (length (posts w)) (refresh_request env rt)) o →
  savable env user_id o →
  o !! "access_token" = None →
  ∃ w' (o' : gmap string jval) w'',
    refresh_google_access_token env user_id rt w = (Ret JNull, w') ∧
    files w' !! token_filepath user_id = Some (JsonText (JObj o')) ∧
    o' !! "access_token" = None ∧
    get_user_google_credentials env user_id w' = (Ret None, w'').
Proof.
  intros (st & Hans & Hst) (Hmk & Hwr & Hnum) Hnone.
  assert (Hload : ∀ w1 (o' : gmap string jval),
            files w1 !! token_filepath user_id = Some (JsonText (JObj o')) →
            o' !! "access_token" = None →
            get_user_google_credentials env user_id w1 =
              (Ret None,
               set_stdout (stdout w1 ++
                             ["Missing essential token data for user "
                              +:+ user_id])
                 (set_clock_reads (S (clock_reads w1)) w1))).
  { intros w1 o' Hf Ha.
    unfold get_user_google_credentials, read_json, time_now, json_of,
      dict_get, print.
    unfold_monad. simpl. rewrite Hf. simpl. rewrite Ha. reflexivity. }
  unfold refresh_google_access_token, try_except.
  rewrite bind_run. unfold requests_post at 1.
  change (HttpRequest token_url _) with (refresh_request env rt).
  rewrite Hans. rewrite bind_run. unfold raise_for_status at 1. cbn [fst snd].
  destruct ((400 <=? st) && (st <? 600)) eqn:Hb.
  { apply andb_true_iff in Hb as [Hlo Hhi]. lia. }
  rewrite ret_run, bind_run. unfold json_of at 1.
  rewrite ret_run, bind_run. unfold setitem at 1.
  rewrite ret_run, bind_run, save_user_google_tokens_dict, Hmk.
  rewrite (lookup_insert_ne o "refresh_token" "expires_in") by discriminate.
  destruct (o !! "expires_in") as [ei |] eqn:Hei.
  - destruct (Hnum ei eq_refl) as [n Hn]. rewrite Hn. cbv zeta. rewrite Hwr.
    unfold getitem. rewrite !lookup_insert_ne by discriminate. rewrite Hnone.
    set (o' := <["expires_at" := _]> (<["refresh_token" := rt]> o)).
    assert (Ha : o' !! "access_token" = None).
    { unfold o'. by rewrite !lookup_insert_ne. }
    eexists _, o', _. split; [reflexivity |].
    split; [simpl; apply lookup_insert_eq |]. split; [exact Ha |].
    apply (Hload _ o'); [simpl; apply lookup_insert_eq | exact Ha].
  - cbv zeta. rewrite Hwr.
    unfold getitem. rewrite !lookup_insert_ne by discriminate. rewrite Hnone.
    set (o' := <["expires_at" := _]> (<["refresh_token" := rt]> o)).
    assert (Ha : o' !! "access_token" = None).
    { unfold o'. by rewrite !lookup_insert_ne. }
    eexists _, o', _. split; [reflexivity |].
    split; [simpl; apply lookup_insert_eq |]. split; [exact Ha |].
    apply (Hload _ o'); [simpl; apply lookup_insert_eq | exact Ha].
Qed.

Lemma refresh_without_access_token_loses_record_witness :
  ∃ w' w'',
    refresh_google_access_token tokenless_env "u1" (JStr "rt1")
      (world_with stale_record) = (Ret JNull, w') ∧
    get_user_google_credentials tokenless_env "u1" w' = (Ret None, w'').
Proof.
  destruct (refresh_without_access_token_loses_record tokenless_env
              (world_with stale_record) "u1" (JStr "rt1")
              {[ "expires_in" := JInt 3600 ]})
    as (w' & o' & w'' & Hrun & _ & _ & Hload).
  - exists 200. split; [reflexivity | lia].
  - split; [reflexivity | split; [reflexivity |]].
    intros v Hv. vm_compute in Hv. inversion Hv. eexists. reflexivity.
  - reflexivity.
  - exists w', w''. split; assumption.
Defined.

(** X9. In every world, and whether it returns or raises, [get_user_token]
    calls the provider at most once, and the call is a refresh; it never
    touches the ticket dictionary, the state dictionary or the responses
    sent. *)
Theorem get_user_token_calls_at_most_once env w user_id :
  let w' := (get_user_token env user_id w).2 in
  (posts w' = posts w ∨ ∃ rt, posts w' = posts w ++ [refresh_request env rt]) ∧
  temp_user_oauth_token w' = temp_user_oauth_token w ∧
  temp_google_oauth_states w' = temp_google_oauth_states w ∧
  sent w' = sent w.
Proof.
  intros w'.
  split; [| split; [| split]].
  - subst w'. unfold get_user_token. rewrite bind_run.
    pose proof (keeps_get_user_google_credentials env posts
                  (λ _ _, eq_refl) (λ _ _, eq_refl) user_id w) as Hg.
    unfold same in Hg.
    destruct (get_user_google_credentials env user_id w) as [[res | e] w1];
      simpl in Hg; [| left; exact Hg].
    destruct res as [[valid tok] |]; [| left; exact Hg].
    destruct valid; cbn [negb]; [left; exact Hg |].
    right. exists tok. rewrite bind_run.
    destruct (refresh_google_access_token_run env w1 user_id tok)
      as (v & w2 & Hrun & Hposts & _).
    rewrite Hrun. simpl. by rewrite Hposts, Hg.
  - by apply (keeps_get_user_token env temp_user_oauth_token).
  - by apply (keeps_get_user_token env temp_google_oauth_states).
  - by apply (keeps_get_user_token env sent).
Qed.

(** X10. A token obtained by a refresh is reused: after [get_user_token]
    refreshed successfully, the next [get_user_token] for the user returns
    the same access token without a call to the provider, as long as the
    clock is more than 60 seconds short of the new expiry. *)
Theorem refreshed_token_is_reused env w user_id r o t :
  stored_record w user_id r →
  clock env (clock_reads w) >= expires_at r - 60 →
  refresh_succeeds env user_id
    (provider env (length (posts w))
       (refresh_request env (JStr (refresh_token r)))) o (JStr t) →
  t ≠ "" →
  ∃ w1,
    get_user_token env user_id w = (Ret (JStr t), w1) ∧
    stored_record w1 user_id
      (MkCredentialRecord t (refresh_token r)
         (expiry (clock env (S (clock_reads w))) o)) ∧
    (clock env (clock_reads w1)
       < expiry (clock env (S (clock_reads w))) o - 60 →
     ∃ w2, get_user_token env user_id w1 = (Ret (JStr t), w2) ∧
           posts w2 = posts w1 ∧ files w2 = files w1).
Proof.
  intros Hst Hge Hok Ht.
  pose proof (get_user_google_credentials_stored env w user_id r Hst) as Hg.
  destruct (clock env (clock_reads w) >=? expires_at r - 60) eqn:Hc; [| lia].
  set (w0 := set_clock_reads (S (clock_reads w)) w) in *.
  destruct (refresh_google_access_token_run env w0 user_id
              (JStr (refresh_token r)))
    as (v & w1 & Hrun & _ & _ & _ & Hsucc & _).
  destruct (Hsucc o (JStr t) Hok) as [-> Hfiles].
  change (clock_reads w0) with (S (clock_reads w)) in Hfiles.
  assert (Hst1 : stored_record w1 user_id
                   (MkCredentialRecord t (refresh_token r)
                      (expiry (clock env (S (clock_reads w))) o))).
  { split; [exact Ht |]. eexists. split.
    - rewrite Hfiles. apply lookup_insert_eq.
    - destruct Hok as (_ & _ & Ha). simpl.
      rewrite !lookup_insert_eq.
      rewrite (lookup_insert_ne _ "expires_at" "access_token") by discriminate.
      rewrite (lookup_insert_ne _ "refresh_token" "access_token") by discriminate.
      rewrite (lookup_insert_ne _ "expires_at" "refresh_token") by discriminate.
      rewrite lookup_insert_eq. auto. }
  exists w1. split.
  { unfold get_user_token. rewrite bind_run, Hg. cbn [negb].
    rewrite bind_run, Hrun. reflexivity. }
  split; [exact Hst1 |].
  intros Hlt.
  pose proof (get_user_google_credentials_stored env w1 user_id _ Hst1) as Hg1.
  cbn [expires_at access_token] in Hg1.
  destruct (clock env (clock_reads w1) >=? _) eqn:Hc1 in Hg1; [lia |].
  eexists. split.
  { unfold get_user_token. rewrite bind_run, Hg1. reflexivity. }
  split; reflexivity.
Qed.

Lemma refreshed_token_is_reused_witness :
  ∃ w1 w2,
    get_user_token demo_env "u1" (world_with stale_record)
      = (Ret (JStr "fresh"), w1) ∧
    get_user_token demo_env "u1" w1 = (Ret (JStr "fresh"), w2) ∧
    posts w2 = posts w1.
Proof.
  destruct (refreshed_token_is_reused demo_env (world_with stale_record) "u1"
              stale_record demo_answer "fresh")
    as (w1 & Hrun & _ & Hnext).
  - apply stored_record_world_with. discriminate.
  - vm_compute. discriminate.
  - apply demo_refresh_succeeds.
  - discriminate.
  - destruct Hnext as (w2 & Hrun2 & Hposts & _).
    + apply (f_equal (λ x, clock_reads x.2)) in Hrun. simpl in Hrun.
      rewrite <- Hrun. vm_compute. reflexivity.
    + exists w1, w2. repeat split; assumption.
Defined.

(** ** Further properties of the OAuth callback *)





Lemma exchange_code_for_tokens_answered env code w o :
  answered_with (provider env (length (posts w)) (exchange_request env code)) o →
  exchange_code_for_tokens env code w =
    (Ret (JObj o), set_posts (posts w ++ [exchange_request env code]) w).
Proof.
  intros (st & Hans & Hst).
  unfold exchange_code_for_tokens. rewrite bind_run.
  unfold requests_post at 1.
  change (HttpRequest token_url _) with (exchange_request env code).
  rewrite Hans. rewrite bind_run. unfold raise_for_status. cbn [fst snd].
  destruct ((400 <=? st) && (st <? 600)) eqn:Hb.
  { apply andb_true_iff in Hb as [Hlo Hhi]. lia. }
  reflexivity.
Qed.

(** What a save writes when it can. *)
Lemma save_user_google_tokens_savable env user_id (o : gmap string jval) w :
  savable env user_id o →
  ∃ w',
    save_user_google_tokens env user_id (JObj o) w
      = (Ret (JObj (<["expires_at" := JInt (expiry (clock env (clock_reads w)) o)]> o)),
         w') ∧
    files w' =
      <[token_filepath user_id :=
          JsonText (JObj (<["expires_at" :=
                              JInt (expiry (clock env (clock_reads w)) o)]> o))]>
        (files w) ∧
    posts w' = posts w ∧
    temp_user_oauth_token w' = temp_user_oauth_token w ∧
    temp_google_oauth_states w' = temp_google_oauth_states w.
Proof.
  intros (Hmk & Hwr & Hnum).
  rewrite save_user_google_tokens_dict, Hmk. unfold expiry.
  destruct (o !! "expires_in") as [v |] eqn:Hv.
  - destruct (Hnum v eq_refl) as [n Hn]. simpl. rewrite Hn. cbv zeta.
    rewrite Hwr. eexists. split; [reflexivity |]. repeat split.
  - simpl. rewrite Hwr. eexists. split; [reflexivity |]. repeat split.
Qed.

Lemma handle_google_callback_success env w request code st user_id o a rt :
  Py.truthy_str (query_params request !! "error") = false →
  query_params request !! "code" = Some code → code ≠ "" →
  query_params request !! "state" = Some st → st ≠ "" →
  temp_google_oauth_states w !! st = Some user_id →
  answered_with (provider env (length (posts w)) (exchange_request env code)) o →
  savable env user_id o →
  o !! "access_token" = Some (JStr a) → a ≠ "" →
  o !! "refresh_token" = Some (JStr rt) →
  ∃ w',
    handle_google_callback env request w
      = (Ret (PlainTextResponse "You can close the tab." 200), w') ∧
    stored_record w' user_id
      (MkCredentialRecord a rt (expiry (clock env (clock_reads w)) o)) ∧
    temp_google_oauth_states w' = delete st (temp_google_oauth_states w) ∧
    posts w' = posts w ++ [exchange_request env code].
Proof.
  intros Herr Hcode Hc Hstate Hs Hu Hans Hsav Ha Hane Hrt.
  unfold handle_google_callback.
  rewrite Herr, Hcode, Hstate, (truthy_str_Some _ Hc), (truthy_str_Some _ Hs).
  cbn [negb orb].
  change (default "" (Some st)) with st.
  change (default "" (Some code)) with code.
  rewrite bind_run. unfold pop_state. rewrite Hu.
  set (w1 := set_temp_google_oauth_states _ w).
  unfold try_except. rewrite bind_run.
  rewrite (exchange_code_for_tokens_answered env code w1 o Hans).
  set (w2 := set_posts _ w1).
  rewrite bind_run.
  destruct (save_user_google_tokens_savable env user_id o w2 Hsav)
    as (w3 & Hsave & Hfiles & Hposts & _ & Hstates).
  rewrite Hsave. rewrite ret_run.
  change (clock_reads w2) with (clock_reads w) in Hfiles.
  exists w3. split; [reflexivity |]. split; [| split; [exact Hstates | exact Hposts]].
  split; [exact Hane |]. eexists. split.
  - rewrite Hfiles. apply lookup_insert_eq.
  - simpl. rewrite lookup_insert_eq.
    rewrite !lookup_insert_ne by discriminate. auto.
Qed.

(** The stored access token is returned while it is valid. *)
Lemma get_user_token_stored_valid env w user_id r :
  stored_record w user_id r →
  clock env (clock_reads w) < expires_at r - 60 →
  get_user_token env user_id w
    = (Ret (JStr (access_token r)), set_clock_reads (S (clock_reads w)) w).
Proof.
  intros Hst Hlt. unfold get_user_token.
  rewrite bind_run, (get_user_google_credentials_stored env w user_id r Hst).
  destruct (clock env (clock_reads w) >=? expires_at r - 60) eqn:Hc; [lia |].
  reflexivity.
Qed.

(** X12. A callback with a code and a stored state, answered by the
    provider with an object that can be saved and that carries an access
    token and a refresh token, answers 200 and stores the record for the
    user the state belongs to; [get_user_token] for that user then returns
    the access token without a call to the provider, while the clock is
    more than 60 seconds short of the expiry. *)
Theorem callback_stores_credentials env w request code st user_id o a rt :
  Py.truthy_str (query_params request !! "error") = false →
  query_params request !! "code" = Some code → code ≠ "" →
  query_params request !! "state" = Some st → st ≠ "" →
  temp_google_oauth_states w !! st = Some user_id →
  answered_with (provider env (length (posts w)) (exchange_request env code)) o →
  savable env user_id o →
  o !! "access_token" = Some (JStr a) → a ≠ "" →
  o !! "refresh_token" = Some (JStr rt) →
  ∃ w',
    handle_google_callback env request w
      = (Ret (PlainTextResponse "You can close the tab." 200), w') ∧
    stored_record w' user_id
      (MkCredentialRecord a rt (expiry (clock env (clock_reads w)) o)) ∧
    temp_google_oauth_states w' = delete st (temp_google_oauth_states w) ∧
    posts w' = posts w ++ [exchange_request env code] ∧
    (clock env (clock_reads w') < expiry (clock env (clock_reads w)) o - 60 →
     ∃ w'', get_user_token env user_id w' = (Ret (JStr a), w'') ∧
            posts w'' = posts w').
Proof.
  intros Herr Hcode Hc Hstate Hs Hu Hans Hsav Ha Hane Hrt.
  destruct (handle_google_callback_success env w request code st user_id o a rt
              Herr Hcode Hc Hstate Hs Hu Hans Hsav Ha Hane Hrt)
    as (w' & Hrun & Hst & Hstates & Hposts).
  exists w'. split; [exact Hrun |]. split; [exact Hst |].
  split; [exact Hstates |]. split; [exact Hposts |].
  intros Hlt. eexists. split.
  - apply (get_user_token_stored_valid env w' user_id _ Hst). exact Hlt.
  - reflexivity.
Qed.

Lemma consent_answered (n : nat) (rq : http_request) :
  answered_with (provider consent_env n rq) consent_answer.
Proof. exists 200. split; [reflexivity | lia]. Qed.

Lemma consent_savable (user_id : string) :
  savable consent_env user_id consent_answer.
Proof.
  split; [reflexivity | split; [reflexivity |]].
  intros v Hv. vm_compute in Hv. inversion Hv. eexists. reflexivity.
Qed.

Lemma callback_stores_credentials_witness :
  ∃ w' w'',
    handle_google_callback consent_env (callback_request "code1" "n1")
      world_awaiting_callback
      = (Ret (PlainTextResponse "You can close the tab." 200), w') ∧
    stored_record w' "u1" (MkCredentialRecord "at9" "rt9" 4600) ∧
    get_user_token consent_env "u1" w' = (Ret (JStr "at9"), w'') ∧
    posts w'' = posts w'.
Proof.
  destruct (callback_stores_credentials consent_env world_awaiting_callback
              (callback_request "code1" "n1") "code1" "n1" "u1" consent_answer
              "at9" "rt9")
    as (w' & Hrun & Hst & _ & _ & Hnext);
    [ reflexivity | reflexivity | discriminate | reflexivity | discriminate
    | reflexivity | apply consent_answered | apply consent_savable
    | reflexivity | discriminate | reflexivity | ].
  destruct Hnext as (w'' & Hget & Hposts).
  - apply (f_equal (λ x, clock_reads x.2)) in Hrun. simpl in Hrun.
    rewrite <- Hrun. vm_compute. reflexivity.
  - exists w', w''. split; [exact Hrun |]. split; [exact Hst |].
    split; [exact Hget | exact Hposts].
Defined.

(** ** Further properties of the authorization route and the tools *)

Lemma hex_length (bs : list ascii) :
  String.length (Py.hex bs) = (2 * List.length bs)%nat.
Proof. induction bs as [| b bs IH]; simpl; [reflexivity | rewrite IH; lia]. Qed.


Lemma start_google_auth_run env user_id w :
  start_google_auth env user_id w =
    (Ret (RedirectResponse (generate_google_auth_url env (next_nonce env w))),
     set_temp_google_oauth_states
       (<[next_nonce env w := user_id]> (temp_google_oauth_states w))
       (set_random_drawn (random_drawn w + 16) w)).
Proof. reflexivity. Qed.

(** X13. The route [/auth] with the ticket of the user answers with a
    redirect to the consent screen whose [state] parameter is a freshly
    drawn nonce, and binds that nonce to the user in the state dictionary;
    the ticket is not consumed, and no file is written and no call made.
    Without [userid], without [token] or with a token that is not the
    user's ticket it answers 401 and changes nothing. *)
Theorem auth_route env w request :
  (∀ u t,
     query_params request !! "userid" = Some u →
     query_params request !! "token" = Some t →
     temp_user_oauth_token w !! u = Some t →
     ∃ w',
       auth env request w
         = (Ret (RedirectResponse
                   (generate_google_auth_url env (next_nonce env w))), w') ∧
       In ("state", next_nonce env w)
          (url_params (generate_google_auth_url env (next_nonce env w))) ∧
       temp_google_oauth_states w'
         = <[next_nonce env w := u]> (temp_google_oauth_states w) ∧
       temp_user_oauth_token w' = temp_user_oauth_token w ∧
       match_user_auth_token u t w' = (Ret true, w') ∧
       files w' = files w ∧ posts w' = posts w) ∧
  ((query_params request !! "userid" = None ∨
    query_params request !! "token" = None ∨
    ∃ u t, query_params request !! "userid" = Some u ∧
           query_params request !! "token" = Some t ∧
           temp_user_oauth_token w !! u ≠ Some t) →
   auth env request w = (Ret (PlainTextResponse "Unauthorized" 401), w)).
Proof.
  split.
  - intros u t Hu Ht Hticket. unfold auth. rewrite Hu, Ht.
    rewrite bind_run, match_user_auth_token_run.
    rewrite bool_decide_eq_true_2 by exact Hticket. cbn [negb].
    rewrite start_google_auth_run.
    eexists. split; [reflexivity |].
    split; [simpl; tauto |]. split; [reflexivity |]. split; [reflexivity |].
    split; [| split; reflexivity].
    rewrite match_user_auth_token_run. simpl.
    by rewrite bool_decide_eq_true_2.
  - intros [Hu | [Ht | (u & t & Hu & Ht & Hne)]]; unfold auth.
    + rewrite Hu. reflexivity.
    + rewrite Ht. destruct (query_params request !! "userid"); reflexivity.
    + rewrite Hu, Ht. rewrite bind_run, match_user_auth_token_run.
      by rewrite bool_decide_eq_false_2.
Qed.

Lemma auth_route_witness :
  (∃ w',
     auth demo_env (auth_request "" empty_user_ticket) empty_user_world
       = (Ret (RedirectResponse
                 (generate_google_auth_url demo_env
                    (next_nonce demo_env empty_user_world))), w') ∧
     temp_google_oauth_states w'
       !! next_nonce demo_env empty_user_world = Some "") ∧
  auth demo_env (auth_request "" "guess") empty_user_world
    = (Ret (PlainTextResponse "Unauthorized" 401), empty_user_world).
Proof.
  split.
  - destruct (proj1 (auth_route demo_env empty_user_world
                       (auth_request "" empty_user_ticket))
                "" empty_user_ticket)
      as (w' & Hrun & _ & Hstates & _); [reflexivity | reflexivity | reflexivity |].
    exists w'. split; [exact Hrun |]. rewrite Hstates. apply lookup_insert_eq.
  - apply (proj2 (auth_route demo_env empty_user_world
                    (auth_request "" "guess"))).
    right. right. exists "", "guess".
    split; [reflexivity |]. split; [reflexivity |]. vm_compute. discriminate.
Defined.

Lemma get_user_token_no_record env w user_id :
  no_record w user_id →
  get_user_token env user_id w
    = (Ret JNull, set_clock_reads (S (clock_reads w)) w).
Proof.
  intros Hno. unfold no_record in Hno.
  unfold get_user_token, get_user_google_credentials, read_json, time_now.
  unfold_monad. simpl. rewrite Hno. reflexivity.
Qed.

Lemma tool_prompts env w sep x_user_id :
  let user_id := default "single_user" x_user_id in
  no_record w user_id →
  ∃ w',
    tool_token_or_prompt env sep x_user_id w
      = (Ret (inl ("[AUTH]" +:+ sep +:+ next_ticket env w)), w') ∧
    match_user_auth_token user_id (next_ticket env w) w' = (Ret true, w') ∧
    temp_user_oauth_token w'
      = <[user_id := next_ticket env w]> (temp_user_oauth_token w) ∧
    temp_google_oauth_states w' = temp_google_oauth_states w ∧
    posts w' = posts w ∧ files w' = files w ∧
    clock_reads w' = S (clock_reads w).
Proof.
  intros user_id Hno. unfold tool_token_or_prompt. fold user_id.
  rewrite bind_run, (get_user_token_no_record env w user_id Hno).
  rewrite bind_run, gen_user_auth_token_run. cbv zeta.
  eexists. split; [reflexivity |].
  split; [| repeat split].
  rewrite match_user_auth_token_run. simpl.
  rewrite bool_decide_eq_true_2; [reflexivity | apply lookup_insert_eq].
Qed.

Lemma tool_continues env w sep x_user_id r :
  let user_id := default "single_user" x_user_id in
  stored_record w user_id r →
  clock env (clock_reads w) < expires_at r - 60 →
  ∃ w',
    tool_token_or_prompt env sep x_user_id w
      = (Ret (inr (JStr (access_token r))), w') ∧
    temp_user_oauth_token w' = temp_user_oauth_token w ∧
    posts w' = posts w.
Proof.
  intros user_id Hst Hlt. unfold tool_token_or_prompt. fold user_id.
  rewrite bind_run. unfold get_user_token. rewrite bind_run.
  rewrite (get_user_google_credentials_stored env w user_id r Hst).
  destruct (clock env (clock_reads w) >=? expires_at r - 60) eqn:Hc; [lia |].
  cbn [negb]. eexists. split; [reflexivity |]. split; reflexivity.
Qed.

(** X14. A tool called for a user without a token file answers with the
    text [[AUTH]], the separator and a new ticket, and that ticket then
    validates for the user; no call is made to the provider.  Called for a
    user whose stored record is valid it goes on with the stored access
    token and issues no ticket.  Without the header [X-User-ID] the user
    is ["single_user"]. *)
Theorem tool_token_or_prompt_cases env w sep x_user_id :
  let user_id := default "single_user" x_user_id in
  (no_record w user_id →
     ∃ w',
       tool_token_or_prompt env sep x_user_id w
         = (Ret (inl ("[AUTH]" +:+ sep +:+ next_ticket env w)), w') ∧
       match_user_auth_token user_id (next_ticket env w) w' = (Ret true, w') ∧
       temp_user_oauth_token w'
         = <[user_id := next_ticket env w]> (temp_user_oauth_token w) ∧
       temp_google_oauth_states w' = temp_google_oauth_states w ∧
       posts w' = posts w ∧ files w' = files w ∧
       clock_reads w' = S (clock_reads w)) ∧
  (∀ r, stored_record w user_id r →
        clock env (clock_reads w) < expires_at r - 60 →
        ∃ w',
          tool_token_or_prompt env sep x_user_id w
            = (Ret (inr (JStr (access_token r))), w') ∧
          temp_user_oauth_token w' = temp_user_oauth_token w ∧
          posts w' = posts w).
Proof.
  intros user_id. split.
  - apply tool_prompts.
  - intros r. apply tool_continues.
Qed.

Lemma tool_token_or_prompt_cases_witness :
  (∃ w',
     tool_token_or_prompt demo_env " " None (fresh_world ∅)
       = (Ret (inl ("[AUTH] " +:+ empty_user_ticket)), w') ∧
     match_user_auth_token "single_user" empty_user_ticket w' = (Ret true, w')) ∧
  (∃ w',
     tool_token_or_prompt demo_env " " (Some "u1") (world_with fresh_record)
       = (Ret (inr (JStr "at1")), w') ∧
     temp_user_oauth_token w' = ∅).
Proof.
  split.
  - destruct (proj1 (tool_token_or_prompt_cases demo_env (fresh_world ∅) " " None))
      as (w' & Hrun & Hmatch & _); [reflexivity |].
    exists w'. split; [exact Hrun | exact Hmatch].
  - destruct (proj2 (tool_token_or_prompt_cases demo_env
                       (world_with fresh_record) " " (Some "u1")) fresh_record)
      as (w' & Hrun & Htickets & _).
    + apply stored_record_world_with. discriminate.
    + vm_compute. reflexivity.
    + exists w'. split; [exact Hrun | exact Htickets].
Defined.

(** ** Further properties of the request gate *)

Lemma append_assoc (a b c : string) : (a +:+ b) +:+ c = a +:+ b +:+ c.
Proof.
  induction a as [| x a IH]; [reflexivity |].
  change (String x a +:+ b) with (String x (a +:+ b)).
  change (String x (a +:+ b) +:+ c) with (String x ((a +:+ b) +:+ c)).
  change (String x a +:+ b +:+ c) with (String x (a +:+ b +:+ c)).
  by rewrite IH.
Qed.

Lemma split_no_sep (sep : ascii) (s : string) :
  Py.contains_char sep s = false → Py.split sep s = [s].
Proof.
  induction s as [| c s IH]; intros H; [reflexivity |].
  simpl in *. apply orb_false_iff in H as [Hc Hs].
  rewrite Hc, (IH Hs). reflexivity.
Qed.

Lemma split_not_nil (sep : ascii) (s : string) : Py.split sep s ≠ [].
Proof.
  destruct s as [| c s]; simpl; [discriminate |].
  destruct (Ascii.eqb c sep); [discriminate |].
  destruct (Py.split sep s); discriminate.
Qed.

Lemma split_snoc (sep : ascii) (q item : string) :
  Py.contains_char sep item = false →
  Py.split sep (q +:+ String sep item) = Py.split sep q ++ [item].
Proof.
  intros Hi. induction q as [| c q IH].
  - change ("" +:+ String sep item) with (String sep item).
    simpl. rewrite Ascii.eqb_refl. by rewrite split_no_sep.
  - change (String c q +:+ String sep item)
      with (String c (q +:+ String sep item)).
    simpl. rewrite IH.
    destruct (Ascii.eqb c sep); [reflexivity |].
    pose proof (split_not_nil sep q) as Hnil.
    destruct (Py.split sep q); [contradiction | reflexivity].
Qed.

Lemma cut_key_value (sep : ascii) (k v : string) :
  Py.contains_char sep k = false →
  Py.cut sep (k +:+ String sep v) = (k, v) ∧
  Py.contains_char sep (k +:+ String sep v) = true.
Proof.
  intros Hk. induction k as [| c k IH].
  - change ("" +:+ String sep v) with (String sep v).
    simpl. by rewrite Ascii.eqb_refl.
  - change (String c k +:+ String sep v) with (String c (k +:+ String sep v)).
    simpl in *. apply orb_false_iff in Hk as [Hc Hk].
    destruct (IH Hk) as [Hcut Hcont]. by rewrite Hc, Hcut, Hcont.
Qed.

(** [parse_query] is the loop over the items, also for the empty query. *)
Lemma parse_query_fold (q : string) :
  parse_query q = fold_left query_item (Py.split "&" q) ∅.
Proof.
  unfold parse_query.
  destruct (String.eqb_spec q "") as [-> | Hne]; reflexivity.
Qed.

Lemma parse_query_snoc (q item : string) :
  Py.contains_char "&" item = false →
  parse_query (q +:+ "&" +:+ item) = query_item (parse_query q) item.
Proof.
  intros Hi. rewrite !parse_query_fold.
  change ("&" +:+ item) with (String "&" item).
  rewrite split_snoc by exact Hi. by rewrite fold_left_app.
Qed.

(** X16. The query string is read item by item, left to right, and a later
    item replaces an earlier one of the same name: appending [&k=v] to a
    query sets [k] to [v] and leaves the other names alone, and appending
    [&k] sets [k] to the empty string.  Values are kept as they are
    written: nothing is decoded. *)
Theorem parse_query_last_wins (q k v : string) :
  Py.contains_char "&" k = false → Py.contains_char "=" k = false →
  Py.contains_char "&" v = false →
  parse_query (q +:+ "&" +:+ k +:+ "=" +:+ v) = <[k := v]> (parse_query q) ∧
  (k ≠ "" → parse_query (q +:+ "&" +:+ k) = <[k := ""]> (parse_query q)) ∧
  parse_query (k +:+ "=" +:+ v) = {[ k := v ]}.
Proof.
  intros Hka Hke Hv.
  change ("=" +:+ v) with (String "=" v).
  destruct (cut_key_value "=" k v Hke) as [Hcut Hcont].
  assert (Hamp : Py.contains_char "&" (k +:+ String "=" v) = false).
  { clear Hcut Hcont Hke. induction k as [| c k IH].
    - change ("" +:+ String "=" v) with (String "=" v). simpl. exact Hv.
    - change (String c k +:+ String "=" v) with (String c (k +:+ String "=" v)).
      simpl in *. apply orb_false_iff in Hka as [Hc Hk].
      by rewrite Hc, (IH Hk). }
  split; [| split].
  - rewrite parse_query_snoc by exact Hamp.
    unfold query_item. by rewrite Hcont, Hcut.
  - intros Hne. rewrite parse_query_snoc by exact Hka.
    unfold query_item. rewrite Hke.
    destruct (String.eqb_spec k ""); [contradiction | reflexivity].
  - rewrite parse_query_fold, split_no_sep by exact Hamp. simpl.
    unfold query_item. by rewrite Hcont, Hcut.
Qed.

Lemma parse_query_last_wins_witness :
  parse_query ("userid=u1&token=old" +:+ "&" +:+ "token" +:+ "=" +:+ "a%20b=c")
  = <["token" := "a%20b=c"]> (parse_query "userid=u1&token=old").
Proof.
  apply (proj1 (parse_query_last_wins "userid=u1&token=old" "token" "a%20b=c"
                  eq_refl eq_refl eq_refl)).
Defined.

Lemma hex_digit_is_hex (n : N) :
  (n < 16)%N → is_hex_digit (Py.hex_digit n) = true.
Proof.
  intros H. destruct n as [| p]; [reflexivity |].
  do 4 (destruct p as [p | p |]; try reflexivity); lia.
Qed.

Lemma hex_only_hex_digits (bs : list ascii) (c : ascii) :
  is_hex_digit c = false → Py.contains_char c (Py.hex bs) = false.
Proof.
  intros Hc. induction bs as [| b bs IH]; [reflexivity |].
  cbn [Py.hex Py.contains_char]. rewrite IH, orb_false_r.
  pose proof (N_ascii_bounded b) as Hb.
  assert (H1 : is_hex_digit (Py.hex_digit (N_of_ascii b / 16)) = true).
  { apply hex_digit_is_hex. apply N.Div0.div_lt_upper_bound. lia. }
  assert (H2 : is_hex_digit (Py.hex_digit (N_of_ascii b mod 16)) = true).
  { apply hex_digit_is_hex. apply N.mod_lt. lia. }
  destruct (Ascii.eqb_spec (Py.hex_digit (N_of_ascii b / 16)) c) as [<- | _];
    [congruence |].
  destruct (Ascii.eqb_spec (Py.hex_digit (N_of_ascii b mod 16)) c) as [<- | _];
    [congruence | reflexivity].
Qed.

(** X17. A ticket is 64 characters and a state nonce 32, all of them
    lower-case hexadecimal digits: neither contains a character that the
    query string would split on or that would need decoding. *)
Theorem ticket_and_nonce_shape env w user_id :
  (∃ s w', gen_user_auth_token env user_id w = (Ret s, w') ∧
           String.length s = 64%nat ∧
           ∀ c, is_hex_digit c = false → Py.contains_char c s = false) ∧
  (∃ n w', start_google_auth env user_id w
             = (Ret (RedirectResponse (generate_google_auth_url env n)), w') ∧
           temp_google_oauth_states w' !! n = Some user_id ∧
           String.length n = 32%nat ∧
           ∀ c, is_hex_digit c = false → Py.contains_char c n = false).
Proof.
  split.
  - rewrite gen_user_auth_token_run. eexists _, _. split; [reflexivity |].
    split.
    + by rewrite hex_length, length_map, length_seq.
    + intros c. apply hex_only_hex_digits.
  - rewrite start_google_auth_run. eexists _, _. split; [reflexivity |].
    split; [apply lookup_insert_eq |]. split.
    + unfold next_nonce. by rewrite hex_length, length_map, length_seq.
    + intros c. apply hex_only_hex_digits.
Qed.

(** X18. A ticket just issued opens the gate: after [gen_user_auth_token]
    for a user id without [&] or [=], the request
    [/auth?userid=<id>&token=<ticket>] is handed to the downstream handler,
    whatever the headers; with any other token it is answered 401. *)
Theorem issued_ticket_opens_gate env app w user_id headers :
  Py.contains_char "&" user_id = false →
  Py.contains_char "=" user_id = false →
  ∃ ticket w1,
    gen_user_auth_token env user_id w = (Ret ticket, w1) ∧
    (let sc := http_scope "/auth"
                 ("userid=" +:+ user_id +:+ "&token=" +:+ ticket) headers in
     AuthenticationMiddleware_call env app sc w1 = app sc w1) ∧
    (∀ other,
       other ≠ ticket → Py.contains_char "&" other = false →
       let sc := http_scope "/auth"
                   ("userid=" +:+ user_id +:+ "&token=" +:+ other) headers in
       AuthenticationMiddleware_call env app sc w1 = unauthorized w1).
Proof.
  intros Hamp Heq.
  rewrite gen_user_auth_token_run. cbv zeta.
  set (ticket := Py.hex _).
  set (w1 := set_temp_user_oauth_token _ _).
  assert (Hq : ∀ t, Py.contains_char "&" t = false →
            parse_query ("userid=" +:+ user_id +:+ "&token=" +:+ t)
            = <["token" := t]> {[ "userid" := user_id ]}).
  { intros t Ht.
    assert (Hu : Py.contains_char "&" user_id = false) by exact Hamp.
    destruct (parse_query_last_wins ("userid=" +:+ user_id) "token" t
                eq_refl eq_refl Ht) as [Hlast _].
    rewrite append_assoc in Hlast.
    change ("&" +:+ "token" +:+ "=" +:+ t) with ("&token=" +:+ t) in Hlast.
    rewrite Hlast. f_equal.
    destruct (cut_key_value "=" "userid" user_id eq_refl) as [Hcut Hcont].
    change ("userid" +:+ String "=" user_id) with ("userid=" +:+ user_id)
      in Hcut, Hcont.
    rewrite parse_query_fold, split_no_sep.
    - simpl. unfold query_item. by rewrite Hcont, Hcut.
    - change ("userid=" +:+ user_id)
        with (String "u" (String "s" (String "e" (String "r" (String "i"
               (String "d" (String "=" user_id))))))).
      simpl. exact Hamp. }
  assert (Hlook : temp_user_oauth_token w1 !! user_id = Some ticket).
  { apply lookup_insert_eq. }
  exists ticket, w1. split; [reflexivity |]. split.
  - cbv zeta.
    match goal with
    | |- AuthenticationMiddleware_call _ _ ?s _ = _ => set (sc := s)
    end.
    pose proof (middleware_auth_path env app sc w1 eq_refl eq_refl eq_refl) as Hc.
    cbv zeta in Hc. rewrite Hc. subst sc. cbn [scope_query_string http_scope].
    change (default "" (Some ?x)) with x.
    rewrite (Hq ticket) by (apply hex_only_hex_digits; reflexivity).
    rewrite lookup_insert_ne by discriminate. rewrite lookup_singleton_eq.
    change (default "" (Some user_id)) with user_id. rewrite Hlook.
    rewrite lookup_insert_eq. by rewrite bool_decide_eq_true_2.
  - intros other Hne Ho. cbv zeta.
    match goal with
    | |- AuthenticationMiddleware_call _ _ ?s _ = _ => set (sc := s)
    end.
    pose proof (middleware_auth_path env app sc w1 eq_refl eq_refl eq_refl) as Hc.
    cbv zeta in Hc. rewrite Hc. subst sc. cbn [scope_query_string http_scope].
    change (default "" (Some ?x)) with x.
    rewrite (Hq other Ho).
    rewrite lookup_insert_ne by discriminate. rewrite lookup_singleton_eq.
    change (default "" (Some user_id)) with user_id. rewrite Hlook.
    rewrite lookup_insert_eq. rewrite bool_decide_eq_false_2; [reflexivity |].
    congruence.
Qed.

Lemma issued_ticket_opens_gate_witness :
  ∃ ticket w1,
    gen_user_auth_token demo_env "u1" (fresh_world ∅) = (Ret ticket, w1) ∧
    AuthenticationMiddleware_call demo_env handler_ok
      (http_scope "/auth" ("userid=" +:+ "u1" +:+ "&token=" +:+ ticket) []) w1
    = handler_ok
        (http_scope "/auth" ("userid=" +:+ "u1" +:+ "&token=" +:+ ticket) []) w1.
Proof.
  destruct (issued_ticket_opens_gate demo_env handler_ok (fresh_world ∅) "u1" []
              eq_refl eq_refl)
    as (ticket & w1 & Hgen & Hpass & _).
  exists ticket, w1. split; [exact Hgen | exact Hpass].
Defined.

Lemma ticket_and_nonce_shape_witness :
  ∃ s w', gen_user_auth_token demo_env "u1" (fresh_world ∅) = (Ret s, w') ∧
          String.length s = 64%nat ∧
          Py.contains_char "&" s = false ∧ Py.contains_char "%" s = false.
Proof.
  destruct (proj1 (ticket_and_nonce_shape demo_env (fresh_world ∅) "u1"))
    as (s & w' & Hgen & Hlen & Hhex).
  exists s, w'. split; [exact Hgen |]. split; [exact Hlen |].
  split; apply Hhex; reflexivity.
Defined.


(** X19. Whatever the request, the middleware does one of three things: it
    hands the scope, as it came, to the downstream handler; it sends
    [401 Unauthorized]; or it sends [401 Missing Authorization Header].
    It never raises and changes nothing else. *)
Theorem middleware_three_outcomes env app sc w :
  AuthenticationMiddleware_call env app sc w = app sc w ∨
  AuthenticationMiddleware_call env app sc w = unauthorized w ∨
  AuthenticationMiddleware_call env app sc w = missing_header w.
Proof.
  destruct (String.eqb_spec (scope_type sc) "http") as [Hhttp | Hhttp].
  2:{ left. apply middleware_pass_through. by left. }
  destruct (Py.startswith (default "/" (scope_path sc)) "/auth/google/callback")
    eqn:Hcb.
  { left. apply middleware_pass_through. by right. }
  destruct (Py.startswith (default "/" (scope_path sc)) "/auth") eqn:Hauth.
  - rewrite (middleware_auth_path env app sc w Hhttp Hcb Hauth). cbv zeta.
    destruct (temp_user_oauth_token w !! _); [| by right; left].
    destruct (bool_decide _); [by left | by right; left].
  - rewrite (middleware_bearer_path env app sc w Hhttp Hauth).
    destruct (header_dict_of _ !! "authorization") as [h |]; [| by right; right].
    destruct (String.eqb h ""); [by right; right |].
    destruct (BEARER_TOKEN env); [| by right; left].
    destruct (bool_decide _); [by left | by right; left].
Qed.

Lemma header_dict_of_snoc hs (h : string * string) :
  header_dict_of (hs ++ [h]) = <[Py.lower h.1 := h.2]> (header_dict_of hs).
Proof. unfold header_dict_of. by rewrite fold_left_app. Qed.

(** X20. Header names are compared without regard to case, and of several
    [Authorization] headers the last one decides: when the header list ends
    with an [Authorization] header, however its name is cased, the outcome
    is read off that header's value alone; the headers before it play no
    part. *)
Theorem last_authorization_header_decides env app sc hs name value w :
  scope_type sc = "http" →
  Py.startswith (default "/" (scope_path sc)) "/auth" = false →
  scope_headers sc = Some (hs ++ [(name, value)]) →
  Py.lower name = "authorization" →
  header_dict_of (hs ++ [(name, value)]) !! "authorization" = Some value ∧
  AuthenticationMiddleware_call env app sc w =
    if String.eqb value "" then missing_header w
    else if bool_decide (BEARER_TOKEN env = bearer_of value
                         ∧ is_Some (bearer_of value))
         then app sc w
         else unauthorized w.
Proof.
  intros Hhttp Hauth Hhs Hname.
  assert (Hl : header_dict_of (hs ++ [(name, value)]) !! "authorization"
               = Some value).
  { rewrite header_dict_of_snoc. cbn [fst snd]. rewrite Hname.
    apply lookup_insert_eq. }
  split; [exact Hl |].
  rewrite (middleware_bearer_path env app sc w Hhttp Hauth).
  rewrite Hhs. change (default [] (Some ?x)) with x. rewrite Hl.
  destruct (String.eqb value ""); [reflexivity |].
  destruct (BEARER_TOKEN env) as [secret |].
  - destruct (bearer_of value) as [t |].
    + destruct (decide (t = secret)) as [-> | Hne].
      * rewrite !bool_decide_eq_true_2; [reflexivity | | reflexivity].
        split; [reflexivity | by eexists].
      * rewrite !bool_decide_eq_false_2; [reflexivity | | congruence].
        intros [Heq _]. congruence.
    + rewrite !bool_decide_eq_false_2; [reflexivity | | discriminate].
      intros [Heq _]. discriminate.
  - rewrite bool_decide_eq_false_2; [reflexivity |].
    intros [Heq [t Ht]]. congruence.
Qed.

Lemma last_authorization_header_decides_witness :
  AuthenticationMiddleware_call demo_env handler_ok
    (http_scope "/mcp" ""
       ([("authorization", "Bearer wrong")] ++ [("AUTHORIZATION", "Bearer s3cret")]))
    (fresh_world ∅)
  = handler_ok
      (http_scope "/mcp" ""
         ([("authorization", "Bearer wrong")] ++ [("AUTHORIZATION", "Bearer s3cret")]))
      (fresh_world ∅).
Proof.
  rewrite (proj2 (last_authorization_header_decides demo_env handler_ok
                    (http_scope "/mcp" ""
                       ([("authorization", "Bearer wrong")]
                        ++ [("AUTHORIZATION", "Bearer s3cret")]))
                    [("authorization", "Bearer wrong")] "AUTHORIZATION"
                    "Bearer s3cret" (fresh_world ∅)
                    eq_refl eq_refl eq_refl eq_refl)).
  reflexivity.
Defined.

Lemma isspace_lower_char (c : ascii) :
  Py.isspace c = true → Py.lower_char c = c.
Proof.
  destruct c as [[] [] [] [] [] [] [] []]; vm_compute; intros H;
    first [reflexivity | discriminate H].
Qed.

Lemma no_white_space_lower (s : string) :
  no_white_space (Py.lower s) = true → no_white_space s = true.
Proof.
  induction s as [| c s IH]; [reflexivity |].
  cbn [Py.lower no_white_space]. intros H.
  apply andb_true_iff in H as [Hc Hs]. rewrite (IH Hs), andb_true_r.
  destruct (Py.isspace c) eqn:Hsp; [| reflexivity].
  rewrite (isspace_lower_char c Hsp), Hsp in Hc. discriminate Hc.
Qed.

Lemma lstrip_all_space (a x : string) :
  Py.all_space a = true → Py.lstrip (a +:+ x) = Py.lstrip x.
Proof.
  induction a as [| c a IH]; intros H; [reflexivity |].
  change (String c a +:+ x) with (String c (a +:+ x)).
  cbn [Py.all_space] in H. apply andb_true_iff in H as [Hc Ha].
  cbn [Py.lstrip]. rewrite Hc. by apply IH.
Qed.

Lemma lstrip_no_white_space (s y : string) :
  no_white_space s = true → s ≠ "" → Py.lstrip (s +:+ y) = s +:+ y.
Proof.
  intros H Hne. destruct s as [| c s]; [contradiction |].
  change (String c s +:+ y) with (String c (s +:+ y)).
  cbn [no_white_space] in H. apply andb_true_iff in H as [Hc _].
  cbn [Py.lstrip]. destruct (Py.isspace c); [discriminate Hc | reflexivity].
Qed.

Lemma rstrip_all_space (b : string) :
  Py.all_space b = true → Py.rstrip b = "".
Proof. intros H. destruct b as [| c b]; [reflexivity |]. cbn [Py.rstrip]. by rewrite H. Qed.

Lemma rstrip_all_space_r (x b : string) :
  Py.all_space b = true → Py.rstrip (x +:+ b) = Py.rstrip x.
Proof.
  intros Hb. induction x as [| c x IH].
  - change ("" +:+ b) with b. by apply rstrip_all_space.
  - change (String c x +:+ b) with (String c (x +:+ b)).
    cbn [Py.rstrip Py.all_space]. rewrite all_space_app, Hb, andb_true_r, IH.
    reflexivity.
Qed.

Lemma span_word_no_white_space (s : string) (c : ascii) (x : string) :
  no_white_space s = true → Py.isspace c = true →
  Py.span_word (s +:+ String c x) = (s, String c x).
Proof.
  intros Hs Hc. induction s as [| d s IH].
  - change ("" +:+ String c x) with (String c x). cbn [Py.span_word].
    by rewrite Hc.
  - change (String d s +:+ String c x) with (String d (s +:+ String c x)).
    cbn [no_white_space] in Hs. apply andb_true_iff in Hs as [Hd Hs].
    cbn [Py.span_word]. destruct (Py.isspace d); [discriminate Hd |].
    by rewrite (IH Hs).
Qed.

(** X21. The scheme of the [Authorization] header is matched without
    regard to case, and white space is liberal: any white space before the
    scheme and after the token is dropped, and any non-empty run of white
    space may separate the two. *)
Theorem bearer_scheme_and_white_space (lead scheme gap t trail : string) :
  Py.all_space lead = true →
  Py.lower scheme = "bearer" →
  Py.all_space gap = true → gap ≠ "" →
  t ≠ "" → Py.lstrip t = t → Py.rstrip t = t →
  Py.all_space trail = true →
  bearer_of (lead +:+ scheme +:+ gap +:+ t +:+ trail) = Some t.
Proof.
  intros Hlead Hscheme Hgap Hgne Hne Hl Hr Htrail.
  assert (Hns : no_white_space scheme = true).
  { apply no_white_space_lower. by rewrite Hscheme. }
  assert (Hsne : scheme ≠ "").
  { intros ->. discriminate Hscheme. }
  assert (Htns : Py.all_space t = false)
    by (apply rstrip_fixed_not_all_space; assumption).
  unfold bearer_of, Py.strip.
  rewrite (lstrip_all_space lead _ Hlead).
  rewrite (lstrip_no_white_space scheme _ Hns Hsne).
  assert (Hstrip : Py.rstrip (scheme +:+ gap +:+ t +:+ trail)
                   = scheme +:+ gap +:+ t).
  { rewrite <- (append_assoc gap t trail), <- (append_assoc scheme (gap +:+ t) trail).
    rewrite (rstrip_all_space_r _ trail Htrail).
    rewrite <- (append_assoc scheme gap t).
    rewrite (rstrip_app (scheme +:+ gap) t Htns), Hr. reflexivity. }
  rewrite Hstrip. unfold Py.split_maxsplit1.
  rewrite (lstrip_no_white_space scheme _ Hns Hsne).
  destruct gap as [| g gap]; [contradiction |].
  cbn [Py.all_space] in Hgap. apply andb_true_iff in Hgap as [Hg Hgap].
  change (String g gap +:+ t) with (String g (gap +:+ t)).
  assert (Hspan := span_word_no_white_space scheme g (gap +:+ t) Hns Hg).
  assert (Hrest : Py.lstrip (String g (gap +:+ t)) = t).
  { cbn [Py.lstrip]. rewrite Hg. by rewrite (lstrip_all_space gap t Hgap). }
  destruct scheme as [| s0 scheme]; [contradiction |].
  change (String s0 scheme +:+ String g (gap +:+ t))
    with (String s0 (scheme +:+ String g (gap +:+ t))) in Hspan |- *.
  cbv iota beta. rewrite Hspan, Hrest.
  destruct t as [| t0 t]; [contradiction |].
  rewrite Hscheme. reflexivity.
Qed.

Lemma bearer_scheme_and_white_space_witness :
  bearer_of (" " +:+ "BeArEr" +:+ "   " +:+ "s3cret" +:+ "  ") = Some "s3cret".
Proof.
  apply bearer_scheme_and_white_space;
    first [reflexivity | discriminate].
Defined.

(** ** The calendar functions *)

Lemma cal_bind_run {A B} (m : CM A) (f : A → CM B) (s : CalWorld) :
  (m ≫= f) s = match m s with
               | (Ret a, s') => f a s'
               | (Raise e, s') => (Raise e, s')
               end.
Proof. reflexivity. Qed.

Lemma not_error_status (st : Z) :
  ¬ (400 ≤ st < 600) → (400 <=? st) && (st <? 600) = false.
Proof.
  intros H. destruct ((400 <=? st) && (st <? 600)) eqn:Hb; [| reflexivity].
  apply andb_true_iff in Hb as [Hlo Hhi]. exfalso. apply H. lia.
Qed.

(** X22. [get_user_timezone] never raises and sends exactly one request, a
    GET of the timezone setting carrying the access token as bearer.  When
    the API answers with a success status and an object, the result is the
    object's [value] ([None] if it has none) and nothing is printed;
    otherwise the result is [None].  The state of the rest of the program
    is not touched. *)
Theorem get_user_timezone_total cenv access_token s :
  let rq := timezone_request access_token in
  let answer := calendar_api cenv (length (cal_requests s)) rq in
  ∃ v s',
    get_user_timezone cenv access_token s = (Ret v, s') ∧
    cal_requests s' = cal_requests s ++ [rq] ∧
    same_program_state (cal_world s) (cal_world s') ∧
    (∀ o, answered_with answer o →
          v = default JNull (o !! "value") ∧ cal_world s' = cal_world s) ∧
    ((∀ o, ¬ answered_with answer o) → v = JNull).
Proof.
  intros rq answer.
  unfold get_user_timezone, cal_try_except, requests_get.
  rewrite cal_bind_run. unfold cal_send at 1.
  change (CalRequest "GET" _ _ _ _) with rq.
  change (calendar_api cenv (length (cal_requests s)) rq) with answer.
  clearbody answer.
  destruct answer as [| st b].
  { eexists _, _. split; [reflexivity |]. split; [reflexivity |].
    split; [repeat split |]. split; [| reflexivity].
    intros o (st & Heq & _). discriminate Heq. }
  rewrite cal_bind_run. unfold raise_for_status, lift at 1. cbn [fst snd].
  destruct ((400 <=? st) && (st <? 600)) eqn:Hst.
  { eexists _, _. split; [reflexivity |]. split; [reflexivity |].
    split; [repeat split |]. split; [| reflexivity].
    intros o (st' & Heq & Hok). inversion Heq; subst.
    rewrite (not_error_status _ Hok) in Hst. discriminate Hst. }
  destruct b as [j |].
  2:{ eexists _, _. split; [reflexivity |]. split; [reflexivity |].
      split; [repeat split |]. split; [| reflexivity].
      intros o (st' & Heq & _). discriminate Heq. }
  destruct j as [| bb | n | str | l | o];
    try (eexists _, _; split; [reflexivity |]; split; [reflexivity |];
         split; [repeat split |]; split; [| reflexivity];
         intros o' (st' & Heq & _); discriminate Heq).
  eexists _, _. split; [reflexivity |]. split; [reflexivity |].
  split; [repeat split |]. split.
  - intros o' (st' & Heq & _). inversion Heq; subst. split; reflexivity.
  - intros Hno. exfalso. apply (Hno o). exists st. split; [reflexivity |].
    intros [Hlo Hhi]. apply andb_false_iff in Hst as [Hst | Hst]; lia.
Qed.

Lemma get_user_timezone_total_witness :
  (∃ s', get_user_timezone (constant_api {[ "value" := JStr "Europe/Paris" ]})
           "tok" fresh_cal_world = (Ret (JStr "Europe/Paris"), s') ∧
         cal_requests s' = [timezone_request "tok"]) ∧
  (∃ s', get_user_timezone failing_api "tok" fresh_cal_world = (Ret JNull, s')).
Proof.
  split.
  - destruct (get_user_timezone_total
                (constant_api {[ "value" := JStr "Europe/Paris" ]}) "tok"
                fresh_cal_world)
      as (v & s' & Hrun & Hreq & _ & Hok & _).
    destruct (Hok {[ "value" := JStr "Europe/Paris" ]}) as [-> _].
    { exists 200. split; [reflexivity | lia]. }
    exists s'. split; [exact Hrun | exact Hreq].
  - destruct (get_user_timezone_total failing_api "tok" fresh_cal_world)
      as (v & s' & Hrun & _ & _ & _ & Hfail).
    rewrite Hfail in Hrun.
    + exists s'. exact Hrun.
    + intros o (st & Heq & _). discriminate Heq.
Defined.

(** A loop whose body changes nothing: it gets through when the body
    accepts every element and raises at the first that it refuses. *)
Lemma for_each_pure {A} (body : A → CM unit) (ok : A → bool) (l : list A) s :
  (∀ x s, ok x = true → body x s = (Ret tt, s)) →
  (∀ x s, ok x = false → ∃ e, body x s = (Raise e, s)) →
  (forallb ok l = true → for_each body l s = (Ret tt, s)) ∧
  (forallb ok l = false → ∃ e, for_each body l s = (Raise e, s)).
Proof.
  intros Hok Hno. induction l as [| x l [IHt IHf]]; [split; [reflexivity | discriminate] |].
  cbn [forallb for_each]. split.
  - intros H. apply andb_true_iff in H as [Hx Hl].
    rewrite cal_bind_run, (Hok x s Hx). by apply IHt.
  - intros H. rewrite cal_bind_run.
    destruct (ok x) eqn:Hx.
    + rewrite (Hok x s Hx). apply IHf. exact H.
    + destruct (Hno x s Hx) as [e He]. rewrite He. by exists e.
Qed.

Ltac cal_done :=
  eexists; split;
    [reflexivity | split; [reflexivity | split; [reflexivity | repeat split]]].

Ltac cal_step :=
  rewrite cal_bind_run; unfold lift at 1;
  cbn [cal_world cal_requests utc_reads fst snd].

Ltac loop_runs body Hok Hno Ht Hf :=
  match goal with
  | |- context [for_each body ?l ?s0] =>
      destruct (for_each_pure body event_has_start l s0 Hok Hno) as [Ht Hf]
  end.

(** The run of [list_calendar_events] in closed form. *)
Lemma list_calendar_events_run cenv access_token calendar_id max_results s :
  let rq := events_request access_token calendar_id max_results
              (utc_now cenv (utc_reads s)) in
  let answer := calendar_api cenv (length (cal_requests s)) rq in
  ∃ s',
    list_calendar_events cenv access_token calendar_id max_results s
      = (Ret (listed_events answer), s') ∧
    cal_requests s' = cal_requests s ++ [rq] ∧
    utc_reads s' = S (utc_reads s) ∧
    same_program_state (cal_world s) (cal_world s').
Proof.
  intros rq answer.
  unfold list_calendar_events. rewrite cal_bind_run.
  unfold datetime_now_utc at 1.
  unfold cal_try_except, requests_get.
  rewrite cal_bind_run. unfold cal_send at 1. cbn [cal_requests cal_world utc_reads].
  change (CalRequest "GET" _ _ _ _) with rq.
  change (calendar_api cenv (length (cal_requests s)) rq) with answer.
  clearbody answer.
  match goal with |- context [for_each ?b] => set (body := b) end.
  assert (Hok : ∀ x s0, event_has_start x = true → body x s0 = (Ret tt, s0)).
  { intros x s0 Hx. destruct x as [| | | | |o]; try discriminate Hx. cbn in Hx.
    destruct s0 as [w rs n]. unfold body, getitem.
    destruct (o !! "start") as [[| | | | |so] |]; try discriminate Hx.
    reflexivity. }
  assert (Hno : ∀ x s0, event_has_start x = false →
                        ∃ e, body x s0 = (Raise e, s0)).
  { intros x s0 Hx. destruct s0 as [w rs n]. unfold body, getitem.
    destruct x as [| | | | |o]; try (eexists; reflexivity).
    cbn in Hx.
    destruct (o !! "start") as [[| | | | |so] |]; try discriminate Hx;
      eexists; reflexivity. }
  clearbody body.
  destruct answer as [| st b]; [cal_done |].
  rewrite cal_bind_run. unfold raise_for_status, lift at 1. cbn [fst snd].
  unfold listed_events.
  destruct ((400 <=? st) && (st <? 600)) eqn:Hst;
    [destruct b as [[] |]; cal_done |].
  destruct b as [j |]; [| cal_done].
  destruct j as [| bb | n | str | l | o]; try cal_done.
  cbv [lift json_of dict_get_default mret M_ret CM_ret mbind CM_bind M_bind
       default from_option id].
  cbn [cal_world cal_requests utc_reads].
  destruct (o !! "items") as [events |]; [| cal_done].
  destruct events as [| [] | n | [| c str] | [| e l] | o'];
    try cal_done.
  - (* a number *)
    unfold truthy. destruct (n =? 0); cal_done.
  - (* a text that is not empty: its characters have no [start] *)
    cbn [truthy String.eqb negb py_len py_iter list_ascii_of_string fmap list_fmap].
    cbv [mret M_ret print modify]. cbn [cal_world cal_requests utc_reads].
    loop_runs body Hok Hno Ht Hf.
    destruct Hf as [x Hx]; [reflexivity |]. rewrite Hx. cal_done.
  - (* a list that is not empty *)
    cbn [truthy negb py_len py_iter].
    cbv [mret M_ret print modify]. cbn [cal_world cal_requests utc_reads].
    loop_runs body Hok Hno Ht Hf.
    destruct (forallb event_has_start (e :: l)) eqn:Hall.
    + rewrite (Ht eq_refl). cal_done.
    + destruct (Hf eq_refl) as [x Hx]. rewrite Hx. cal_done.
  - (* an object: its keys have no [start] *)
    unfold truthy, py_len, py_iter.
    destruct (map_to_list o') as [| [k v] r] eqn:Hkeys; [cal_done |].
    cbn [negb fmap list_fmap fst].
    cbv [mret M_ret print modify]. cbn [cal_world cal_requests utc_reads].
    loop_runs body Hok Hno Ht Hf.
    destruct Hf as [x Hx]; [reflexivity |]. rewrite Hx. cal_done.
Qed.

(** X23. [list_calendar_events] never raises.  It reads the wall clock
    once and sends exactly one request, a GET of the calendar's events from
    that time on, limited to [max_results].  Its result is the [items] of
    the answer when the API answers with a success status and an object
    whose [items] is a non-empty list of objects that each have an object
    under [start]; in every other case (transport failure, error status,
    no JSON, no [items], one event without [start]) the result is the
    empty list.  The state of the rest of the program is not touched. *)
Theorem list_calendar_events_result cenv access_token calendar_id max_results s :
  let rq := events_request access_token calendar_id max_results
              (utc_now cenv (utc_reads s)) in
  let answer := calendar_api cenv (length (cal_requests s)) rq in
  ∃ s',
    list_calendar_events cenv access_token calendar_id max_results s
      = (Ret (listed_events answer), s') ∧
    cal_requests s' = cal_requests s ++ [rq] ∧
    utc_reads s' = S (utc_reads s) ∧
    same_program_state (cal_world s) (cal_world s').
Proof. apply list_calendar_events_run. Qed.

Lemma list_calendar_events_result_witness :
  let event := JObj {[ "start" := JObj {[ "date" := JStr "2025-05-27" ]} ]} in
  (∃ s', list_calendar_events (constant_api {[ "items" := JArr [event] ]})
           "tok" "primary" 10 fresh_cal_world = (Ret (JArr [event]), s') ∧
         cal_requests s'
         = [events_request "tok" "primary" 10 "2025-05-26T07:00:00Z"]) ∧
  (∃ s', list_calendar_events
           (constant_api {[ "items" := JArr [event; JObj ∅] ]})
           "tok" "primary" 10 fresh_cal_world = (Ret (JArr []), s')).
Proof.
  intros event. split.
  - destruct (list_calendar_events_result
                (constant_api {[ "items" := JArr [event] ]})
                "tok" "primary" 10 fresh_cal_world)
      as (s' & Hrun & Hreq & _).
    exists s'. split; [exact Hrun | exact Hreq].
  - destruct (list_calendar_events_result
                (constant_api {[ "items" := JArr [event; JObj ∅] ]})
                "tok" "primary" 10 fresh_cal_world)
      as (s' & Hrun & _).
    exists s'. exact Hrun.
Defined.

Lemma same_program_state_refl w : same_program_state w w.
Proof. repeat split. Qed.

Lemma same_program_state_trans w1 w2 w3 :
  same_program_state w1 w2 → same_program_state w2 w3 →
  same_program_state w1 w3.
Proof.
  intros (H1 & H2 & H3 & H4 & H5) (K1 & K2 & K3 & K4 & K5).
  repeat split; congruence.
Qed.

(** The run of [get_user_timezone] in closed form. *)
Lemma get_user_timezone_run cenv access_token s :
  let rq := timezone_request access_token in
  let answer := calendar_api cenv (length (cal_requests s)) rq in
  ∃ w',
    get_user_timezone cenv access_token s
      = (Ret (timezone_of answer),
         MkCalWorld w' (cal_requests s ++ [rq]) (utc_reads s)) ∧
    same_program_state (cal_world s) w'.
Proof.
  intros rq answer.
  unfold get_user_timezone, cal_try_except, requests_get.
  rewrite cal_bind_run. unfold cal_send at 1.
  change (CalRequest "GET" _ _ _ _) with rq.
  change (calendar_api cenv (length (cal_requests s)) rq) with answer.
  clearbody answer. unfold timezone_of.
  destruct answer as [| st b];
    [eexists; split; [reflexivity | repeat split] |].
  rewrite cal_bind_run. unfold raise_for_status, lift at 1. cbn [fst snd].
  destruct ((400 <=? st) && (st <? 600)) eqn:Hst;
    [destruct b as [[] |]; (eexists; split; [reflexivity | repeat split]) |].
  destruct b as [[] |]; (eexists; split; [reflexivity | repeat split]).
Qed.

(** The insertion request of [add_calendar_event] and what is made of
    its answer. *)
Lemma post_event_run cenv u headers body s :
  ∃ w',
    cal_try_except
      (response ← requests_post_json cenv u headers body;
       lift (raise_for_status response);;
       created_event ← lift (json_of response.2);
       mret created_event)
      (λ e,
        lift (print ("An unexpected error occurred while adding event: "
                     +:+ exn_text e));;
        mret JNull) s
      = (Ret (json_or_none (calendar_api cenv (length (cal_requests s))
                              (CalRequest "POST" u headers [] body))),
         MkCalWorld w' (cal_requests s ++ [CalRequest "POST" u headers [] body])
           (utc_reads s)) ∧
    same_program_state (cal_world s) w'.
Proof.
  unfold cal_try_except, requests_post_json.
  rewrite cal_bind_run. unfold cal_send at 1.
  set (rq := CalRequest "POST" u headers [] body).
  destruct (calendar_api cenv (length (cal_requests s)) rq) as [| st b];
    [eexists; split; [reflexivity | repeat split] |].
  rewrite cal_bind_run. unfold raise_for_status, lift at 1. cbn [fst snd].
  unfold json_or_none.
  destruct ((400 <=? st) && (st <? 600)) eqn:Hst;
    destruct b as [j |]; (eexists; split; [reflexivity | repeat split]).
Qed.

(** The run of [add_calendar_event] in closed form. *)
Lemma add_calendar_event_run cenv access_token event_summary
    start_time_str end_time_str calendar_id description s :
  let n := length (cal_requests s) in
  let tz := timezone_of (calendar_api cenv n (timezone_request access_token)) in
  let rq := insert_request access_token event_summary start_time_str
              end_time_str calendar_id description tz in
  ∃ v s',
    add_calendar_event cenv access_token event_summary start_time_str
      end_time_str calendar_id description s = (Ret v, s') ∧
    utc_reads s' = utc_reads s ∧
    same_program_state (cal_world s) (cal_world s') ∧
    (tz = JNull →
       v = JNull ∧
       cal_requests s' = cal_requests s ++ [timezone_request access_token]) ∧
    (tz ≠ JNull →
       v = json_or_none (calendar_api cenv (S n) rq) ∧
       cal_requests s'
         = cal_requests s ++ [timezone_request access_token; rq]).
Proof.
  intros n tz rq.
  unfold add_calendar_event. rewrite cal_bind_run.
  destruct (get_user_timezone_run cenv access_token s) as (w1 & -> & Hw1).
  fold n. fold tz. subst rq. clearbody tz.
  assert (Hpost : ∃ v s',
    cal_try_except
      (response ← requests_post_json cenv
         (GOOGLE_CALENDAR_API_BASE_URL +:+ "/calendars/" +:+ calendar_id
          +:+ "/events")
         (get_auth_headers access_token)
         (cal_json (insert_request access_token event_summary start_time_str
                      end_time_str calendar_id description tz));
       lift (raise_for_status response);;
       created_event ← lift (json_of response.2);
       mret created_event)
      (λ e,
        lift (print ("An unexpected error occurred while adding event: "
                     +:+ exn_text e));;
        mret JNull)
      (MkCalWorld w1 (cal_requests s ++ [timezone_request access_token])
         (utc_reads s)) = (Ret v, s') ∧
    utc_reads s' = utc_reads s ∧
    same_program_state (cal_world s) (cal_world s') ∧
    v = json_or_none (calendar_api cenv (S n)
          (insert_request access_token event_summary start_time_str
             end_time_str calendar_id description tz)) ∧
    cal_requests s'
      = cal_requests s ++ [timezone_request access_token;
          insert_request access_token event_summary start_time_str
            end_time_str calendar_id description tz]).
  { match goal with
    | |- context [cal_try_except (requests_post_json _ ?u ?h ?b ≫= _) _ ?s1] =>
        destruct (post_event_run cenv u h b s1) as (w2 & Hrun & Hw2)
    end.
    eexists _, _. split; [exact Hrun |]. split; [reflexivity |].
    split; [exact (same_program_state_trans _ _ _ Hw1 Hw2) |].
    cbn [cal_requests]. rewrite length_app, Nat.add_1_r.
    split; [reflexivity |]. by rewrite <- app_assoc. }
  destruct Hpost as (v & s' & Hrun & Hclock & Hsame & Hv & Hreq).
  destruct tz;
    try (exists v, s'; split; [exact Hrun |]; split; [exact Hclock |];
         split; [exact Hsame |]; split; [discriminate | done]).
  eexists _, _. split; [reflexivity |]. split; [reflexivity |].
  split.
  - destruct Hw1 as (H1 & H2 & H3 & H4 & H5). repeat split; assumption.
  - split; [done | intros Hne; by destruct Hne].
Qed.

(** X24. [add_calendar_event] never raises and does not read the wall
    clock.  It first asks for the user's timezone.  When that gives [None]
    it returns [None] and sends nothing else.  Otherwise it sends exactly
    one more request, a POST whose body carries the summary, the
    description and the start and end times, both with the timezone just
    read (whatever JSON value that is), and returns the JSON of a successful
    answer, [None] for any other answer.  The state of the rest of the
    program is not touched. *)
Theorem add_calendar_event_result cenv access_token event_summary
    start_time_str end_time_str calendar_id description s :
  let n := length (cal_requests s) in
  let tz := timezone_of (calendar_api cenv n (timezone_request access_token)) in
  let rq := insert_request access_token event_summary start_time_str
              end_time_str calendar_id description tz in
  ∃ v s',
    add_calendar_event cenv access_token event_summary start_time_str
      end_time_str calendar_id description s = (Ret v, s') ∧
    utc_reads s' = utc_reads s ∧
    same_program_state (cal_world s) (cal_world s') ∧
    (tz = JNull →
       v = JNull ∧
       cal_requests s' = cal_requests s ++ [timezone_request access_token]) ∧
    (tz ≠ JNull →
       v = json_or_none (calendar_api cenv (S n) rq) ∧
       cal_requests s'
         = cal_requests s ++ [timezone_request access_token; rq]).
Proof. apply add_calendar_event_run. Qed.

Lemma add_calendar_event_result_witness :
  (∃ s', add_calendar_event (constant_api {[ "value" := JStr "Europe/Paris" ]})
           "tok" "Lunch" "2025-05-26T12:00:00" "2025-05-26T13:00:00"
           "primary" "" fresh_cal_world
         = (Ret (JObj {[ "value" := JStr "Europe/Paris" ]}), s') ∧
         cal_requests s'
         = [timezone_request "tok";
            insert_request "tok" "Lunch" "2025-05-26T12:00:00"
              "2025-05-26T13:00:00" "primary" "" (JStr "Europe/Paris")]) ∧
  (∃ s', add_calendar_event failing_api
           "tok" "Lunch" "2025-05-26T12:00:00" "2025-05-26T13:00:00"
           "primary" "" fresh_cal_world
         = (Ret JNull, s') ∧
         cal_requests s' = [timezone_request "tok"]).
Proof.
  split.
  - destruct (add_calendar_event_result
                (constant_api {[ "value" := JStr "Europe/Paris" ]})
                "tok" "Lunch" "2025-05-26T12:00:00" "2025-05-26T13:00:00"
                "primary" "" fresh_cal_world)
      as (v & s' & Hrun & _ & _ & _ & Hsome).
    destruct Hsome as [-> Hreq]; [discriminate |].
    exists s'. split; [exact Hrun | exact Hreq].
  - destruct (add_calendar_event_result failing_api
                "tok" "Lunch" "2025-05-26T12:00:00" "2025-05-26T13:00:00"
                "primary" "" fresh_cal_world)
      as (v & s' & Hrun & _ & _ & Hnone & _).
    destruct Hnone as [-> Hreq]; [reflexivity |].
    exists s'. split; [exact Hrun | exact Hreq].
Defined.

(** ** The tools *)

Lemma lift_run {A} (m : M A) (s : CalWorld) r w' :
  m (cal_world s) = (r, w') →
  lift m s = (r, MkCalWorld w' (cal_requests s) (utc_reads s)).
Proof. intros H. unfold lift. by rewrite H. Qed.

(** X25. [view_calendar] for a user without a token file answers with
    [[AUTH]], a space and a new ticket, and sends nothing to the calendar
    API.  For a user whose stored record is valid it sends exactly one
    request to the calendar API, the listing of the primary calendar limited
    to ten events with the stored access token as bearer, answers with the
    serialised listing, and issues no ticket. *)
Theorem view_calendar_cases env cenv json_dumps format_value x_user_id s :
  let user_id := default "single_user" x_user_id in
  (no_record (cal_world s) user_id →
     ∃ s',
       view_calendar env cenv json_dumps format_value x_user_id s
         = (Ret ("[AUTH]" +:+ " " +:+ next_ticket env (cal_world s)), s') ∧
       cal_requests s' = cal_requests s ∧
       utc_reads s' = utc_reads s) ∧
  (∀ r, (∀ t, format_value (JStr t) = t) →
        stored_record (cal_world s) user_id r →
        clock env (clock_reads (cal_world s)) < expires_at r - 60 →
        let rq := events_request (access_token r) "primary" 10
                    (utc_now cenv (utc_reads s)) in
        ∃ s',
          view_calendar env cenv json_dumps format_value x_user_id s
            = (Ret (json_dumps
                      (listed_events
                         (calendar_api cenv (length (cal_requests s)) rq))),
               s') ∧
          cal_requests s' = cal_requests s ++ [rq] ∧
          temp_user_oauth_token (cal_world s')
            = temp_user_oauth_token (cal_world s) ∧
          posts (cal_world s') = posts (cal_world s)).
Proof.
  intros user_id. split.
  - intros Hno.
    destruct (tool_prompts env (cal_world s) " " x_user_id Hno)
      as (w' & Hrun & _).
    unfold view_calendar. rewrite cal_bind_run, (lift_run _ _ _ _ Hrun).
    eexists. split; [reflexivity |]. split; reflexivity.
  - intros r Hfmt Hst Hlt rq.
    destruct (tool_continues env (cal_world s) " " x_user_id r Hst Hlt)
      as (w' & Hrun & Htick & Hposts).
    unfold view_calendar. rewrite cal_bind_run, (lift_run _ _ _ _ Hrun).
    rewrite cal_bind_run, Hfmt.
    destruct (list_calendar_events_run cenv (access_token r) "primary" 10
                (MkCalWorld w' (cal_requests s) (utc_reads s)))
      as (s' & -> & Hreq & _ & (_ & Hp & Ht & _)).
    cbn [cal_world cal_requests utc_reads] in *.
    exists s'. split; [reflexivity |]. split; [exact Hreq |].
    split; congruence.
Qed.

Lemma view_calendar_cases_witness :
  (∃ s',
     view_calendar demo_env failing_api demo_dumps demo_format None
       fresh_cal_world
       = (Ret ("[AUTH]" +:+ " " +:+ next_ticket demo_env (fresh_world ∅)), s') ∧
     cal_requests s' = []) ∧
  (∃ s',
     view_calendar demo_env (constant_api {[ "items" := JArr [demo_event] ]})
       demo_dumps demo_format (Some "u1") (cal_world_with fresh_record)
       = (Ret "value", s') ∧
     cal_requests s'
       = [events_request "at1" "primary" 10 "2025-05-26T07:00:00Z"]).
Proof.
  split.
  - destruct (proj1 (view_calendar_cases demo_env failing_api demo_dumps
                       demo_format None fresh_cal_world))
      as (s' & Hrun & Hreq & _); [reflexivity |].
    exists s'. split; [exact Hrun | exact Hreq].
  - destruct (proj2 (view_calendar_cases demo_env
                       (constant_api {[ "items" := JArr [demo_event] ]})
                       demo_dumps demo_format (Some "u1")
                       (cal_world_with fresh_record)) fresh_record)
      as (s' & Hrun & Hreq & _).
    + intros t. reflexivity.
    + apply stored_record_world_with. discriminate.
    + vm_compute. reflexivity.
    + exists s'. split; [exact Hrun | exact Hreq].
Defined.

(** X26. [add_event_to_calendar] for a user without a token file answers
    with [[AUTH]], a line feed and a new ticket, and sends nothing to the
    calendar API.  For a user whose stored record is valid it asks the
    calendar API for the timezone with the stored access token as bearer
    and, unless that gives [None], inserts into the primary calendar an
    event whose summary is [details] and whose description is empty; it
    answers with the serialised result and issues no ticket. *)
Theorem add_event_to_calendar_cases env cenv json_dumps format_value
    details start_time end_time x_user_id s :
  let user_id := default "single_user" x_user_id in
  (no_record (cal_world s) user_id →
     ∃ s',
       add_event_to_calendar env cenv json_dumps format_value
         details start_time end_time x_user_id s
         = (Ret ("[AUTH]" +:+ line_feed +:+ next_ticket env (cal_world s)), s') ∧
       cal_requests s' = cal_requests s ∧
       utc_reads s' = utc_reads s) ∧
  (∀ r, (∀ t, format_value (JStr t) = t) →
        stored_record (cal_world s) user_id r →
        clock env (clock_reads (cal_world s)) < expires_at r - 60 →
        let n := length (cal_requests s) in
        let tzrq := timezone_request (access_token r) in
        let tz := timezone_of (calendar_api cenv n tzrq) in
        let rq := insert_request (access_token r) details start_time end_time
                    "primary" "" tz in
        ∃ v s',
          add_event_to_calendar env cenv json_dumps format_value
            details start_time end_time x_user_id s
            = (Ret (json_dumps v), s') ∧
          temp_user_oauth_token (cal_world s')
            = temp_user_oauth_token (cal_world s) ∧
          posts (cal_world s') = posts (cal_world s) ∧
          (tz = JNull →
             v = JNull ∧ cal_requests s' = cal_requests s ++ [tzrq]) ∧
          (tz ≠ JNull →
             v = json_or_none (calendar_api cenv (S n) rq) ∧
             cal_requests s' = cal_requests s ++ [tzrq; rq])).
Proof.
  intros user_id. split.
  - intros Hno.
    destruct (tool_prompts env (cal_world s) line_feed x_user_id Hno)
      as (w' & Hrun & _).
    unfold add_event_to_calendar.
    rewrite cal_bind_run, (lift_run _ _ _ _ Hrun).
    eexists. split; [reflexivity |]. split; reflexivity.
  - intros r Hfmt Hst Hlt n tzrq tz rq.
    destruct (tool_continues env (cal_world s) line_feed x_user_id r Hst Hlt)
      as (w' & Hrun & Htick & Hposts).
    unfold add_event_to_calendar.
    rewrite cal_bind_run, (lift_run _ _ _ _ Hrun).
    rewrite cal_bind_run, Hfmt.
    destruct (add_calendar_event_run cenv (access_token r) details start_time
                end_time "primary" ""
                (MkCalWorld w' (cal_requests s) (utc_reads s)))
      as (v & s' & -> & _ & (_ & Hp & Ht & _) & Hnone & Hsome).
    cbn [cal_world cal_requests utc_reads] in *.
    exists v, s'. split; [reflexivity |].
    split; [congruence |]. split; [congruence |].
    split; [exact Hnone | exact Hsome].
Qed.

Lemma add_event_to_calendar_cases_witness :
  (∃ s',
     add_event_to_calendar demo_env failing_api demo_dumps demo_format
       "Lunch" "2025-05-26T12:00:00" "2025-05-26T13:00:00" None
       fresh_cal_world
       = (Ret ("[AUTH]" +:+ line_feed +:+ next_ticket demo_env (fresh_world ∅)),
          s') ∧
     cal_requests s' = []) ∧
  (∃ s',
     add_event_to_calendar demo_env
       (constant_api {[ "value" := JStr "Europe/Paris" ]})
       demo_dumps demo_format
       "Lunch" "2025-05-26T12:00:00" "2025-05-26T13:00:00" (Some "u1")
       (cal_world_with fresh_record)
       = (Ret "value", s') ∧
     cal_requests s'
       = [timezone_request "at1";
          insert_request "at1" "Lunch" "2025-05-26T12:00:00"
            "2025-05-26T13:00:00" "primary" "" (JStr "Europe/Paris")]).
Proof.
  split.
  - destruct (proj1 (add_event_to_calendar_cases demo_env failing_api
                       demo_dumps demo_format "Lunch" "2025-05-26T12:00:00"
                       "2025-05-26T13:00:00" None fresh_cal_world))
      as (s' & Hrun & Hreq & _); [reflexivity |].
    exists s'. split; [exact Hrun | exact Hreq].
  - destruct (proj2 (add_event_to_calendar_cases demo_env
                       (constant_api {[ "value" := JStr "Europe/Paris" ]})
                       demo_dumps demo_format "Lunch" "2025-05-26T12:00:00"
                       "2025-05-26T13:00:00" (Some "u1")
                       (cal_world_with fresh_record)) fresh_record)
      as (v & s' & Hrun & _ & _ & _ & Hsome).
    + intros t. reflexivity.
    + apply stored_record_world_with. discriminate.
    + vm_compute. reflexivity.
    + destruct Hsome as [-> Hreq]; [discriminate |].
      exists s'. split; [exact Hrun | exact Hreq].
Defined.

(** ** The Bearer gate *)


















(** ** The authorization flow through the gate *)



